(** * TextAnaSearch: tokenizer, frequency tables, inverted index, retriever

    A shallow embedding of the Python classes [TextProcessor],
    [SimpleIndexer], [FrequencyAnalyzer] and [DocumentRetriever] and of the
    handlers of [CLIManager] that load, search and save, with the
    properties of them that the specification states and others that the
    code shows.

    Conventions of the embedding:
    - a Python [int] is a [Z];
    - a Python [str] is a [string]; the character tables ([str.lower], the
      regular-expression classes \w and \s) are those of the code points
      0..255;
    - a Python [dict] is an association list in insertion order whose keys
      are pairwise distinct ([Dict.wf]); a [Counter] is such a dict of
      integers that reads 0 at a missing key;
    - a method that can raise returns a [result]; a method that mutates
      [self] returns the new object;
    - an attribute that has not been assigned yet is [None]. *)

From Stdlib Require Import String Ascii List ZArith NArith Lia Bool.
From Stdlib Require Import DecimalString.
From Stdlib Require Import Sorting.Sorted Sorting.Permutation.
Import ListNotations.

Local Open Scope string_scope.
Local Open Scope Z_scope.

(** ** Exceptions *)

(** The exceptions the four classes can raise.  [AttributeError] carries the
    class and the attribute that is missing; the others carry the path or the
    document the message of the source is built from. *)
Inductive exn : Type :=
| AttributeError (cls attr : string)
| KeyError (filepath : string)
| FileNotFoundError (path : string)
| IOError (path : string).

Inductive result (A : Type) : Type :=
| Ok (a : A)
| Raise (e : exn).

Arguments Ok {A} a.
Arguments Raise {A} e.

(** ** Python dictionaries, in insertion order *)

Module Dict.

Definition mem (x : string) (l : list string) : bool :=
  existsb (String.eqb x) l.

Fixpoint distinct (l : list string) : bool :=
  match l with
  | [] => true
  | x :: l' => negb (mem x l') && distinct l'
  end.

Section Ops.
Context {V : Type}.

(** [d.get(k)] *)
Fixpoint get (d : list (string * V)) (k : string) : option V :=
  match d with
  | [] => None
  | (k', v) :: d' => if String.eqb k' k then Some v else get d' k
  end.

(** [k in d] *)
Definition contains (d : list (string * V)) (k : string) : bool :=
  match get d k with Some _ => true | None => false end.

(** [d.get(k, default)] *)
Definition get_or (d : list (string * V)) (k : string) (default : V) : V :=
  match get d k with Some v => v | None => default end.

(** [d[k] = v]: an existing key keeps its place, a new key goes last. *)
Fixpoint set (d : list (string * V)) (k : string) (v : V)
  : list (string * V) :=
  match d with
  | [] => [(k, v)]
  | (k', v') :: d' =>
      if String.eqb k' k then (k', v) :: d' else (k', v') :: set d' k v
  end.

(** [d.setdefault(k, v)], for its effect on [d] *)
Definition setdefault (d : list (string * V)) (k : string) (v : V)
  : list (string * V) :=
  if contains d k then d else set d k v.

Definition keys (d : list (string * V)) : list string := map fst d.
Definition values (d : list (string * V)) : list V := map snd d.

(** The keys of a dictionary are pairwise distinct. *)
Definition wf (d : list (string * V)) : Prop := distinct (keys d) = true.
End Ops.

End Dict.

Notation dict V := (list (string * V)).

(** ** Strings *)

Module Str.

Definition code (c : ascii) : N := N_of_ascii c.

Definition between (lo hi n : N) : bool := ((lo <=? n) && (n <=? hi))%N.

(** [str.lower] on one character: A-Z, and the upper-case letters
    U+00C0..U+00DE except the multiplication sign U+00D7. *)
Definition lower_char (c : ascii) : ascii :=
  let n := code c in
  if between 65 90 n || between 192 214 n || between 216 222 n
  then ascii_of_N (n + 32) else c.

Fixpoint lower (s : string) : string :=
  match s with
  | EmptyString => EmptyString
  | String c s' => String (lower_char c) (lower s')
  end.

(** The class \s, which is also what [str.split()] splits on. *)
Definition isspace (c : ascii) : bool :=
  let n := code c in
  between 9 13 n || between 28 32 n || (n =? 133)%N || (n =? 160)%N.

(** The class \w: alphanumeric characters and the underscore. *)
Definition isword (c : ascii) : bool :=
  let n := code c in
  between 48 57 n || between 65 90 n || (n =? 95)%N || between 97 122 n
  || (n =? 170)%N || between 178 179 n || (n =? 181)%N
  || between 185 186 n || between 188 190 n
  || between 192 214 n || between 216 246 n || between 248 255 n.

(** [re.sub(r'[^\w\s]', '', s)] *)
Fixpoint strip_punctuation (s : string) : string :=
  match s with
  | EmptyString => EmptyString
  | String c s' =>
      if isword c || isspace c then String c (strip_punctuation s')
      else strip_punctuation s'
  end.

Definition rev_string (cur : list ascii) : string :=
  string_of_list_ascii (rev cur).

(** [s.split()]: the maximal runs of characters that are not white space.
    [cur] is the run being read, last character first. *)
Fixpoint split_from (cur : list ascii) (s : string) : list string :=
  match s with
  | EmptyString =>
      match cur with [] => [] | _ => [rev_string cur] end
  | String c s' =>
      if isspace c then
        match cur with
        | [] => split_from [] s'
        | _ => rev_string cur :: split_from [] s'
        end
      else split_from (c :: cur) s'
  end.

Definition split (s : string) : list string := split_from [] s.

(** [s.endswith(suffix)] *)
Definition endswith (s suffix : string) : bool :=
  let n := String.length s in
  let m := String.length suffix in
  (m <=? n)%nat && String.eqb (substring (n - m) m s) suffix.

Definition newline : ascii := ascii_of_N 10.

(** The lines of a text as [readlines] gives them: each line keeps its
    newline, the last line may have none. *)
Fixpoint lines_from (cur : list ascii) (s : string) : list string :=
  match s with
  | EmptyString =>
      match cur with [] => [] | _ => [rev_string cur] end
  | String c s' =>
      if Ascii.eqb c newline then rev_string (c :: cur) :: lines_from [] s'
      else lines_from (c :: cur) s'
  end.

Definition readlines (s : string) : list string := lines_from [] s.

Fixpoint lstrip_newline (s : string) : string :=
  match s with
  | EmptyString => EmptyString
  | String c s' => if Ascii.eqb c newline then lstrip_newline s' else s
  end.

Fixpoint drop_newlines (l : list ascii) : list ascii :=
  match l with
  | c :: l' => if Ascii.eqb c newline then drop_newlines l' else l
  | [] => []
  end.

(** [s.strip('\n')] *)
Definition strip_newline (s : string) : string :=
  string_of_list_ascii
    (rev (drop_newlines (rev (list_ascii_of_string (lstrip_newline s))))).

Fixpoint drop_spaces (l : list ascii) : list ascii :=
  match l with
  | c :: l' => if isspace c then drop_spaces l' else l
  | [] => []
  end.

(** [s.strip()]: without the white space at both ends. *)
Definition strip (s : string) : string :=
  string_of_list_ascii
    (rev (drop_spaces (rev (drop_spaces (list_ascii_of_string s))))).


End Str.

(** ** Sorting and sets *)

Module Py.

Section Sorted.
Context {A : Type}.

(** One step of a stable sort by decreasing score: [x] stood before every
    pair of [l] in the input, so it goes before the pairs of equal
    score. *)
Fixpoint insert_desc (x : A * Z) (l : list (A * Z)) : list (A * Z) :=
  match l with
  | [] => [x]
  | y :: l' => if snd y <=? snd x then x :: l else y :: insert_desc x l'
  end.

(** [sorted(l, key=lambda pair: pair[1], reverse=True)]: the sort is
    stable, pairs of equal score keep the order of [l]. *)
Definition sorted_by_score_desc (l : list (A * Z)) : list (A * Z) :=
  fold_right insert_desc [] l.
End Sorted.

(** [x in l] *)
Definition mem (x : string) (l : list string) : bool := Dict.mem x l.

(** [set(l)], as the list of its elements.  The order in which Python
    iterates over a set is not specified; the model takes the order of
    first occurrence. *)
Fixpoint set_of (l : list string) : list string :=
  match l with
  | [] => []
  | x :: l' => x :: filter (fun y => negb (String.eqb x y)) (set_of l')
  end.

(** [set.intersection( *sets )], for one set at least *)
Definition intersection (sets : list (list string)) : list string :=
  match sets with
  | [] => []
  | s :: others => filter (fun x => forallb (mem x) others) s
  end.

(** [enumerate(l, start)] *)
Fixpoint enumerate {A : Type} (start : Z) (l : list A) : list (Z * A) :=
  match l with
  | [] => []
  | x :: l' => (start, x) :: enumerate (start + 1) l'
  end.

End Py.

(** ** collections.Counter *)

Module Counter.

Definition t : Type := dict Z.

(** [c[k]], and [c.get(k, 0)]: a missing key counts 0. *)
Definition count (c : t) (k : string) : Z := Dict.get_or c k 0.

(** [Counter(tokens)] *)
Definition of_tokens (tokens : list string) : t :=
  fold_left (fun c tok => Dict.set c tok (count c tok + 1)) tokens [].

(** [self.update(other)] for a mapping [other]: counts are added. *)
Definition update (self other : t) : t :=
  fold_left (fun c '(elem, n) => Dict.set c elem (n + count c elem))
            other self.

(** [c.most_common(n)]: [heapq.nlargest(n, c.items(), key=count)], that is
    the first [n] pairs of the stable sort by decreasing count, and no pair
    when [n] is negative. *)
Definition most_common (c : t) (n : Z) : list (string * Z) :=
  firstn (Z.to_nat n) (Py.sorted_by_score_desc c).

End Counter.

(** ** TextProcessor *)

(** What [process_documents] sees of the file system: [os.path.isdir],
    [os.path.isfile], [os.walk] (for each directory under the path, its name
    and the names of its files) and the text of a file as [open] in text
    mode gives it, decoded and with its line ends translated to newlines
    ([None] when the file cannot be opened or read).  The file system does
    not change during a call. *)
Record FileSystem : Type := {
  isdir : string -> bool;
  isfile : string -> bool;
  walk : string -> list (string * list string);
  read_text : string -> option string
}.

Module TextProcessor.

Record t : Type := {
  docs_raw : dict string;
  docs_tokens : dict (list string);
  docs_lines : dict (list string)
}.

(** [TextProcessor()]: the object [__init__] leaves. *)
Definition __init__ : t :=
  {| docs_raw := []; docs_tokens := []; docs_lines := [] |}.

Definition _is_text_file (filename : string) : bool :=
  Str.endswith (Str.lower filename) ".txt".

Definition _read_file (fs : FileSystem) (filepath : string) : result string :=
  match read_text fs filepath with
  | Some text => Ok text
  | None => Raise (IOError filepath)
  end.

Definition _read_lines (fs : FileSystem) (filepath : string)
  : result (list string) :=
  match read_text fs filepath with
  | Some text => Ok (Str.readlines text)
  | None => Raise (IOError filepath)
  end.

Definition _clean_and_tokenize (text : string) : list string :=
  let text := Str.lower text in
  let text := Str.strip_punctuation text in
  let tokens := Str.split text in
  filter (fun tok => negb (String.eqb tok "")) tokens.

(** [os.path.join(root, fname)] *)
Definition path_join (root fname : string) : string :=
  if String.prefix "/" fname then fname
  else if String.eqb root "" || Str.endswith root "/" then root ++ fname
  else root ++ "/" ++ fname.

(** The text files [os.walk(p)] finds, in the order of the walk. *)
Definition walk_text_files (fs : FileSystem) (p : string) : list string :=
  flat_map (fun '(root, files) =>
              map (path_join root) (filter _is_text_file files))
           (walk fs p).

(** The first loop of [process_documents]: the files to read, or the
    [FileNotFoundError] of the first path that is neither a directory nor a
    text file. *)
Fixpoint resolve (fs : FileSystem) (to_process paths : list string)
  : result (list string) :=
  match paths with
  | [] => Ok to_process
  | p :: paths' =>
      if isdir fs p then
        resolve fs (to_process ++ walk_text_files fs p) paths'
      else if isfile fs p && _is_text_file p then
        resolve fs (to_process ++ [p]) paths'
      else Raise (FileNotFoundError p)
  end.

(** The second loop: every file is read and stored; a file that cannot be
    read stops the loop, the files before it stay stored. *)
Fixpoint load (fs : FileSystem) (self : t) (to_process : list string)
  : result unit * t :=
  match to_process with
  | [] => (Ok tt, self)
  | filepath :: rest =>
      match _read_file fs filepath with
      | Raise e => (Raise e, self)
      | Ok raw =>
          let self1 := {| docs_raw := Dict.set (docs_raw self) filepath raw;
                          docs_tokens := docs_tokens self;
                          docs_lines := docs_lines self |} in
          match _read_lines fs filepath with
          | Raise e => (Raise e, self1)
          | Ok lignes =>
              let self2 :=
                {| docs_raw := docs_raw self1;
                   docs_tokens := docs_tokens self1;
                   docs_lines := Dict.set (docs_lines self1) filepath
                                   (map Str.strip_newline lignes) |} in
              let tokens := _clean_and_tokenize raw in
              let self3 :=
                {| docs_raw := docs_raw self2;
                   docs_tokens := Dict.set (docs_tokens self2) filepath tokens;
                   docs_lines := docs_lines self2 |} in
              load fs self3 rest
          end
      end
  end.

Definition process_documents (fs : FileSystem) (self : t)
  (paths : list string) : result unit * t :=
  match resolve fs [] paths with
  | Raise e => (Raise e, self)
  | Ok to_process => load fs self to_process
  end.

Definition get_raw (self : t) := docs_raw self.
Definition get_tokens (self : t) := docs_tokens self.
Definition get_lines (self : t) := docs_lines self.

End TextProcessor.

(** ** SimpleIndexer *)

Module SimpleIndexer.

Definition index_t : Type := dict (dict (list Z)).

(** The attribute [index] exists once [_init_] or [build_index] has run. *)
Record t : Type := { index : option index_t }.

(** [SimpleIndexer()]: the class defines no [__init__], the method that
    creates the attribute is named [_init_] and construction does not call
    it. *)
Definition new : t := {| index := None |}.

Definition _init_ (self : t) : t := {| index := Some [] |}.

(** The body of the innermost loop of [build_index]. *)
Definition add_occurrence (filepath : string) (idx : Z)
  (index : index_t) (mot : string) : index_t :=
  let index1 := if Dict.contains index mot then index
                else Dict.set index mot [] in
  let entry := Dict.get_or index1 mot [] in
  let entry1 := if Dict.contains entry filepath then entry
                else Dict.set entry filepath [] in
  let lignes := Dict.get_or entry1 filepath [] in
  Dict.set index1 mot (Dict.set entry1 filepath (lignes ++ [idx])%list).

Definition tokenize_line (raw_line : string) : list string :=
  let line := Str.lower raw_line in
  let line_clean := Str.strip_punctuation line in
  Str.split line_clean.

Definition index_line (filepath : string) (index : index_t)
  (numbered : Z * string) : index_t :=
  let '(idx, raw_line) := numbered in
  fold_left (add_occurrence filepath idx) (tokenize_line raw_line) index.

Definition index_document (index : index_t)
  (doc : string * list string) : index_t :=
  let '(filepath, lines) := doc in
  fold_left (index_line filepath) (Py.enumerate 1 lines) index.

Definition built_index (docs_lines : dict (list string)) : index_t :=
  fold_left index_document docs_lines [].

Definition build_index (self : t) (docs_lines : dict (list string)) : t :=
  {| index := Some (built_index docs_lines) |}.

Definition search_word (self : t) (word : string)
  : result (dict (list Z)) :=
  let mot := Str.lower word in
  match index self with
  | None => Raise (AttributeError "SimpleIndexer" "index")
  | Some idx => Ok (Dict.get_or idx mot [])
  end.

Definition get_index (self : t) : result index_t :=
  match index self with
  | None => Raise (AttributeError "SimpleIndexer" "index")
  | Some idx => Ok idx
  end.

End SimpleIndexer.

(** ** FrequencyAnalyzer *)

Module FrequencyAnalyzer.

(** Both attributes exist once the method that assigns them has run. *)
Record t : Type := {
  freq_per_doc : option (dict Counter.t);
  corpus_freq : option Counter.t
}.

(** [FrequencyAnalyzer()]: as for [SimpleIndexer], the initialiser is named
    [_init_] and is not called. *)
Definition new : t := {| freq_per_doc := None; corpus_freq := None |}.

Definition _init_ (self : t) : t :=
  {| freq_per_doc := Some []; corpus_freq := Some [] |}.

Definition per_document (docs_tokens : dict (list string)) : dict Counter.t :=
  fold_left (fun acc '(filepath, tokens) =>
               Dict.set acc filepath (Counter.of_tokens tokens))
            docs_tokens [].

Definition compute_frequency_per_document (self : t)
  (docs_tokens : dict (list string)) : t :=
  {| freq_per_doc := Some (per_document docs_tokens);
     corpus_freq := corpus_freq self |}.

Definition aggregate (counters : list Counter.t) : Counter.t :=
  fold_left Counter.update counters [].

(** [corpus_freq] is assigned before [freq_per_doc] is read. *)
Definition compute_corpus_frequency (self : t) : result unit * t :=
  let self1 := {| freq_per_doc := freq_per_doc self;
                  corpus_freq := Some [] |} in
  match freq_per_doc self1 with
  | None => (Raise (AttributeError "FrequencyAnalyzer" "freq_per_doc"), self1)
  | Some tables =>
      (Ok tt, {| freq_per_doc := freq_per_doc self1;
                 corpus_freq := Some (aggregate (Dict.values tables)) |})
  end.

Definition get_top_n_in_document (self : t) (filepath : string) (n : Z)
  : result (list (string * Z)) :=
  match freq_per_doc self with
  | None => Raise (AttributeError "FrequencyAnalyzer" "freq_per_doc")
  | Some tables =>
      match Dict.get tables filepath with
      | None => Raise (KeyError filepath)
      | Some counter => Ok (Counter.most_common counter n)
      end
  end.

Definition get_top_n_in_corpus (self : t) (n : Z)
  : result (list (string * Z)) :=
  match corpus_freq self with
  | None => Raise (AttributeError "FrequencyAnalyzer" "corpus_freq")
  | Some counter => Ok (Counter.most_common counter n)
  end.

End FrequencyAnalyzer.

(** ** DocumentRetriever *)

Module DocumentRetriever.

Record t : Type := {
  index : SimpleIndexer.index_t;
  freq_per_doc : dict Counter.t
}.

(** [DocumentRetriever(index, freq_per_doc)] *)
Definition __init__ (index : SimpleIndexer.index_t)
  (freq_per_doc : dict Counter.t) : t :=
  {| index := index; freq_per_doc := freq_per_doc |}.

(** [self.freq_per_doc.get(filepath, Counter()).get(mot, 0)] *)
Definition frequency (self : t) (filepath mot : string) : Z :=
  Dict.get_or (Dict.get_or (freq_per_doc self) filepath []) mot 0.

(** The body of the inner loop of [retrieve]. *)
Definition add_score (self : t) (mot : string)
  (docs_with_keyword : dict Z) (item : string * list Z) : dict Z :=
  let '(filepath, _) := item in
  let freq := frequency self filepath mot in
  let docs1 := Dict.setdefault docs_with_keyword filepath 0 in
  Dict.set docs1 filepath (Dict.get_or docs1 filepath 0 + freq).

(** The body of the outer loop of [retrieve]. *)
Definition add_keyword (self : t) (docs_with_keyword : dict Z)
  (kw : string) : dict Z :=
  let mot := Str.lower kw in
  match Dict.get (index self) mot with
  | Some entry => fold_left (add_score self mot) entry docs_with_keyword
  | None => docs_with_keyword
  end.

Definition scores (self : t) (keywords : list string) : dict Z :=
  fold_left (add_keyword self) keywords [].

Definition retrieve (self : t) (keywords : list string)
  : list (string * Z) :=
  match keywords with
  | [] => []
  | _ => Py.sorted_by_score_desc (scores self keywords)
  end.

Definition docs_for (self : t) (kw : string) : list string :=
  let mot := Str.lower kw in
  Py.set_of (Dict.keys (Dict.get_or (index self) mot [])).

Definition and_score (self : t) (keywords : list string)
  (filepath : string) : Z :=
  fold_left (fun score kw =>
               let mot := Str.lower kw in
               score + frequency self filepath mot)
            keywords 0.

Definition boolean_and_retrieve (self : t) (keywords : list string)
  : list (string * Z) :=
  match keywords with
  | [] => []
  | _ =>
      let sets_of_docs := map (docs_for self) keywords in
      let docs_intersection := Py.intersection sets_of_docs in
      let resultats :=
        map (fun filepath => (filepath, and_score self keywords filepath))
            docs_intersection in
      Py.sorted_by_score_desc resultats
  end.

End DocumentRetriever.

(** ** CLIManager *)

(** The handlers of the command loop, as functions of the session, of what
    the user types and of the file system.  What a handler prints is
    returned as a report that holds the data of the lines printed, not
    their wording; an exception that a handler does not catch ends [run]
    and is returned as [Raise]. *)
Module CLIManager.

Record t : Type := {
  text_processor : TextProcessor.t;
  freq_analyzer : FrequencyAnalyzer.t;
  indexer : SimpleIndexer.t;
  retriever : option DocumentRetriever.t;
  loaded : bool
}.

(** [CLIManager()]: the object [__init__] leaves; [retriever] is Python's
    [None]. *)
Definition __init__ : t :=
  {| text_processor := TextProcessor.__init__;
     freq_analyzer := FrequencyAnalyzer.new;
     indexer := SimpleIndexer.new;
     retriever := None;
     loaded := false |}.

(** [DocumentRetriever(index=self.indexer.get_index(),
    freq_per_doc=self.freq_analyzer.freq_per_doc)] *)
Definition new_retriever (self : t) : result DocumentRetriever.t :=
  match SimpleIndexer.get_index (indexer self) with
  | Raise e => Raise e
  | Ok index =>
      match FrequencyAnalyzer.freq_per_doc (freq_analyzer self) with
      | None => Raise (AttributeError "FrequencyAnalyzer" "freq_per_doc")
      | Some tables => Ok (DocumentRetriever.__init__ index tables)
      end
  end.

(** The analysis of the frequencies and the new retriever, the lines that
    [_handle_load] and choice 2 of [run] have in common. *)
Definition analyse (self : t) : result unit * t :=
  let docs_tokens := TextProcessor.get_tokens (text_processor self) in
  let fa1 :=
    FrequencyAnalyzer.compute_frequency_per_document (freq_analyzer self)
      docs_tokens in
  let '(outcome, fa2) := FrequencyAnalyzer.compute_corpus_frequency fa1 in
  let self1 := {| text_processor := text_processor self;
                  freq_analyzer := fa2;
                  indexer := indexer self;
                  retriever := retriever self;
                  loaded := loaded self |} in
  match outcome with
  | Raise e => (Raise e, self1)
  | Ok _ =>
      match new_retriever self1 with
      | Raise e => (Raise e, self1)
      | Ok r =>
          (Ok tt, {| text_processor := text_processor self1;
                     freq_analyzer := freq_analyzer self1;
                     indexer := indexer self1;
                     retriever := Some r;
                     loaded := loaded self1 |})
      end
  end.

(** [_handle_load], for the paths [_input_paths] returned: the session
    after it, and the exception it caught and printed, if any. *)
Definition _handle_load (fs : FileSystem) (self : t) (chemins : list string)
  : t * option exn :=
  let '(outcome, tp) :=
    TextProcessor.process_documents fs (text_processor self) chemins in
  let self1 := {| text_processor := tp;
                  freq_analyzer := freq_analyzer self;
                  indexer := indexer self;
                  retriever := retriever self;
                  loaded := loaded self |} in
  match outcome with
  | Raise e => (self1, Some e)
  | Ok _ =>
      let docs_lines := TextProcessor.get_lines (text_processor self1) in
      let self2 :=
        {| text_processor := text_processor self1;
           freq_analyzer := freq_analyzer self1;
           indexer := SimpleIndexer.build_index (indexer self1) docs_lines;
           retriever := retriever self1;
           loaded := loaded self1 |} in
      match analyse self2 with
      | (Raise e, self3) => (self3, Some e)
      | (Ok _, self3) =>
          ({| text_processor := text_processor self3;
              freq_analyzer := freq_analyzer self3;
              indexer := indexer self3;
              retriever := retriever self3;
              loaded := true |}, None)
      end
  end.

(** Choice 2 of [run]: the frequencies are computed again when documents
    are loaded; no exception is caught there. *)
Definition run_choice_2 (self : t) : result unit * t :=
  if negb (loaded self) then (Ok tt, self) else analyse self.

(** What [_handle_search_word] prints. *)
Inductive search_report : Type :=
| NotLoaded
| NoOccurrence (mot : string)
| Occurrences (mot : string)
    (found : list (string * list (Z * option string))).

(** For a document, each line number of the index with the line it names,
    or [None] where the handler prints that the number is invalid. *)
Definition report_lines (lines : list string) (lignes_idx : list Z)
  : list (Z * option string) :=
  map (fun num =>
         if (1 <=? num) && (num <=? Z.of_nat (length lines))
         then (num, Some (nth (Z.to_nat (num - 1)) lines ""))
         else (num, None))
      lignes_idx.

(** The loop over [occurrences.items()]; [self.text_processor.get_lines()
    [filepath]] raises [KeyError] for a document the store does not
    have. *)
Fixpoint report_documents (docs_lines : dict (list string))
  (occurrences : dict (list Z))
  : result (list (string * list (Z * option string))) :=
  match occurrences with
  | [] => Ok []
  | (filepath, lignes_idx) :: rest =>
      match Dict.get docs_lines filepath with
      | None => Raise (KeyError filepath)
      | Some lines =>
          match report_documents docs_lines rest with
          | Raise e => Raise e
          | Ok found => Ok ((filepath, report_lines lines lignes_idx) :: found)
          end
      end
  end.

(** [_handle_search_word], for the text the user types. *)
Definition _handle_search_word (self : t) (saisie : string)
  : result search_report :=
  if negb (loaded self) then Ok NotLoaded
  else
    let mot := Str.lower (Str.strip saisie) in
    match SimpleIndexer.search_word (indexer self) mot with
    | Raise e => Raise e
    | Ok occurrences =>
        match occurrences with
        | [] => Ok (NoOccurrence mot)
        | _ =>
            match report_documents
                    (TextProcessor.get_lines (text_processor self))
                    occurrences with
            | Raise e => Raise e
            | Ok found => Ok (Occurrences mot found)
            end
        end
    end.


Definition nl : string := String Str.newline EmptyString.




End CLIManager.

(** * Vocabulary of the properties *)

Definition total (l : list Z) : Z := fold_right Z.add 0 l.

(** The sum of the counts a list of pairs gives for [k]. *)
Definition mass (c : dict Z) (k : string) : Z :=
  total (map snd (filter (fun p => String.eqb (fst p) k) c)).

(** [x] does not score less than [y]. *)
Definition score_ge {A : Type} (x y : A * Z) : Prop := snd y <= snd x.

(** ** Reading the inverted index *)

(** [index[mot][filepath]], when both keys exist. *)
Definition lookup (index : SimpleIndexer.index_t) (mot filepath : string)
  : option (list Z) :=
  match Dict.get index mot with
  | Some entry => Dict.get entry filepath
  | None => None
  end.

(** What appending the line numbers [l] one by one makes of an entry: an
    entry exists once a first number is appended. *)
Definition extend (o : option (list Z)) (l : list Z) : option (list Z) :=
  match l with
  | [] => o
  | _ => Some (match o with Some l0 => l0 | None => [] end ++ l)%list
  end.

(** The number of occurrences of [tok] on a raw line. *)
Definition occurrences_on (tok raw_line : string) : nat :=
  count_occ string_dec (SimpleIndexer.tokenize_line raw_line) tok.

(** The line numbers of the occurrences of [tok] in numbered lines. *)
Definition hits (tok : string) (numbered : list (Z * string)) : list Z :=
  flat_map (fun '(idx, raw_line) => repeat idx (occurrences_on tok raw_line))
           numbered.

(** Line [k] of a document, lines being numbered from 1. *)
Definition line_at (lines : list string) (k : Z) : option string :=
  if 1 <=? k then nth_error lines (Z.to_nat (k - 1)) else None.

(** ** Paths [process_documents] rejects *)

(** [p] is neither a directory nor a text file. *)
Definition unresolvable (fs : FileSystem) (p : string) : bool :=
  negb (isdir fs p) && negb (isfile fs p && TextProcessor._is_text_file p).

(** ** Reading the results of the retriever *)

(** The score of a document in a result list, 0 when it is not listed. *)
Definition score (res : list (string * Z)) (d : string) : Z :=
  Dict.get_or res d 0.

(** The entry of the index for a keyword, empty when the lower-cased
    keyword is not in the index. *)
Definition entry_of (self : DocumentRetriever.t) (kw : string)
  : dict (list Z) :=
  Dict.get_or (DocumentRetriever.index self) (Str.lower kw) [].

(** [d] is listed in the index under the keyword. *)
Definition listed (self : DocumentRetriever.t) (kw d : string) : bool :=
  Dict.contains (entry_of self kw) d.

(** How many items of the entry of the keyword are for [d]: 0 or 1 in a
    dictionary. *)
Definition listings (self : DocumentRetriever.t) (kw d : string) : Z :=
  Z.of_nat (count_occ string_dec (Dict.keys (entry_of self kw)) d).

(** Every entry of the index is a dictionary. *)
Definition index_wf (index : SimpleIndexer.index_t) : bool :=
  forallb (fun item => Dict.distinct (Dict.keys (snd item))) index.

(** No count of a frequency table is negative. *)
Definition counts_nonneg (tables : dict Counter.t) : bool :=
  forallb (fun item => forallb (fun p => 0 <=? snd p) (snd item)) tables.

(** ** Texts and stores *)

(** No newline in the characters read so far. *)
Definition newline_free (cur : list ascii) : bool :=
  forallb (fun c => negb (Ascii.eqb c Str.newline)) cur.

(** The token store and the line store of a processor hold the same
    documents, and the tokens of a document are those of its lines. *)
Definition stores_agree (tp : TextProcessor.t) : Prop :=
  Dict.wf (TextProcessor.docs_tokens tp)
  /\ Dict.wf (TextProcessor.docs_lines tp)
  /\ forall d,
       Dict.get (TextProcessor.docs_tokens tp) d
       = option_map (flat_map SimpleIndexer.tokenize_line)
                    (Dict.get (TextProcessor.docs_lines tp) d).

(** Every character of [s] passes the test [P]. *)
Definition all_chars (P : ascii -> bool) (s : string) : bool :=
  forallb P (list_ascii_of_string s).

(** A character of a token: a word character, no white space, and one that
    [str.lower] leaves as it is. *)
Definition clean_char (c : ascii) : bool :=
  Str.isword c && negb (Str.isspace c) && Ascii.eqb (Str.lower_char c) c.

(** The three stores of a processor hold [raw] as the text of [f], its
    lines and its tokens. *)
Definition stored_as (tp : TextProcessor.t) (f raw : string) : Prop :=
  Dict.get (TextProcessor.docs_raw tp) f = Some raw
  /\ Dict.get (TextProcessor.docs_lines tp) f
     = Some (map Str.strip_newline (Str.readlines raw))
  /\ Dict.get (TextProcessor.docs_tokens tp) f
     = Some (TextProcessor._clean_and_tokenize raw).

(** Two processors hold the same for the document [d], in each store. *)
Definition same_entries (tp tp' : TextProcessor.t) (d : string) : Prop :=
  Dict.get (TextProcessor.docs_raw tp) d
  = Dict.get (TextProcessor.docs_raw tp') d
  /\ Dict.get (TextProcessor.docs_lines tp) d
     = Dict.get (TextProcessor.docs_lines tp') d
  /\ Dict.get (TextProcessor.docs_tokens tp) d
     = Dict.get (TextProcessor.docs_tokens tp') d.

(** The three stores hold the same documents, in the same order. *)
Definition stores_aligned (tp : TextProcessor.t) : Prop :=
  Dict.keys (TextProcessor.docs_raw tp)
  = Dict.keys (TextProcessor.docs_lines tp)
  /\ Dict.keys (TextProcessor.docs_lines tp)
     = Dict.keys (TextProcessor.docs_tokens tp).

(** The processor after a series of calls of [process_documents] on a new
    processor, each with the file system of its time. *)
Definition after_loads (calls : list (FileSystem * list string))
  : TextProcessor.t :=
  fold_left (fun tp call =>
               snd (TextProcessor.process_documents (fst call) tp (snd call)))
            calls TextProcessor.__init__.

(** The retriever [_handle_load] builds from the stores of a processor. *)
Definition retriever_of (tp : TextProcessor.t) : DocumentRetriever.t :=
  DocumentRetriever.__init__
    (SimpleIndexer.built_index (TextProcessor.get_lines tp))
    (FrequencyAnalyzer.per_document (TextProcessor.get_tokens tp)).

(** ** Sessions *)

(** The sessions of the command loop: a new one, and what loading (choice
    1) and computing the frequencies again (choice 2) make of a session.
    The other choices leave the session as it is. *)
Inductive reachable : CLIManager.t -> Prop :=
| reachable_init : reachable CLIManager.__init__
| reachable_load (fs : FileSystem) (chemins : list string) (s : CLIManager.t) :
    reachable s -> reachable (fst (CLIManager._handle_load fs s chemins))
| reachable_choice_2 (s : CLIManager.t) :
    reachable s -> reachable (snd (CLIManager.run_choice_2 s)).

(** The index of the session is the index of the lines it has in store. *)
Definition index_current (s : CLIManager.t) : Prop :=
  CLIManager.loaded s = true
  /\ Dict.wf (TextProcessor.docs_lines (CLIManager.text_processor s))
  /\ SimpleIndexer.index (CLIManager.indexer s)
     = Some (SimpleIndexer.built_index
               (TextProcessor.docs_lines (CLIManager.text_processor s))).

(** What holds of every session: the stores agree; before the first load
    that succeeds nothing is built; after it the index is that of lines
    [L] once in store, whose documents are still in store, and the tables
    and the retriever are built from the tokens [T] once in store. *)
Definition session_invariant (s : CLIManager.t) : Prop :=
  stores_agree (CLIManager.text_processor s)
  /\ if CLIManager.loaded s
     then exists L T,
         Dict.wf L
         /\ incl (Dict.keys L)
                 (Dict.keys (TextProcessor.docs_lines
                               (CLIManager.text_processor s)))
         /\ SimpleIndexer.index (CLIManager.indexer s)
            = Some (SimpleIndexer.built_index L)
         /\ FrequencyAnalyzer.freq_per_doc (CLIManager.freq_analyzer s)
            = Some (FrequencyAnalyzer.per_document T)
         /\ FrequencyAnalyzer.corpus_freq (CLIManager.freq_analyzer s)
            = Some (FrequencyAnalyzer.aggregate
                      (Dict.values (FrequencyAnalyzer.per_document T)))
         /\ CLIManager.retriever s
            = Some (DocumentRetriever.__init__
                      (SimpleIndexer.built_index L)
                      (FrequencyAnalyzer.per_document T))
     else CLIManager.indexer s = SimpleIndexer.new
          /\ CLIManager.freq_analyzer s = FrequencyAnalyzer.new
          /\ CLIManager.retriever s = None.

(** ** Scenarios *)

Module Scenario.

(** The document a.txt of the specification. *)
Definition text : string := "The cat sat. The cat ran.".

Definition fs : FileSystem :=
  {| isdir := fun _ => false;
     isfile := fun p => String.eqb p "a.txt";
     walk := fun _ => [];
     read_text := fun p => if String.eqb p "a.txt" then Some text else None |}.

Definition processor : TextProcessor.t :=
  snd (TextProcessor.process_documents fs TextProcessor.__init__ ["a.txt"]).

Definition analyzer : FrequencyAnalyzer.t :=
  FrequencyAnalyzer.compute_frequency_per_document
    FrequencyAnalyzer.new (TextProcessor.get_tokens processor).

Definition indexer : SimpleIndexer.t :=
  SimpleIndexer.build_index SimpleIndexer.new
    (TextProcessor.get_lines processor).

(** Two lines, for the index. *)
Definition two_lines : dict (list string) :=
  [("a.txt", ["The cat sat. The cat ran."; "A cat."])].

(** A directory docs with one text file, next to a.txt; nothing else
    exists. *)
Definition fs_dir : FileSystem :=
  {| isdir := fun p => String.eqb p "docs";
     isfile := fun p => String.eqb p "a.txt" || String.eqb p "docs/b.txt";
     walk := fun p => if String.eqb p "docs" then [("docs", ["b.txt"])]
                      else [];
     read_text := fun p => if String.eqb p "a.txt" then Some text
                           else if String.eqb p "docs/b.txt"
                                then Some "A dog."
                                else None |}.

(** Two documents: a.txt has two lines, b.txt one.  The third file exists
    and cannot be read. *)
Definition nl : string := String Str.newline EmptyString.

Definition fs_two : FileSystem :=
  {| isdir := fun _ => false;
     isfile := fun p => String.eqb p "a.txt" || String.eqb p "b.txt"
                        || String.eqb p "c.txt";
     walk := fun _ => [];
     read_text := fun p =>
       if String.eqb p "a.txt"
       then Some ("The cat sat." ++ nl ++ "The cat saw a dog." ++ nl)
       else if String.eqb p "b.txt" then Some ("A cat, a cat." ++ nl)
       else None |}.

Definition loaded_two : TextProcessor.t :=
  snd (TextProcessor.process_documents fs_two TextProcessor.__init__
         ["a.txt"; "b.txt"]).

(** The retriever of the session once both documents are loaded. *)
Definition retriever : DocumentRetriever.t :=
  DocumentRetriever.__init__
    (SimpleIndexer.built_index (TextProcessor.get_lines loaded_two))
    (FrequencyAnalyzer.per_document (TextProcessor.get_tokens loaded_two)).

(** Later b.txt is edited: it has a dog in it. *)
Definition fs_later : FileSystem :=
  {| isdir := isdir fs_two;
     isfile := isfile fs_two;
     walk := walk fs_two;
     read_text := fun p =>
       if String.eqb p "b.txt" then Some ("A cat, a dog." ++ nl)
       else read_text fs_two p |}.

(** A session in which both documents are loaded and indexed, then the
    load of b.txt and c.txt fails on c.txt, which leaves the new text of
    b.txt in the stores and the index as it was, and then the frequencies
    are computed again from the stores. *)
Definition failed_load : result unit * TextProcessor.t :=
  TextProcessor.process_documents fs_later loaded_two ["b.txt"; "c.txt"].

Definition stale_retriever : DocumentRetriever.t :=
  DocumentRetriever.__init__
    (SimpleIndexer.built_index (TextProcessor.get_lines loaded_two))
    (FrequencyAnalyzer.per_document
       (TextProcessor.get_tokens (snd failed_load))).

(** The session after the two documents are loaded, and the session
    after the load that fails. *)
Definition session : CLIManager.t :=
  fst (CLIManager._handle_load fs_two CLIManager.__init__ ["a.txt"; "b.txt"]).

Definition stale_session : CLIManager.t :=
  fst (CLIManager._handle_load fs_later session ["b.txt"; "c.txt"]).

End Scenario.

(** * Properties *)

(** ** Dictionaries *)

Section DictFacts.
Context {V : Type}.
Implicit Types (d : dict V) (k : string) (v : V).

Lemma mem_In (x : string) (l : list string) :
  Dict.mem x l = true <-> In x l.
Proof.
  unfold Dict.mem. rewrite existsb_exists. split.
  - intros [y [Hy Heq]]. apply String.eqb_eq in Heq. now subst.
  - intros H. exists x. split; [assumption | apply String.eqb_refl].
Qed.

Lemma distinct_NoDup (l : list string) :
  Dict.distinct l = true <-> NoDup l.
Proof.
  induction l as [|x l IH]; simpl.
  - split; [constructor | reflexivity].
  - rewrite andb_true_iff, negb_true_iff, IH. split.
    + intros [Hx Hl]. constructor; [|assumption].
      intros Hin. apply mem_In in Hin. congruence.
    + intros H. inversion H as [|? ? Hx Hl]; subst. split; [|assumption].
      destruct (Dict.mem x l) eqn:E; [|reflexivity].
      apply mem_In in E. contradiction.
Qed.

Lemma get_set_same d k v : Dict.get (Dict.set d k v) k = Some v.
Proof.
  induction d as [|[k' v'] d IH]; simpl.
  - now rewrite String.eqb_refl.
  - destruct (String.eqb k' k) eqn:E; simpl; now rewrite E.
Qed.

Lemma get_set_other d k k' v :
  k <> k' -> Dict.get (Dict.set d k v) k' = Dict.get d k'.
Proof.
  intros Hne. induction d as [|[k0 v0] d IH]; simpl.
  - apply String.eqb_neq in Hne. now rewrite Hne.
  - destruct (String.eqb k0 k) eqn:E; simpl.
    + apply String.eqb_eq in E. subst k0.
      apply String.eqb_neq in Hne. now rewrite Hne.
    + now rewrite IH.
Qed.

Lemma get_set d k k' v :
  Dict.get (Dict.set d k v) k' =
  if String.eqb k k' then Some v else Dict.get d k'.
Proof.
  destruct (String.eqb k k') eqn:E.
  - apply String.eqb_eq in E. subst. apply get_set_same.
  - apply String.eqb_neq in E. now apply get_set_other.
Qed.

Lemma get_or_set d k k' v dflt :
  Dict.get_or (Dict.set d k v) k' dflt =
  if String.eqb k k' then v else Dict.get_or d k' dflt.
Proof.
  unfold Dict.get_or. rewrite get_set. now destruct (String.eqb k k').
Qed.

Lemma get_In d k v : Dict.get d k = Some v -> In (k, v) d.
Proof.
  induction d as [|[k0 v0] d IH]; simpl; [discriminate|].
  destruct (String.eqb k0 k) eqn:E.
  - apply String.eqb_eq in E. intros [= ->]. subst. now left.
  - intros H. right. now apply IH.
Qed.

Lemma get_None_keys d k : Dict.get d k = None <-> ~ In k (Dict.keys d).
Proof.
  induction d as [|[k0 v0] d IH]; simpl.
  - split; [intros _ [] | reflexivity].
  - destruct (String.eqb k0 k) eqn:E.
    + apply String.eqb_eq in E. subst. split; [discriminate|].
      intros H. exfalso. apply H. now left.
    + apply String.eqb_neq in E. rewrite IH. split.
      * intros H [H1|H1]; [congruence | contradiction].
      * intros H H1. apply H. now right.
Qed.

Lemma contains_keys d k : Dict.contains d k = true <-> In k (Dict.keys d).
Proof.
  unfold Dict.contains. destruct (Dict.get d k) eqn:E.
  - split; [|reflexivity]. intros _.
    apply get_In in E. unfold Dict.keys.
    change k with (fst (k, v)). now apply in_map.
  - split; [discriminate|]. intros H.
    apply get_None_keys in E. contradiction.
Qed.

(** With pairwise distinct keys, an item of the list is what [get]
    reads. *)
Lemma In_get d k v : Dict.wf d -> In (k, v) d -> Dict.get d k = Some v.
Proof.
  unfold Dict.wf. induction d as [|[k0 v0] d IH]; simpl; [intros _ []|].
  rewrite andb_true_iff, negb_true_iff. intros [Hk Hd] [Heq|Hin].
  - injection Heq as -> ->. now rewrite String.eqb_refl.
  - destruct (String.eqb k0 k) eqn:E.
    + apply String.eqb_eq in E. subst k0. exfalso.
      assert (Dict.mem k (Dict.keys d) = true) as Hm; [|congruence].
      apply mem_In. change k with (fst (k, v)). now apply in_map.
    + now apply IH.
Qed.

Lemma keys_set d k v :
  Dict.keys (Dict.set d k v) =
  if Dict.contains d k then Dict.keys d else (Dict.keys d ++ [k])%list.
Proof.
  unfold Dict.contains. induction d as [|[k0 v0] d IH]; simpl; [reflexivity|].
  destruct (String.eqb k0 k) eqn:E; simpl; [reflexivity|].
  rewrite IH. now destruct (Dict.get d k).
Qed.

Lemma wf_set d k v : Dict.wf d -> Dict.wf (Dict.set d k v).
Proof.
  unfold Dict.wf. rewrite !distinct_NoDup, keys_set.
  destruct (Dict.contains d k) eqn:E; [trivial|]. intros H.
  apply NoDup_app; [assumption | repeat constructor; intros [] | ].
  intros x Hx [<-|[]].
  apply contains_keys in Hx. congruence.
Qed.

Lemma wf_setdefault d k v : Dict.wf d -> Dict.wf (Dict.setdefault d k v).
Proof.
  unfold Dict.setdefault. destruct (Dict.contains d k); [trivial|].
  apply wf_set.
Qed.

Lemma wf_nil : Dict.wf (@nil (string * V)).
Proof. reflexivity. Qed.

Lemma values_set d k v x :
  In x (Dict.values (Dict.set d k v)) -> x = v \/ In x (Dict.values d).
Proof.
  induction d as [|[k0 v0] d IH]; simpl.
  - intros [<-|[]]. now left.
  - destruct (String.eqb k0 k); simpl.
    + intros [<-|H]; auto.
    + intros [<-|H]; auto. destruct (IH H); auto.
Qed.

(** Reading a dictionary does not depend on the order of its items. *)
Lemma get_Permutation d d' k :
  Dict.wf d -> Permutation d d' -> Dict.get d' k = Dict.get d k.
Proof.
  intros Hwf Hp.
  assert (Dict.wf d') as Hwf'.
  { unfold Dict.wf in *. rewrite distinct_NoDup in *.
    eapply Permutation_NoDup; [|eassumption].
    unfold Dict.keys. now apply Permutation_map. }
  destruct (Dict.get d k) as [v|] eqn:E.
  - apply In_get; [assumption|].
    eapply Permutation_in; [eassumption|]. now apply get_In.
  - apply get_None_keys. apply get_None_keys in E. intros H. apply E.
    eapply Permutation_in; [|eassumption].
    unfold Dict.keys. apply Permutation_map. now symmetry.
Qed.
End DictFacts.

(** ** The stable sort by decreasing score *)

Section SortFacts.
Context {A : Type}.
Implicit Types (x : A * Z) (l : list (A * Z)).

Lemma insert_desc_Permutation x l :
  Permutation (Py.insert_desc x l) (x :: l).
Proof.
  induction l as [|y l IH]; simpl; [reflexivity|].
  destruct (snd y <=? snd x); [reflexivity|].
  rewrite IH. apply perm_swap.
Qed.

Lemma sorted_Permutation l : Permutation (Py.sorted_by_score_desc l) l.
Proof.
  induction l as [|x l IH]; simpl; [reflexivity|].
  rewrite insert_desc_Permutation. now constructor.
Qed.

Lemma sorted_In x l : In x (Py.sorted_by_score_desc l) <-> In x l.
Proof.
  split; apply Permutation_in;
    [apply sorted_Permutation | symmetry; apply sorted_Permutation].
Qed.

Lemma sorted_length l : length (Py.sorted_by_score_desc l) = length l.
Proof. apply Permutation_length, sorted_Permutation. Qed.

Lemma insert_desc_sorted x l :
  StronglySorted score_ge l -> StronglySorted score_ge (Py.insert_desc x l).
Proof.
  induction l as [|y l IH]; simpl; intros Hs.
  - repeat constructor.
  - destruct (snd y <=? snd x) eqn:E.
    + apply Z.leb_le in E. constructor; [assumption|].
      constructor; [assumption|].
      inversion Hs as [|? ? _ Hall]; subst.
      eapply Forall_impl; [|exact Hall].
      unfold score_ge. intros; lia.
    + apply Z.leb_gt in E. inversion Hs as [|? ? Hs' Hall]; subst.
      constructor; [now apply IH|].
      eapply Permutation_Forall;
        [symmetry; apply insert_desc_Permutation|].
      constructor; [unfold score_ge; lia | assumption].
Qed.

Lemma sorted_desc_sorted l :
  StronglySorted score_ge (Py.sorted_by_score_desc l).
Proof.
  induction l as [|x l IH]; simpl; [constructor|].
  now apply insert_desc_sorted.
Qed.
(** The sort is stable: the pairs of one score stand in the order they
    had. *)
Lemma insert_desc_filter (v : Z) x l :
  filter (fun p => snd p =? v) (Py.insert_desc x l)
  = filter (fun p => snd p =? v) (x :: l).
Proof.
  induction l as [|y l IH]; [reflexivity|]. cbn [Py.insert_desc].
  destruct (snd y <=? snd x) eqn:E; [reflexivity|].
  apply Z.leb_gt in E. cbn [filter] in *. rewrite IH.
  destruct (snd x =? v) eqn:Ex; [|reflexivity].
  apply Z.eqb_eq in Ex.
  replace (snd y =? v) with false; [reflexivity|].
  symmetry. apply Z.eqb_neq. lia.
Qed.

Lemma sorted_stable (v : Z) l :
  filter (fun p => snd p =? v) (Py.sorted_by_score_desc l)
  = filter (fun p => snd p =? v) l.
Proof.
  induction l as [|x l IH]; [reflexivity|]. cbn [Py.sorted_by_score_desc
  fold_right]. rewrite insert_desc_filter. cbn [filter].
  fold (Py.sorted_by_score_desc l). now rewrite IH.
Qed.
End SortFacts.

Lemma get_sorted (d : dict Z) (k : string) :
  Dict.wf d -> Dict.get (Py.sorted_by_score_desc d) k = Dict.get d k.
Proof.
  intros Hwf. apply get_Permutation; [assumption|].
  symmetry. apply sorted_Permutation.
Qed.

(** ** Counters *)

Lemma count_set (c : Counter.t) (k k' : string) (n : Z) :
  Counter.count (Dict.set c k n) k' =
  if String.eqb k k' then n else Counter.count c k'.
Proof. unfold Counter.count. apply get_or_set. Qed.

Lemma mass_wf (c : dict Z) (k : string) :
  Dict.wf c -> mass c k = Counter.count c k.
Proof.
  unfold Dict.wf, mass, Counter.count, Dict.get_or.
  induction c as [|[k0 n0] c IH]; simpl; [reflexivity|].
  rewrite andb_true_iff, negb_true_iff. intros [Hk Hc].
  destruct (String.eqb k0 k) eqn:E; simpl.
  - apply String.eqb_eq in E. subst k0.
    specialize (IH Hc).
    assert (Dict.get c k = None) as Hn.
    { apply get_None_keys. intros Hin. apply mem_In in Hin. congruence. }
    rewrite Hn in IH. unfold total in *. simpl in *. lia.
  - now apply IH.
Qed.

Lemma of_tokens_from (tokens : list string) (c : Counter.t) (k : string) :
  Counter.count
    (fold_left (fun c tok => Dict.set c tok (Counter.count c tok + 1))
               tokens c) k
  = Counter.count c k + Z.of_nat (count_occ string_dec tokens k).
Proof.
  revert c. induction tokens as [|tok tokens IH]; intros c; simpl; [lia|].
  rewrite IH, count_set.
  destruct (string_dec tok k) as [->|Hne].
  - rewrite String.eqb_refl. lia.
  - apply String.eqb_neq in Hne. rewrite Hne. lia.
Qed.

(** [Counter(tokens)[k]] is the number of occurrences of [k] in
    [tokens]. *)
Lemma count_of_tokens (tokens : list string) (k : string) :
  Counter.count (Counter.of_tokens tokens) k
  = Z.of_nat (count_occ string_dec tokens k).
Proof. unfold Counter.of_tokens. now rewrite of_tokens_from. Qed.

Lemma wf_of_tokens (tokens : list string) :
  Dict.wf (Counter.of_tokens tokens).
Proof.
  unfold Counter.of_tokens.
  assert (forall c, Dict.wf c ->
            Dict.wf (fold_left
                       (fun c tok => Dict.set c tok (Counter.count c tok + 1))
                       tokens c)) as H.
  { induction tokens as [|tok tokens IH]; intros c Hc; simpl; [assumption|].
    apply IH. now apply wf_set. }
  apply H, wf_nil.
Qed.

Lemma count_update (self other : Counter.t) (k : string) :
  Counter.count (Counter.update self other) k
  = Counter.count self k + mass other k.
Proof.
  unfold Counter.update, mass. revert self.
  induction other as [|[e n] other IH]; intros self; simpl.
  - unfold total; simpl; lia.
  - rewrite IH, count_set. unfold total.
    destruct (String.eqb e k) eqn:E; simpl; [|lia].
    apply String.eqb_eq in E. subst e. lia.
Qed.

Lemma count_aggregate_from (counters : list Counter.t) (acc : Counter.t)
  (k : string) :
  Counter.count (fold_left Counter.update counters acc) k
  = Counter.count acc k + total (map (fun c => mass c k) counters).
Proof.
  revert acc. induction counters as [|c counters IH]; intros acc; simpl.
  - unfold total; simpl; lia.
  - rewrite IH, count_update. unfold total; simpl; lia.
Qed.

Lemma per_document_values_from (P : Counter.t -> Prop)
  (docs_tokens : dict (list string)) (acc : dict Counter.t) :
  (forall tokens, P (Counter.of_tokens tokens)) ->
  Forall P (Dict.values acc) ->
  Forall P
    (Dict.values
       (fold_left (fun acc '(filepath, tokens) =>
                     Dict.set acc filepath (Counter.of_tokens tokens))
                  docs_tokens acc)).
Proof.
  intros HP. revert acc.
  induction docs_tokens as [|[fp toks] docs IH]; intros acc Hacc;
    simpl; [assumption|].
  apply IH. apply Forall_forall. intros c Hc.
  apply values_set in Hc. destruct Hc as [->|Hc].
  - apply HP.
  - rewrite Forall_forall in Hacc. now apply Hacc.
Qed.

(** Every table of [per_document] is a dictionary. *)
Lemma per_document_values_wf (docs_tokens : dict (list string)) :
  Forall Dict.wf (Dict.values (FrequencyAnalyzer.per_document docs_tokens)).
Proof.
  apply per_document_values_from; [apply wf_of_tokens | constructor].
Qed.

(** ** The scenario of one document *)

(** C1, as the code has it: the document a.txt with text
    "The cat sat. The cat ran." is loaded without error, its tokens are
    the, cat, sat, the, cat, ran, its frequency table is the:2, cat:2,
    sat:1, ran:1, and once the index is built the search for "cat" returns
    line 1 twice for a.txt: the text is one line, and a line is listed once
    per occurrence of the word on it. *)
Theorem scenario_one_document :
  fst (TextProcessor.process_documents Scenario.fs TextProcessor.__init__
         ["a.txt"]) = Ok tt
  /\ TextProcessor.get_tokens Scenario.processor
     = [("a.txt", ["the"; "cat"; "sat"; "the"; "cat"; "ran"])]
  /\ TextProcessor._clean_and_tokenize Scenario.text
     = ["the"; "cat"; "sat"; "the"; "cat"; "ran"]
  /\ FrequencyAnalyzer.freq_per_doc Scenario.analyzer
     = Some [("a.txt", [("the", 2); ("cat", 2); ("sat", 1); ("ran", 1)])]
  /\ TextProcessor.get_lines Scenario.processor
     = [("a.txt", ["The cat sat. The cat ran."])]
  /\ SimpleIndexer.search_word Scenario.indexer "cat"
     = Ok [("a.txt", [1; 1])].
Proof. repeat split; vm_compute; reflexivity. Qed.

(** C1, as the specification has it, fails: the search for "cat" does not
    return the lines 1 and 2. *)
Lemma scenario_search_cat_is_not_lines_1_2 :
  ~ (TextProcessor._clean_and_tokenize Scenario.text
     = ["the"; "cat"; "sat"; "the"; "cat"; "ran"]
     /\ FrequencyAnalyzer.freq_per_doc Scenario.analyzer
        = Some [("a.txt", [("the", 2); ("cat", 2); ("sat", 1); ("ran", 1)])]
     /\ SimpleIndexer.search_word Scenario.indexer "cat"
        = Ok [("a.txt", [1; 2])]).
Proof. intros [_ [_ H]]. vm_compute in H. discriminate H. Qed.

(** With the two sentences on two lines the search returns the lines 1
    and 2. *)
Lemma scenario_two_sentences_on_two_lines :
  SimpleIndexer.search_word
    (SimpleIndexer.build_index SimpleIndexer.new
       [("a.txt", ["The cat sat."; "The cat ran."])]) "cat"
  = Ok [("a.txt", [1; 2])].
Proof. vm_compute. reflexivity. Qed.

(** ** Frequency tables *)

(** C2, on the code: [compute_corpus_frequency] on an analyzer that
    [compute_frequency_per_document] never ran on raises [AttributeError],
    the attribute [freq_per_doc] does not exist. *)
Theorem corpus_frequency_of_new_analyzer_raises :
  FrequencyAnalyzer.compute_corpus_frequency FrequencyAnalyzer.new
  = (Raise (AttributeError "FrequencyAnalyzer" "freq_per_doc"),
     {| FrequencyAnalyzer.freq_per_doc := None;
        FrequencyAnalyzer.corpus_freq := Some [] |}).
Proof. reflexivity. Qed.

(** The corpus table is assigned before the call raises: a caller that
    catches the error reads empty rankings afterwards. *)
Lemma corpus_ranking_after_the_error (n : Z) :
  FrequencyAnalyzer.get_top_n_in_corpus
    (snd (FrequencyAnalyzer.compute_corpus_frequency FrequencyAnalyzer.new)) n
  = Ok [].
Proof.
  unfold FrequencyAnalyzer.get_top_n_in_corpus, Counter.most_common. simpl.
  now destruct (Z.to_nat n).
Qed.

(** Had the initialiser run, the corpus table would be empty and every
    ranking of it the empty list. *)
Lemma corpus_frequency_after_initialiser (n : Z) :
  exists self,
    FrequencyAnalyzer.compute_corpus_frequency
      (FrequencyAnalyzer._init_ FrequencyAnalyzer.new) = (Ok tt, self)
    /\ FrequencyAnalyzer.corpus_freq self = Some []
    /\ FrequencyAnalyzer.get_top_n_in_corpus self n = Ok [].
Proof.
  eexists. split; [reflexivity|]. split; [reflexivity|].
  unfold FrequencyAnalyzer.get_top_n_in_corpus, Counter.most_common. simpl.
  now destruct (Z.to_nat n).
Qed.

(** C3: after [compute_frequency_per_document] and then
    [compute_corpus_frequency], which does not raise, the corpus count of
    every token is the sum over the documents of the count their tables
    give it. *)
Theorem corpus_count_is_sum_of_document_counts
  (self : FrequencyAnalyzer.t) (docs_tokens : dict (list string)) :
  let self1 :=
    FrequencyAnalyzer.compute_frequency_per_document self docs_tokens in
  exists tables corpus,
    FrequencyAnalyzer.compute_corpus_frequency self1
    = (Ok tt, {| FrequencyAnalyzer.freq_per_doc := Some tables;
                 FrequencyAnalyzer.corpus_freq := Some corpus |})
    /\ FrequencyAnalyzer.freq_per_doc self1 = Some tables
    /\ forall T : string,
         Counter.count corpus T
         = total (map (fun table => Counter.count table T)
                      (Dict.values tables)).
Proof.
  simpl. eexists. eexists. split; [reflexivity|]. split; [reflexivity|].
  intros T. unfold FrequencyAnalyzer.aggregate.
  rewrite count_aggregate_from. simpl. f_equal.
  apply map_ext_in. intros c Hc. apply mass_wf.
  pose proof (per_document_values_wf docs_tokens) as Hwf.
  rewrite Forall_forall in Hwf. now apply Hwf.
Qed.

(** ** The inverted index *)

Lemma extend_extend (o : option (list Z)) (l1 l2 : list Z) :
  extend (extend o l1) l2 = extend o (l1 ++ l2).
Proof.
  destruct l1 as [|a l1]; [reflexivity|].
  destruct l2 as [|b l2]; simpl.
  - now rewrite app_nil_r.
  - now rewrite <- app_assoc.
Qed.

Lemma set_set {V : Type} (d : dict V) (k : string) (v v' : V) :
  Dict.set (Dict.set d k v) k v' = Dict.set d k v'.
Proof.
  induction d as [|[k0 v0] d IH]; simpl.
  - now rewrite String.eqb_refl.
  - destruct (String.eqb k0 k) eqn:E; simpl; rewrite E; [reflexivity|].
    now rewrite IH.
Qed.

(** The body of the loop of [build_index], without its tests: the line
    number goes to the end of the list of the word and the document, a
    missing entry and a missing list being empty. *)
Lemma add_occurrence_set (filepath : string) (idx : Z)
  (index : SimpleIndexer.index_t) (mot : string) :
  SimpleIndexer.add_occurrence filepath idx index mot
  = let entry := match Dict.get index mot with
                 | Some e => e | None => [] end in
    let lignes := match Dict.get entry filepath with
                  | Some l => l | None => [] end in
    Dict.set index mot (Dict.set entry filepath (lignes ++ [idx])%list).
Proof.
  unfold SimpleIndexer.add_occurrence, Dict.contains, Dict.get_or.
  cbv zeta.
  destruct (Dict.get index mot) as [entry|] eqn:E.
  - rewrite E.
    destruct (Dict.get entry filepath) as [l|] eqn:E2.
    + now rewrite E2.
    + now rewrite get_set_same, set_set.
  - rewrite get_set_same. simpl. rewrite String.eqb_refl. simpl.
    now rewrite set_set.
Qed.

Lemma lookup_add_occurrence (filepath : string) (idx : Z)
  (index : SimpleIndexer.index_t) (mot tok doc : string) :
  lookup (SimpleIndexer.add_occurrence filepath idx index mot) tok doc
  = if String.eqb mot tok && String.eqb filepath doc
    then extend (lookup index tok doc) [idx]
    else lookup index tok doc.
Proof.
  rewrite add_occurrence_set. cbv zeta. unfold lookup, extend.
  rewrite get_set.
  destruct (String.eqb mot tok) eqn:Emot; simpl; [|reflexivity].
  apply String.eqb_eq in Emot. subst tok. rewrite get_set.
  destruct (String.eqb filepath doc) eqn:Efp.
  - apply String.eqb_eq in Efp. subst doc.
    now destruct (Dict.get index mot).
  - now destruct (Dict.get index mot).
Qed.

Lemma lookup_index_tokens (filepath : string) (idx : Z)
  (tokens : list string) (index : SimpleIndexer.index_t) (tok doc : string) :
  lookup (fold_left (SimpleIndexer.add_occurrence filepath idx) tokens index)
         tok doc
  = if String.eqb filepath doc
    then extend (lookup index tok doc)
                (repeat idx (count_occ string_dec tokens tok))
    else lookup index tok doc.
Proof.
  revert index. induction tokens as [|mot tokens IH]; intros index; simpl.
  - now destruct (String.eqb filepath doc).
  - rewrite IH, lookup_add_occurrence.
    destruct (String.eqb filepath doc); [|now rewrite andb_false_r].
    rewrite andb_true_r. destruct (string_dec mot tok) as [->|Hne].
    + rewrite String.eqb_refl. now rewrite extend_extend.
    + apply String.eqb_neq in Hne. now rewrite Hne.
Qed.

Lemma lookup_index_lines (filepath : string) (numbered : list (Z * string))
  (index : SimpleIndexer.index_t) (tok doc : string) :
  lookup (fold_left (SimpleIndexer.index_line filepath) numbered index)
         tok doc
  = if String.eqb filepath doc
    then extend (lookup index tok doc) (hits tok numbered)
    else lookup index tok doc.
Proof.
  revert index.
  induction numbered as [|[idx raw_line] numbered IH]; intros index; simpl.
  - now destruct (String.eqb filepath doc).
  - rewrite IH.
    change (SimpleIndexer.index_line filepath index (idx, raw_line))
      with (fold_left (SimpleIndexer.add_occurrence filepath idx)
                      (SimpleIndexer.tokenize_line raw_line) index).
    rewrite lookup_index_tokens. fold (occurrences_on tok raw_line).
    destruct (String.eqb filepath doc); [|reflexivity].
    now rewrite extend_extend.
Qed.

(** The line numbers the documents named [doc] contribute, in order. *)
Lemma lookup_index_documents (docs_lines : dict (list string))
  (index : SimpleIndexer.index_t) (tok doc : string) :
  lookup (fold_left SimpleIndexer.index_document docs_lines index) tok doc
  = extend (lookup index tok doc)
      (flat_map (fun '(filepath, lines) =>
                   if String.eqb filepath doc
                   then hits tok (Py.enumerate 1 lines) else [])
                docs_lines).
Proof.
  revert index.
  induction docs_lines as [|[filepath lines] docs IH]; intros index; simpl.
  - reflexivity.
  - rewrite IH.
    change (SimpleIndexer.index_document index (filepath, lines))
      with (fold_left (SimpleIndexer.index_line filepath)
                      (Py.enumerate 1 lines) index).
    rewrite lookup_index_lines.
    destruct (String.eqb filepath doc); [|reflexivity].
    now rewrite extend_extend.
Qed.

Lemma hits_of_document (docs_lines : dict (list string)) (tok doc : string) :
  Dict.wf docs_lines ->
  flat_map (fun '(filepath, lines) =>
              if String.eqb filepath doc
              then hits tok (Py.enumerate 1 lines) else [])
           docs_lines
  = match Dict.get docs_lines doc with
    | Some lines => hits tok (Py.enumerate 1 lines)
    | None => []
    end.
Proof.
  unfold Dict.wf.
  induction docs_lines as [|[filepath lines] docs IH]; simpl; [reflexivity|].
  rewrite andb_true_iff, negb_true_iff. intros [Hk Hd].
  destruct (String.eqb filepath doc) eqn:E.
  - apply String.eqb_eq in E. subst filepath.
    rewrite (IH Hd).
    assert (Dict.get docs doc = None) as Hn.
    { apply get_None_keys. intros Hin. apply mem_In in Hin. congruence. }
    rewrite Hn. apply app_nil_r.
  - now apply IH.
Qed.

(** The entry of the built index for a word and a document lists the
    occurrences of the word in the lines of that document. *)
Lemma lookup_built_index (docs_lines : dict (list string)) (tok doc : string)
  (lignes : list Z) :
  Dict.wf docs_lines ->
  lookup (SimpleIndexer.built_index docs_lines) tok doc = Some lignes ->
  exists lines,
    Dict.get docs_lines doc = Some lines
    /\ lignes = hits tok (Py.enumerate 1 lines).
Proof.
  intros Hwf. unfold SimpleIndexer.built_index.
  rewrite lookup_index_documents, hits_of_document by assumption.
  destruct (Dict.get docs_lines doc) as [lines|]; [|discriminate].
  intros H. exists lines. split; [reflexivity|].
  unfold lookup in H. simpl in H.
  destruct (hits tok (Py.enumerate 1 lines)); [discriminate|].
  simpl in H. now injection H as <-.
Qed.

Lemma hits_cons (tok : string) (s : Z) (raw_line : string)
  (lines : list string) :
  hits tok (Py.enumerate s (raw_line :: lines))
  = (repeat s (occurrences_on tok raw_line)
     ++ hits tok (Py.enumerate (s + 1) lines))%list.
Proof. reflexivity. Qed.

Lemma hits_bounds (tok : string) (lines : list string) (s : Z) :
  Forall (fun k => s <= k < s + Z.of_nat (length lines))
         (hits tok (Py.enumerate s lines)).
Proof.
  revert s. induction lines as [|raw_line lines IH]; intros s.
  - constructor.
  - rewrite hits_cons. apply Forall_app. split.
    + apply Forall_forall. intros k Hk. apply repeat_spec in Hk.
      subst k. simpl length. lia.
    + eapply Forall_impl; [|apply IH]. simpl. intros k Hk.
      simpl length. lia.
Qed.

Lemma sorted_repeat_app (s : Z) (n : nat) (l : list Z) :
  Forall (fun k => s <= k) l -> StronglySorted Z.le l ->
  StronglySorted Z.le (repeat s n ++ l).
Proof.
  intros Hall Hs. induction n as [|n IH]; simpl; [assumption|].
  constructor; [assumption|].
  apply Forall_app. split; [|assumption].
  apply Forall_forall. intros k Hk. apply repeat_spec in Hk. lia.
Qed.

Lemma hits_sorted (tok : string) (lines : list string) (s : Z) :
  StronglySorted Z.le (hits tok (Py.enumerate s lines)).
Proof.
  revert s. induction lines as [|raw_line lines IH]; intros s.
  - constructor.
  - rewrite hits_cons. apply sorted_repeat_app; [|apply IH].
    eapply Forall_impl; [|apply hits_bounds]. simpl. intros; lia.
Qed.

Lemma count_occ_repeat_Z (s k : Z) (n : nat) :
  count_occ Z.eq_dec (repeat s n) k = if s =? k then n else 0%nat.
Proof.
  induction n as [|n IH]; simpl.
  - now destruct (s =? k).
  - rewrite IH. destruct (Z.eq_dec s k) as [->|Hne].
    + now rewrite Z.eqb_refl.
    + apply Z.eqb_neq in Hne. now rewrite Hne.
Qed.

Lemma hits_count (tok : string) (lines : list string) (s k : Z) :
  count_occ Z.eq_dec (hits tok (Py.enumerate s lines)) k
  = if s <=? k
    then match nth_error lines (Z.to_nat (k - s)) with
         | Some raw_line => occurrences_on tok raw_line
         | None => 0%nat
         end
    else 0%nat.
Proof.
  revert s. induction lines as [|raw_line lines IH]; intros s.
  - simpl. destruct (s <=? k); [|reflexivity].
    now destruct (Z.to_nat (k - s)).
  - rewrite hits_cons, count_occ_app, count_occ_repeat_Z, IH.
    destruct (s =? k) eqn:Eq.
    + apply Z.eqb_eq in Eq. subst k.
      replace (s + 1 <=? s) with false by (symmetry; apply Z.leb_gt; lia).
      rewrite Z.leb_refl, Z.sub_diag. simpl. lia.
    + apply Z.eqb_neq in Eq. destruct (s <=? k) eqn:Ele.
      * apply Z.leb_le in Ele.
        replace (s + 1 <=? k) with true by (symmetry; apply Z.leb_le; lia).
        replace (Z.to_nat (k - s)) with (S (Z.to_nat (k - (s + 1)))) by lia.
        reflexivity.
      * apply Z.leb_gt in Ele.
        replace (s + 1 <=? k) with false by (symmetry; apply Z.leb_gt; lia).
        reflexivity.
Qed.

(** C9: after [build_index] on a dictionary of documents, the list of line
    numbers the index holds for a token and a document is in ascending
    order, every number in it is between 1 and the number of lines of the
    document, and a number occurs in it as many times as the token occurs
    on the line of that number. *)
Theorem index_line_numbers (self : SimpleIndexer.t)
  (docs_lines : dict (list string)) (index : SimpleIndexer.index_t)
  (tok doc : string) (entry : dict (list Z)) (lignes : list Z) :
  Dict.wf docs_lines ->
  SimpleIndexer.index (SimpleIndexer.build_index self docs_lines)
  = Some index ->
  Dict.get index tok = Some entry ->
  Dict.get entry doc = Some lignes ->
  exists lines,
    Dict.get docs_lines doc = Some lines
    /\ StronglySorted Z.le lignes
    /\ Forall (fun k => 1 <= k <= Z.of_nat (length lines)) lignes
    /\ forall k : Z,
         count_occ Z.eq_dec lignes k
         = match line_at lines k with
           | Some raw_line => occurrences_on tok raw_line
           | None => 0%nat
           end.
Proof.
  intros Hwf Hindex Hentry Hlignes. simpl in Hindex.
  injection Hindex as <-.
  destruct (lookup_built_index docs_lines tok doc lignes Hwf)
    as [lines [Hlines ->]].
  { unfold lookup. now rewrite Hentry. }
  exists lines. split; [assumption|]. split; [apply hits_sorted|]. split.
  - eapply Forall_impl; [|apply hits_bounds].
    intros k Hk. cbv beta in Hk |- *. lia.
  - intros k. rewrite hits_count. unfold line_at.
    now destruct (1 <=? k).
Qed.

Lemma index_line_numbers_witness :
  Dict.wf Scenario.two_lines
  /\ SimpleIndexer.index
       (SimpleIndexer.build_index SimpleIndexer.new Scenario.two_lines)
     = Some (SimpleIndexer.built_index Scenario.two_lines)
  /\ Dict.get (SimpleIndexer.built_index Scenario.two_lines) "cat"
     = Some [("a.txt", [1; 1; 2])]
  /\ Dict.get [("a.txt", [1; 1; 2])] "a.txt" = Some [1; 1; 2]
  /\ exists lines,
       Dict.get Scenario.two_lines "a.txt" = Some lines
       /\ StronglySorted Z.le [1; 1; 2]
       /\ Forall (fun k => 1 <= k <= Z.of_nat (length lines)) [1; 1; 2]
       /\ forall k : Z,
            count_occ Z.eq_dec [1; 1; 2] k
            = match line_at lines k with
              | Some raw_line => occurrences_on "cat" raw_line
              | None => 0%nat
              end.
Proof.
  repeat (split; [vm_compute; reflexivity|]).
  apply (index_line_numbers SimpleIndexer.new Scenario.two_lines
           (SimpleIndexer.built_index Scenario.two_lines)
           "cat" "a.txt" [("a.txt", [1; 1; 2])] [1; 1; 2]);
    vm_compute; reflexivity.
Defined.

(** C8, on the code: [search_word] on an indexer [build_index] never ran on
    raises [AttributeError], the attribute [index] does not exist. *)
Theorem search_word_of_new_indexer_raises (word : string) :
  SimpleIndexer.search_word SimpleIndexer.new word
  = Raise (AttributeError "SimpleIndexer" "index").
Proof. reflexivity. Qed.

(** Once [build_index] has run, [search_word] does not raise: it returns
    the entry of the lower-cased word, and the empty mapping when the index
    has none. *)
Lemma search_word_after_build_index (self : SimpleIndexer.t)
  (docs_lines : dict (list string)) (word : string) :
  SimpleIndexer.search_word (SimpleIndexer.build_index self docs_lines) word
  = Ok (match Dict.get (SimpleIndexer.built_index docs_lines)
                       (Str.lower word) with
        | Some entry => entry
        | None => []
        end).
Proof. reflexivity. Qed.

(** The same once the initialiser has run: the index is empty and every
    search returns the empty mapping. *)
Lemma search_word_after_initialiser (word : string) :
  SimpleIndexer.search_word (SimpleIndexer._init_ SimpleIndexer.new) word
  = Ok [].
Proof. reflexivity. Qed.

(** ** Loading documents *)

Lemma resolve_first_unresolvable (fs : FileSystem)
  (paths to_process : list string) :
  match find (unresolvable fs) paths with
  | Some p =>
      TextProcessor.resolve fs to_process paths = Raise (FileNotFoundError p)
  | None => exists files, TextProcessor.resolve fs to_process paths = Ok files
  end.
Proof.
  revert to_process. induction paths as [|p paths IH]; intros to_process.
  - simpl. now exists to_process.
  - simpl. unfold unresolvable at 1.
    destruct (isdir fs p); simpl; [apply IH|].
    destruct (isfile fs p && TextProcessor._is_text_file p); simpl;
      [apply IH | reflexivity].
Qed.

(** C7: when a path of the list is neither a directory nor a text file,
    [process_documents] raises [FileNotFoundError] for the first such path
    of the list, which is that path when the list has no other, and the
    three stores are as they were before the call. *)
Theorem process_documents_rejects_bad_path (fs : FileSystem)
  (self : TextProcessor.t) (paths : list string) (p : string) :
  In p paths -> unresolvable fs p = true ->
  exists q,
    find (unresolvable fs) paths = Some q
    /\ In q paths
    /\ unresolvable fs q = true
    /\ ((forall p', In p' paths -> unresolvable fs p' = true -> p' = p) ->
        q = p)
    /\ TextProcessor.process_documents fs self paths
       = (Raise (FileNotFoundError q), self).
Proof.
  intros Hin Hbad.
  destruct (find (unresolvable fs) paths) as [q|] eqn:E.
  - exists q. apply find_some in E as Hq. destruct Hq as [Hq1 Hq2].
    split; [reflexivity|]. split; [assumption|]. split; [assumption|].
    split; [intros Honly; now apply Honly|].
    unfold TextProcessor.process_documents.
    pose proof (resolve_first_unresolvable fs paths []) as H.
    rewrite E in H. now rewrite H.
  - exfalso. pose proof (find_none _ _ E p Hin) as H. congruence.
Qed.

Lemma process_documents_rejects_bad_path_witness :
  In "missing.txt" ["docs"; "missing.txt"]
  /\ unresolvable Scenario.fs_dir "missing.txt" = true
  /\ exists q,
       find (unresolvable Scenario.fs_dir) ["docs"; "missing.txt"] = Some q
       /\ In q ["docs"; "missing.txt"]
       /\ unresolvable Scenario.fs_dir q = true
       /\ ((forall p', In p' ["docs"; "missing.txt"] ->
                       unresolvable Scenario.fs_dir p' = true ->
                       p' = "missing.txt") ->
           q = "missing.txt")
       /\ TextProcessor.process_documents Scenario.fs_dir Scenario.processor
            ["docs"; "missing.txt"]
          = (Raise (FileNotFoundError q), Scenario.processor).
Proof.
  split; [simpl; auto|]. split; [vm_compute; reflexivity|].
  apply (process_documents_rejects_bad_path Scenario.fs_dir
           Scenario.processor ["docs"; "missing.txt"] "missing.txt");
    [simpl; auto | vm_compute; reflexivity].
Defined.

(** When every path is a directory or a text file, the call reads the
    files: the stores change only then. *)
Lemma process_documents_all_resolved (fs : FileSystem)
  (self : TextProcessor.t) (paths : list string) :
  find (unresolvable fs) paths = None ->
  exists files,
    TextProcessor.resolve fs [] paths = Ok files
    /\ TextProcessor.process_documents fs self paths
       = TextProcessor.load fs self files.
Proof.
  intros E. pose proof (resolve_first_unresolvable fs paths []) as H.
  rewrite E in H. destruct H as [files H]. exists files.
  split; [assumption|]. unfold TextProcessor.process_documents.
  now rewrite H.
Qed.

(** ** Retrieval *)

Section Retrieval.
Variable self : DocumentRetriever.t.

Lemma get_add_score (mot : string) (acc : dict Z) (item : string * list Z)
  (d : string) :
  Dict.get (DocumentRetriever.add_score self mot acc item) d
  = if String.eqb (fst item) d
    then Some (score acc d + DocumentRetriever.frequency self d mot)
    else Dict.get acc d.
Proof.
  destruct item as [filepath lignes]. simpl.
  unfold DocumentRetriever.add_score, Dict.setdefault, score.
  rewrite get_set.
  destruct (String.eqb filepath d) eqn:E.
  - apply String.eqb_eq in E. subst d. f_equal. f_equal.
    unfold Dict.contains, Dict.get_or.
    destruct (Dict.get acc filepath) eqn:E1; [now rewrite E1|].
    now rewrite get_set_same.
  - destruct (Dict.contains acc filepath); [reflexivity|].
    apply String.eqb_neq in E. now apply get_set_other.
Qed.

Lemma wf_add_score (mot : string) (acc : dict Z) (item : string * list Z) :
  Dict.wf acc -> Dict.wf (DocumentRetriever.add_score self mot acc item).
Proof.
  intros H. destruct item as [filepath lignes].
  unfold DocumentRetriever.add_score. now apply wf_set, wf_setdefault.
Qed.

(** The inner loop of [retrieve] over an entry of the index: a document
    gains its frequency once per item of the entry that names it. *)
Lemma get_add_entry (mot : string) (entry : dict (list Z)) (acc : dict Z)
  (d : string) :
  Dict.get (fold_left (DocumentRetriever.add_score self mot) entry acc) d
  = match count_occ string_dec (Dict.keys entry) d with
    | O => Dict.get acc d
    | S n => Some (score acc d
                   + Z.of_nat (S n) * DocumentRetriever.frequency self d mot)
    end.
Proof.
  revert acc. induction entry as [|[filepath lignes] entry IH]; intros acc.
  - reflexivity.
  - cbn [fold_left]. rewrite IH.
    change (Dict.keys ((filepath, lignes) :: entry))
      with (filepath :: Dict.keys entry).
    cbn [count_occ]. unfold score at 1. unfold Dict.get_or. rewrite !get_add_score.
    cbn [fst]. destruct (string_dec filepath d) as [->|Hne].
    + rewrite String.eqb_refl.
      destruct (count_occ string_dec (Dict.keys entry) d);
        f_equal; nia.
    + apply String.eqb_neq in Hne. rewrite Hne. reflexivity.
Qed.

Lemma wf_add_entry (mot : string) (entry : dict (list Z)) (acc : dict Z) :
  Dict.wf acc ->
  Dict.wf (fold_left (DocumentRetriever.add_score self mot) entry acc).
Proof.
  revert acc. induction entry as [|item entry IH]; intros acc H; simpl;
    [assumption|].
  now apply IH, wf_add_score.
Qed.

Lemma add_keyword_entry (acc : dict Z) (kw : string) :
  DocumentRetriever.add_keyword self acc kw
  = fold_left (DocumentRetriever.add_score self (Str.lower kw))
              (entry_of self kw) acc.
Proof.
  unfold DocumentRetriever.add_keyword, entry_of, Dict.get_or.
  now destruct (Dict.get (DocumentRetriever.index self) (Str.lower kw)).
Qed.

(** One keyword more: the score of a document grows by its frequency for
    the keyword, once per listing of the document under the keyword. *)
Lemma get_add_keyword (acc : dict Z) (kw d : string) :
  Dict.get (DocumentRetriever.add_keyword self acc kw) d
  = if listings self kw d =? 0 then Dict.get acc d
    else Some (score acc d
               + listings self kw d
                 * DocumentRetriever.frequency self d (Str.lower kw)).
Proof.
  rewrite add_keyword_entry, get_add_entry. unfold listings.
  destruct (count_occ string_dec (Dict.keys (entry_of self kw)) d);
    reflexivity.
Qed.

Lemma score_add_keyword (acc : dict Z) (kw d : string) :
  score (DocumentRetriever.add_keyword self acc kw) d
  = score acc d
    + listings self kw d * DocumentRetriever.frequency self d (Str.lower kw).
Proof.
  unfold score at 1. unfold Dict.get_or. rewrite get_add_keyword.
  destruct (listings self kw d =? 0) eqn:E; [|reflexivity].
  apply Z.eqb_eq in E. rewrite E. unfold score, Dict.get_or. lia.
Qed.

Lemma wf_scores_from (keywords : list string) (acc : dict Z) :
  Dict.wf acc ->
  Dict.wf (fold_left (DocumentRetriever.add_keyword self) keywords acc).
Proof.
  revert acc. induction keywords as [|kw keywords IH]; intros acc H; simpl;
    [assumption|].
  apply IH. rewrite add_keyword_entry. now apply wf_add_entry.
Qed.

Lemma wf_scores (keywords : list string) :
  Dict.wf (DocumentRetriever.scores self keywords).
Proof. apply wf_scores_from, wf_nil. Qed.

Lemma scores_app (ks : list string) (k : string) :
  DocumentRetriever.scores self (ks ++ [k])
  = DocumentRetriever.add_keyword self (DocumentRetriever.scores self ks) k.
Proof. unfold DocumentRetriever.scores. now rewrite fold_left_app. Qed.

(** Sorting moves the pairs of [retrieve], it does not change what a
    document scores. *)
Lemma get_retrieve (keywords : list string) (d : string) :
  Dict.get (DocumentRetriever.retrieve self keywords) d
  = Dict.get (DocumentRetriever.scores self keywords) d.
Proof.
  destruct keywords as [|kw keywords]; [reflexivity|].
  unfold DocumentRetriever.retrieve. apply get_sorted, wf_scores.
Qed.

Lemma wf_retrieve (keywords : list string) :
  Dict.wf (DocumentRetriever.retrieve self keywords).
Proof.
  destruct keywords as [|kw keywords]; [reflexivity|].
  unfold DocumentRetriever.retrieve.
  pose proof (wf_scores (kw :: keywords)) as H.
  unfold Dict.wf in *. rewrite distinct_NoDup in *.
  eapply Permutation_NoDup; [|exact H].
  unfold Dict.keys. apply Permutation_map. symmetry.
  apply sorted_Permutation.
Qed.

Lemma In_retrieve (keywords : list string) (d : string) (s : Z) :
  In (d, s) (DocumentRetriever.retrieve self keywords)
  <-> Dict.get (DocumentRetriever.scores self keywords) d = Some s.
Proof.
  rewrite <- get_retrieve. split.
  - apply In_get, wf_retrieve.
  - apply get_In.
Qed.

End Retrieval.

Lemma total_app (l1 l2 : list Z) : total (l1 ++ l2) = total l1 + total l2.
Proof.
  unfold total. induction l1 as [|x l1 IH]; simpl; [reflexivity|].
  rewrite IH. lia.
Qed.

Section RetrievalModes.
Variable self : DocumentRetriever.t.

Lemma In_set_of (x : string) (l : list string) : In x (Py.set_of l) <-> In x l.
Proof.
  induction l as [|y l IH]; simpl; [reflexivity|].
  rewrite filter_In, IH, negb_true_iff. split.
  - intros [H|[H _]]; auto.
  - intros [H|H]; [now left|].
    destruct (string_dec y x) as [Heq|Hne]; [now left|].
    right. split; [assumption|]. now apply String.eqb_neq.
Qed.

Lemma In_docs_for (kw d : string) :
  In d (DocumentRetriever.docs_for self kw)
  <-> In d (Dict.keys (entry_of self kw)).
Proof. unfold DocumentRetriever.docs_for. apply In_set_of. Qed.

Lemma In_intersection (sets : list (list string)) (x : string) :
  sets <> [] ->
  (In x (Py.intersection sets) <-> forall s, In s sets -> In x s).
Proof.
  destruct sets as [|s0 others]; [congruence|]. intros _. simpl.
  rewrite filter_In, forallb_forall. split.
  - intros [H0 Hall] s [<-|Hs]; [assumption|].
    apply mem_In. now apply Hall.
  - intros H. split; [apply H; now left|].
    intros s Hs. apply mem_In. apply H. now right.
Qed.

Lemma and_score_from (keywords : list string) (d : string) (a : Z) :
  fold_left (fun sc kw =>
               let mot := Str.lower kw in
               sc + DocumentRetriever.frequency self d mot) keywords a
  = a + total (map (fun kw =>
                      DocumentRetriever.frequency self d (Str.lower kw))
                   keywords).
Proof.
  revert a. induction keywords as [|kw keywords IH]; intros a; simpl.
  - unfold total; simpl; lia.
  - rewrite IH. unfold total; simpl; lia.
Qed.

Lemma and_score_app (ks : list string) (k d : string) :
  DocumentRetriever.and_score self (ks ++ [k]) d
  = DocumentRetriever.and_score self ks d
    + DocumentRetriever.frequency self d (Str.lower k).
Proof.
  unfold DocumentRetriever.and_score. now rewrite fold_left_app.
Qed.

(** What [boolean_and_retrieve] returns: the documents listed under every
    keyword of a list that is not empty, each with the sum of its
    frequencies for the keywords. *)
Lemma In_boolean_and_retrieve (keywords : list string) (d : string) (s : Z) :
  In (d, s) (DocumentRetriever.boolean_and_retrieve self keywords)
  <-> keywords <> []
      /\ (forall kw, In kw keywords -> In d (Dict.keys (entry_of self kw)))
      /\ s = DocumentRetriever.and_score self keywords d.
Proof.
  destruct keywords as [|kw0 keywords].
  - simpl. split; [intros [] | intros [H _]; congruence].
  - unfold DocumentRetriever.boolean_and_retrieve.
    rewrite sorted_In, in_map_iff.
    set (ks := kw0 :: keywords).
    assert (map (DocumentRetriever.docs_for self) ks <> []) as Hne
      by discriminate.
    split.
    + intros [d' [Heq Hin]]. injection Heq as -> <-.
      split; [discriminate|]. split; [|reflexivity].
      intros kw Hkw. apply In_docs_for.
      apply (proj1 (In_intersection _ _ Hne) Hin).
      now apply in_map.
    + intros [_ [Hall ->]]. exists d. split; [reflexivity|].
      apply (In_intersection _ _ Hne). intros set Hset.
      apply in_map_iff in Hset. destruct Hset as [kw [<- Hkw]].
      apply In_docs_for. now apply Hall.
Qed.

Lemma score_scores_from (keywords : list string) (acc : dict Z) (d : string) :
  score (fold_left (DocumentRetriever.add_keyword self) keywords acc) d
  = score acc d
    + total (map (fun kw =>
                    listings self kw d
                    * DocumentRetriever.frequency self d (Str.lower kw))
                 keywords).
Proof.
  revert acc. induction keywords as [|kw keywords IH]; intros acc; simpl.
  - unfold total; simpl; lia.
  - rewrite IH, score_add_keyword. unfold total; simpl; lia.
Qed.

(** What a document scores under [retrieve]: for every keyword, its
    frequency for the keyword, once per listing under it. *)
Lemma score_retrieve (keywords : list string) (d : string) :
  score (DocumentRetriever.retrieve self keywords) d
  = total (map (fun kw =>
                  listings self kw d
                  * DocumentRetriever.frequency self d (Str.lower kw))
               keywords).
Proof.
  unfold score at 1. unfold Dict.get_or. rewrite get_retrieve.
  unfold DocumentRetriever.scores.
  change (score (fold_left (DocumentRetriever.add_keyword self) keywords [])
                d = total
                      (map (fun kw =>
                              listings self kw d
                              * DocumentRetriever.frequency self d
                                  (Str.lower kw)) keywords)).
  rewrite score_scores_from. reflexivity.
Qed.

Lemma entry_of_wf (kw : string) :
  index_wf (DocumentRetriever.index self) = true -> Dict.wf (entry_of self kw).
Proof.
  unfold index_wf, entry_of, Dict.get_or. intros H.
  destruct (Dict.get (DocumentRetriever.index self) (Str.lower kw))
    as [entry|] eqn:E; [|reflexivity].
  rewrite forallb_forall in H. apply get_In in E. apply (H _ E).
Qed.

(** In an index whose entries are dictionaries a document is listed under
    a keyword once or not at all. *)
Lemma listings_listed (kw d : string) :
  index_wf (DocumentRetriever.index self) = true ->
  listings self kw d = if listed self kw d then 1 else 0.
Proof.
  intros Hwf. apply (entry_of_wf kw) in Hwf.
  unfold Dict.wf in Hwf. rewrite distinct_NoDup in Hwf.
  unfold listings, listed.
  destruct (Dict.contains (entry_of self kw) d) eqn:E.
  - apply contains_keys in E.
    now rewrite (proj1 (NoDup_count_occ' string_dec _) Hwf d E).
  - assert (~ In d (Dict.keys (entry_of self kw))) as Hn.
    { intros Hin. apply contains_keys in Hin. congruence. }
    now rewrite (proj1 (count_occ_not_In string_dec _ d) Hn).
Qed.

Lemma listings_nonneg (kw d : string) : 0 <= listings self kw d.
Proof. unfold listings. lia. Qed.

Lemma frequency_nonneg (d mot : string) :
  counts_nonneg (DocumentRetriever.freq_per_doc self) = true ->
  0 <= DocumentRetriever.frequency self d mot.
Proof.
  unfold counts_nonneg, DocumentRetriever.frequency, Dict.get_or.
  intros H. rewrite forallb_forall in H.
  destruct (Dict.get (DocumentRetriever.freq_per_doc self) d)
    as [table|] eqn:E; [|simpl; lia].
  apply get_In in E. specialize (H _ E). simpl in H.
  rewrite forallb_forall in H.
  destruct (Dict.get table mot) as [n|] eqn:E2; [|lia].
  apply get_In in E2. specialize (H _ E2). simpl in H. lia.
Qed.

(** A document that has a score keeps one when keywords are added. *)
Lemma scored_stays_scored (keywords : list string) (acc : dict Z)
  (d : string) :
  Dict.get acc d <> None ->
  Dict.get (fold_left (DocumentRetriever.add_keyword self) keywords acc) d
  <> None.
Proof.
  revert acc. induction keywords as [|kw keywords IH]; intros acc H; simpl;
    [assumption|].
  apply IH. rewrite get_add_keyword.
  destruct (listings self kw d =? 0); [assumption | discriminate].
Qed.

(** A document listed under one of the keywords has a score. *)
Lemma listed_is_scored (keywords : list string) (acc : dict Z)
  (kw d : string) :
  In kw keywords -> listings self kw d <> 0 ->
  Dict.get (fold_left (DocumentRetriever.add_keyword self) keywords acc) d
  <> None.
Proof.
  revert acc. induction keywords as [|kw0 keywords IH]; intros acc Hin Hl;
    simpl; [destruct Hin|].
  destruct Hin as [->|Hin].
  - apply scored_stays_scored. rewrite get_add_keyword.
    apply Z.eqb_neq in Hl. rewrite Hl. discriminate.
  - now apply IH.
Qed.

(** A document of the AND result is in the OR result, with the same
    score. *)
Lemma and_result_in_or_result (keywords : list string) (d : string) (s : Z) :
  index_wf (DocumentRetriever.index self) = true ->
  In (d, s) (DocumentRetriever.boolean_and_retrieve self keywords) ->
  In (d, s) (DocumentRetriever.retrieve self keywords).
Proof.
  intros Hwf Hand. apply In_boolean_and_retrieve in Hand.
  destruct Hand as [Hne [Hall ->]].
  assert (forall kw, In kw keywords -> listings self kw d = 1) as Hone.
  { intros kw Hkw. rewrite listings_listed by assumption. unfold listed.
    now rewrite (proj2 (contains_keys (entry_of self kw) d) (Hall kw Hkw)). }
  assert (score (DocumentRetriever.retrieve self keywords) d
          = DocumentRetriever.and_score self keywords d) as Hscore.
  { rewrite score_retrieve. unfold DocumentRetriever.and_score.
    rewrite and_score_from. rewrite Z.add_0_l. f_equal.
    apply map_ext_in. intros kw Hkw. rewrite (Hone kw Hkw). lia. }
  destruct (Dict.get (DocumentRetriever.retrieve self keywords) d)
    as [s'|] eqn:E.
  - unfold score, Dict.get_or in Hscore. rewrite E in Hscore. subst s'.
    now apply get_In.
  - exfalso. rewrite get_retrieve in E. revert E.
    destruct keywords as [|kw keywords]; [congruence|].
    apply (listed_is_scored (kw :: keywords) [] kw d); [now left|].
    rewrite (Hone kw); [lia | now left].
Qed.

(** C4: a document [boolean_and_retrieve] returns is listed in the index
    under a keyword of the list, and when [retrieve] returns it too, for
    the same keywords, its AND score is at most its OR score. *)
Theorem and_results_within_or_results (keywords : list string) (d : string)
  (s : Z) :
  index_wf (DocumentRetriever.index self) = true ->
  In (d, s) (DocumentRetriever.boolean_and_retrieve self keywords) ->
  (exists kw, In kw keywords /\ In d (Dict.keys (entry_of self kw)))
  /\ (forall s', In (d, s') (DocumentRetriever.retrieve self keywords) ->
                 s <= s').
Proof.
  intros Hwf Hand. split.
  - apply In_boolean_and_retrieve in Hand. destruct Hand as [Hne [Hall _]].
    destruct keywords as [|kw keywords]; [congruence|].
    exists kw. split; [now left | apply Hall; now left].
  - intros s' Hor. apply and_result_in_or_result in Hand; [|assumption].
    apply In_retrieve in Hand. apply In_retrieve in Hor.
    rewrite Hand in Hor. injection Hor as <-. lia.
Qed.

(** C5: with frequency tables that hold no negative count, a document
    that [retrieve] scores for a list of keywords is scored for the list
    with one keyword more, and not less. *)
Theorem retrieve_score_grows_with_keywords (ks : list string) (k d : string)
  (s : Z) :
  counts_nonneg (DocumentRetriever.freq_per_doc self) = true ->
  In (d, s) (DocumentRetriever.retrieve self ks) ->
  exists s',
    In (d, s') (DocumentRetriever.retrieve self (ks ++ [k])) /\ s <= s'.
Proof.
  intros Hnn Hin. apply In_retrieve in Hin.
  pose proof (frequency_nonneg d (Str.lower k) Hnn) as Hf.
  pose proof (listings_nonneg k d) as Hl.
  assert (score (DocumentRetriever.scores self ks) d = s) as Hs.
  { unfold score, Dict.get_or. now rewrite Hin. }
  destruct (listings self k d =? 0) eqn:E.
  - exists s. split; [|lia]. apply In_retrieve.
    now rewrite scores_app, get_add_keyword, E.
  - eexists. split.
    + apply In_retrieve. rewrite scores_app, get_add_keyword, E. reflexivity.
    + rewrite Hs. nia.
Qed.

(** C10, as the code has it: under [retrieve], a keyword added at the end
    of the list adds to the score of a document its frequency for the
    lower-cased keyword when the document is listed in the index under
    that keyword, and nothing otherwise; under [boolean_and_retrieve],
    repeating a keyword of the list adds the frequency for it to the score
    of every document of the result. *)
Theorem scores_add_up_over_keywords (ks : list string) (k d : string) :
  index_wf (DocumentRetriever.index self) = true ->
  score (DocumentRetriever.retrieve self (ks ++ [k])) d
  = score (DocumentRetriever.retrieve self ks) d
    + (if listed self k d
       then DocumentRetriever.frequency self d (Str.lower k) else 0)
  /\ (In k ks ->
      forall s,
        In (d, s) (DocumentRetriever.boolean_and_retrieve self ks) ->
        In (d, s + DocumentRetriever.frequency self d (Str.lower k))
           (DocumentRetriever.boolean_and_retrieve self (ks ++ [k]))).
Proof.
  intros Hwf. split.
  - rewrite !score_retrieve, map_app, total_app. cbn [map].
    rewrite listings_listed by assumption. unfold total at 2.
    cbn [fold_right]. destruct (listed self k d); lia.
  - intros Hk s Hand. apply In_boolean_and_retrieve in Hand.
    destruct Hand as [Hne [Hall ->]]. apply In_boolean_and_retrieve.
    split; [now destruct ks|]. split.
    + intros kw Hkw. apply in_app_or in Hkw.
      destruct Hkw as [Hkw|[<-|[]]]; now apply Hall.
    + now rewrite and_score_app.
Qed.

End RetrievalModes.

Lemma and_results_within_or_results_witness :
  index_wf (DocumentRetriever.index Scenario.retriever) = true
  /\ In ("a.txt", 3)
        (DocumentRetriever.boolean_and_retrieve Scenario.retriever
           ["cat"; "dog"])
  /\ (exists kw,
        In kw ["cat"; "dog"]
        /\ In "a.txt" (Dict.keys (entry_of Scenario.retriever kw)))
  /\ (forall s',
        In ("a.txt", s')
           (DocumentRetriever.retrieve Scenario.retriever ["cat"; "dog"]) ->
        3 <= s').
Proof.
  split; [vm_compute; reflexivity|].
  split; [vm_compute; left; reflexivity|].
  apply (and_results_within_or_results Scenario.retriever
           ["cat"; "dog"] "a.txt" 3).
  - vm_compute; reflexivity.
  - vm_compute; left; reflexivity.
Defined.

Lemma retrieve_score_grows_with_keywords_witness :
  counts_nonneg (DocumentRetriever.freq_per_doc Scenario.retriever) = true
  /\ In ("b.txt", 2) (DocumentRetriever.retrieve Scenario.retriever ["cat"])
  /\ exists s',
       In ("b.txt", s')
          (DocumentRetriever.retrieve Scenario.retriever (["cat"] ++ ["a"]))
       /\ 2 <= s'.
Proof.
  split; [vm_compute; reflexivity|].
  split; [vm_compute; right; left; reflexivity|].
  apply (retrieve_score_grows_with_keywords Scenario.retriever
           ["cat"] "a" "b.txt" 2).
  - vm_compute; reflexivity.
  - vm_compute; right; left; reflexivity.
Defined.

Lemma scores_add_up_over_keywords_witness :
  index_wf (DocumentRetriever.index Scenario.retriever) = true
  /\ score (DocumentRetriever.retrieve Scenario.retriever
              (["cat"; "dog"] ++ ["cat"])) "a.txt"
     = score (DocumentRetriever.retrieve Scenario.retriever ["cat"; "dog"])
             "a.txt"
       + (if listed Scenario.retriever "cat" "a.txt"
          then DocumentRetriever.frequency Scenario.retriever "a.txt"
                 (Str.lower "cat")
          else 0)
  /\ (In "cat" ["cat"; "dog"] ->
      forall s,
        In ("a.txt", s)
           (DocumentRetriever.boolean_and_retrieve Scenario.retriever
              ["cat"; "dog"]) ->
        In ("a.txt",
            s + DocumentRetriever.frequency Scenario.retriever "a.txt"
                  (Str.lower "cat"))
           (DocumentRetriever.boolean_and_retrieve Scenario.retriever
              (["cat"; "dog"] ++ ["cat"]))).
Proof.
  split; [vm_compute; reflexivity|].
  apply (scores_add_up_over_keywords Scenario.retriever
           ["cat"; "dog"] "cat" "a.txt").
  vm_compute; reflexivity.
Defined.

(** The session of [Scenario.stale_retriever] is one the program can be
    in: the first load succeeds, the second raises for the file that cannot
    be read after the new text of b.txt was stored. *)
Lemma stale_retriever_session :
  fst (TextProcessor.process_documents Scenario.fs_two TextProcessor.__init__
         ["a.txt"; "b.txt"]) = Ok tt
  /\ fst Scenario.failed_load = Raise (IOError "c.txt")
  /\ Dict.get (TextProcessor.get_tokens (snd Scenario.failed_load)) "b.txt"
     = Some ["a"; "cat"; "a"; "dog"]
  /\ Dict.get (TextProcessor.get_lines Scenario.loaded_two) "b.txt"
     = Some ["A cat, a cat."].
Proof. repeat split; vm_compute; reflexivity. Qed.

(** C10, as the specification has it, fails: b.txt is scored for the
    keyword cat, the keyword dog is in the index and b.txt has one
    occurrence of it in its frequency table, but b.txt is not listed under
    dog in the index, and adding the keyword dog leaves the score of b.txt
    as it was. *)
Lemma retrieve_adds_only_for_listed_documents :
  In ("b.txt", 1)
     (DocumentRetriever.retrieve Scenario.stale_retriever ["cat"])
  /\ In ("b.txt", 1)
        (DocumentRetriever.retrieve Scenario.stale_retriever
           (["cat"] ++ ["dog"]))
  /\ score (DocumentRetriever.retrieve Scenario.stale_retriever
              (["cat"] ++ ["dog"])) "b.txt"
     <> score (DocumentRetriever.retrieve Scenario.stale_retriever ["cat"])
              "b.txt"
        + (if Dict.contains
                (DocumentRetriever.index Scenario.stale_retriever)
                (Str.lower "dog")
           then DocumentRetriever.frequency Scenario.stale_retriever "b.txt"
                  (Str.lower "dog")
           else 0).
Proof.
  split; [vm_compute; right; left; reflexivity|].
  split; [vm_compute; right; left; reflexivity|].
  vm_compute. intros H. discriminate H.
Qed.

(** When every document that has a word in its frequency table is listed
    under the word in the index, the two readings agree. *)
Lemma scores_add_up_when_index_is_current (self : DocumentRetriever.t)
  (ks : list string) (k d : string) :
  index_wf (DocumentRetriever.index self) = true ->
  (forall doc mot,
      DocumentRetriever.frequency self doc mot <> 0 ->
      Dict.contains (Dict.get_or (DocumentRetriever.index self) mot []) doc
      = true) ->
  score (DocumentRetriever.retrieve self (ks ++ [k])) d
  = score (DocumentRetriever.retrieve self ks) d
    + (if Dict.contains (DocumentRetriever.index self) (Str.lower k)
       then DocumentRetriever.frequency self d (Str.lower k) else 0).
Proof.
  intros Hwf Hcur. rewrite !score_retrieve, map_app, total_app. cbn [map].
  rewrite listings_listed by assumption. unfold total at 2.
  cbn [fold_right]. f_equal.
  destruct (listed self k d) eqn:El.
  - unfold listed, entry_of, Dict.get_or, Dict.contains in *.
    destruct (Dict.get (DocumentRetriever.index self) (Str.lower k));
      [lia | discriminate El].
  - destruct (Z.eq_dec (DocumentRetriever.frequency self d (Str.lower k)) 0)
      as [Hz|Hnz].
    + rewrite Hz. now destruct (Dict.contains _ _).
    + apply Hcur in Hnz. unfold listed, entry_of in El. congruence.
Qed.

(** ** Rankings of a frequency table *)

(** C6, on the code: [get_top_n_in_document] on an analyzer that
    [compute_frequency_per_document] never ran on raises [AttributeError]
    for every document, not [KeyError]: the attribute [freq_per_doc] does
    not exist. *)
Theorem top_n_in_document_of_new_analyzer_raises (filepath : string) (n : Z) :
  FrequencyAnalyzer.get_top_n_in_document FrequencyAnalyzer.new filepath n
  = Raise (AttributeError "FrequencyAnalyzer" "freq_per_doc").
Proof. reflexivity. Qed.

Lemma get_per_document_from (docs_tokens : dict (list string))
  (acc : dict Counter.t) (filepath : string) :
  Dict.get
    (fold_left (fun acc '(filepath, tokens) =>
                  Dict.set acc filepath (Counter.of_tokens tokens))
               docs_tokens acc) filepath = None
  <-> Dict.get acc filepath = None /\ ~ In filepath (Dict.keys docs_tokens).
Proof.
  revert acc. induction docs_tokens as [|[fp toks] docs IH]; intros acc.
  - simpl. tauto.
  - cbn [fold_left]. rewrite IH, get_set. simpl.
    destruct (String.eqb fp filepath) eqn:E.
    + apply String.eqb_eq in E. split; [intros [H _]; discriminate|].
      intros [_ H]. exfalso. apply H. now left.
    + apply String.eqb_neq in E. tauto.
Qed.

(** The analyzed documents are those of the mapping of the last call. *)
Lemma per_document_keys (docs_tokens : dict (list string))
  (filepath : string) :
  Dict.get (FrequencyAnalyzer.per_document docs_tokens) filepath = None
  <-> ~ In filepath (Dict.keys docs_tokens).
Proof.
  unfold FrequencyAnalyzer.per_document. rewrite get_per_document_from.
  simpl. tauto.
Qed.

Lemma most_common_prefix (c : Counter.t) (n : Z) :
  exists rest,
    Py.sorted_by_score_desc c = (Counter.most_common c n ++ rest)%list
    /\ length (Counter.most_common c n)
       = Nat.min (Z.to_nat n) (length c).
Proof.
  unfold Counter.most_common.
  exists (skipn (Z.to_nat n) (Py.sorted_by_score_desc c)). split.
  - symmetry. apply firstn_skipn.
  - now rewrite length_firstn, sorted_length.
Qed.

(** Once [compute_frequency_per_document] has run, [get_top_n_in_document]
    raises [KeyError] for the documents that are not in the mapping of that
    call, and for the others returns the first [n] pairs of the ranking of
    the table of the document: the ranking holds the pairs of the table, by
    decreasing count, the pairs of one count in the order of the table.
    All pairs are returned when [n] is not less than their number. *)
Lemma top_n_in_document_after_analysis (self : FrequencyAnalyzer.t)
  (docs_tokens : dict (list string)) (filepath : string) (n : Z) :
  let self1 :=
    FrequencyAnalyzer.compute_frequency_per_document self docs_tokens in
  (~ In filepath (Dict.keys docs_tokens) ->
   FrequencyAnalyzer.get_top_n_in_document self1 filepath n
   = Raise (KeyError filepath))
  /\ (In filepath (Dict.keys docs_tokens) ->
      exists table ranking rest,
        Dict.get (FrequencyAnalyzer.per_document docs_tokens) filepath
        = Some table
        /\ FrequencyAnalyzer.get_top_n_in_document self1 filepath n
           = Ok (firstn (Z.to_nat n) ranking)
        /\ ranking = (firstn (Z.to_nat n) ranking ++ rest)%list
        /\ length (firstn (Z.to_nat n) ranking)
           = Nat.min (Z.to_nat n) (length table)
        /\ (Z.of_nat (length table) <= n -> firstn (Z.to_nat n) ranking
                                            = ranking)
        /\ Permutation ranking table
        /\ StronglySorted score_ge ranking
        /\ forall v, filter (fun p => snd p =? v) ranking
                     = filter (fun p => snd p =? v) table).
Proof.
  simpl. unfold FrequencyAnalyzer.get_top_n_in_document. simpl. split.
  - intros Hnot. apply per_document_keys in Hnot. now rewrite Hnot.
  - intros Hin.
    destruct (Dict.get (FrequencyAnalyzer.per_document docs_tokens) filepath)
      as [table|] eqn:E.
    + exists table, (Py.sorted_by_score_desc table),
        (skipn (Z.to_nat n) (Py.sorted_by_score_desc table)).
      split; [reflexivity|]. split; [reflexivity|].
      split; [symmetry; apply firstn_skipn|].
      split; [now rewrite length_firstn, sorted_length|].
      split; [|split; [apply sorted_Permutation|
                       split; [apply sorted_desc_sorted|
                               intros v; apply sorted_stable]]].
      intros Hn. apply firstn_all2. rewrite sorted_length. lia.
    + apply per_document_keys in E. contradiction.
Qed.

(** ** The tables and the index the classes build *)

Lemma of_tokens_counts_nonneg (tokens : list string) :
  forallb (fun p => 0 <=? snd p) (Counter.of_tokens tokens) = true.
Proof.
  apply forallb_forall. intros [w n] Hin. simpl.
  apply In_get in Hin; [|apply wf_of_tokens].
  pose proof (count_of_tokens tokens w) as H.
  unfold Counter.count, Dict.get_or in H. rewrite Hin in H. lia.
Qed.

(** No table of [compute_frequency_per_document] holds a negative
    count. *)
Lemma per_document_counts_nonneg (docs_tokens : dict (list string)) :
  counts_nonneg (FrequencyAnalyzer.per_document docs_tokens) = true.
Proof.
  unfold counts_nonneg. apply forallb_forall. intros [d c] Hin. simpl.
  pose proof (per_document_values_from
                (fun c => forallb (fun p => 0 <=? snd p) c = true)
                docs_tokens [] of_tokens_counts_nonneg (Forall_nil _)) as H.
  rewrite Forall_forall in H. apply H.
  unfold Dict.values. change c with (snd (d, c)). now apply in_map.
Qed.

Lemma index_wf_values (index : SimpleIndexer.index_t) :
  index_wf index = true <-> Forall Dict.wf (Dict.values index).
Proof.
  unfold index_wf, Dict.values, Dict.wf.
  rewrite forallb_forall, Forall_forall. split.
  - intros H entry Hin. apply in_map_iff in Hin.
    destruct Hin as [item [<- Hitem]]. now apply H.
  - intros H item Hitem. apply H. now apply in_map.
Qed.

Lemma add_occurrence_wf (filepath : string) (idx : Z)
  (index : SimpleIndexer.index_t) (mot : string) :
  Forall Dict.wf (Dict.values index) ->
  Forall Dict.wf
    (Dict.values (SimpleIndexer.add_occurrence filepath idx index mot)).
Proof.
  intros H. rewrite add_occurrence_set. cbv zeta.
  rewrite Forall_forall in *. intros entry Hin.
  apply values_set in Hin. destruct Hin as [->|Hin]; [|now apply H].
  apply wf_set.
  destruct (Dict.get index mot) as [e|] eqn:E; [|reflexivity].
  apply H. apply get_In in E. unfold Dict.values.
  change e with (snd (mot, e)). now apply in_map.
Qed.

(** Every entry of the index [build_index] builds is a dictionary. *)
Lemma built_index_wf (docs_lines : dict (list string)) :
  index_wf (SimpleIndexer.built_index docs_lines) = true.
Proof.
  apply index_wf_values. unfold SimpleIndexer.built_index.
  assert (forall docs index,
             Forall Dict.wf (Dict.values index) ->
             Forall Dict.wf
               (Dict.values
                  (fold_left SimpleIndexer.index_document docs index)))
    as Hdocs.
  { induction docs as [|[filepath lines] docs IHd]; intros index Hi;
      [assumption|].
    cbn [fold_left]. apply IHd. unfold SimpleIndexer.index_document.
    generalize (Py.enumerate 1 lines) as numbered. intros numbered.
    revert index Hi.
    induction numbered as [|[idx raw_line] numbered IHn]; intros index Hi;
      [assumption|].
    cbn [fold_left]. apply IHn. unfold SimpleIndexer.index_line.
    generalize (SimpleIndexer.tokenize_line raw_line) as tokens.
    intros tokens. revert index Hi.
    induction tokens as [|mot tokens IHt]; intros index Hi; [assumption|].
    cbn [fold_left]. apply IHt. now apply add_occurrence_wf. }
  apply Hdocs. constructor.
Qed.

Lemma set_fresh {V : Type} (d : dict V) (k : string) (v : V) :
  Dict.get d k = None -> Dict.set d k v = (d ++ [(k, v)])%list.
Proof.
  induction d as [|[k0 v0] d IH]; simpl; [reflexivity|].
  destruct (String.eqb k0 k); [discriminate|].
  intros H. now rewrite IH.
Qed.

Lemma per_document_map_from (docs_tokens : dict (list string))
  (acc : dict Counter.t) :
  Dict.wf docs_tokens ->
  (forall k, In k (Dict.keys docs_tokens) -> Dict.get acc k = None) ->
  fold_left (fun acc '(filepath, tokens) =>
               Dict.set acc filepath (Counter.of_tokens tokens))
            docs_tokens acc
  = (acc ++ map (fun '(filepath, tokens) =>
                   (filepath, Counter.of_tokens tokens))
                docs_tokens)%list.
Proof.
  unfold Dict.wf. revert acc.
  induction docs_tokens as [|[fp toks] docs IH]; intros acc Hwf Hfresh.
  - simpl. now rewrite app_nil_r.
  - simpl in Hwf. rewrite andb_true_iff, negb_true_iff in Hwf.
    destruct Hwf as [Hfp Hwf]. cbn [fold_left map].
    rewrite IH; [|assumption|].
    + rewrite set_fresh by (apply Hfresh; now left).
      now rewrite <- app_assoc.
    + intros k Hk. rewrite get_set.
      destruct (String.eqb fp k) eqn:E.
      * apply String.eqb_eq in E. subst k. apply mem_In in Hk. congruence.
      * apply Hfresh. now right.
Qed.

(** For a dictionary of documents, the tables are those of the documents,
    in the order of the documents. *)
Lemma per_document_map (docs_tokens : dict (list string)) :
  Dict.wf docs_tokens ->
  FrequencyAnalyzer.per_document docs_tokens
  = map (fun '(filepath, tokens) => (filepath, Counter.of_tokens tokens))
        docs_tokens.
Proof.
  intros Hwf. unfold FrequencyAnalyzer.per_document.
  now rewrite per_document_map_from.
Qed.

(** The corpus count of a token is the number of its occurrences in the
    token lists of the documents. *)
Lemma corpus_count_is_number_of_occurrences
  (docs_tokens : dict (list string)) (T : string) :
  Dict.wf docs_tokens ->
  Counter.count
    (FrequencyAnalyzer.aggregate
       (Dict.values (FrequencyAnalyzer.per_document docs_tokens))) T
  = total (map (fun doc => Z.of_nat (count_occ string_dec (snd doc) T))
               docs_tokens).
Proof.
  intros Hwf. rewrite per_document_map by assumption.
  unfold FrequencyAnalyzer.aggregate. rewrite count_aggregate_from.
  unfold Dict.values. rewrite !map_map. simpl. f_equal.
  apply map_ext. intros [fp toks]. simpl.
  rewrite mass_wf by apply wf_of_tokens. apply count_of_tokens.
Qed.

(** ** The order of a frequency table *)

Lemma filter_filter_and {A : Type} (P Q : A -> bool) (l : list A) :
  filter P (filter Q l) = filter (fun x => Q x && P x) l.
Proof.
  induction l as [|x l IH]; simpl; [reflexivity|].
  destruct (Q x); simpl; [|assumption].
  destruct (P x); now rewrite IH.
Qed.

Lemma mem_app (x : string) (l1 l2 : list string) :
  Dict.mem x (l1 ++ l2) = Dict.mem x l1 || Dict.mem x l2.
Proof. unfold Dict.mem. apply existsb_app. Qed.

Lemma keys_of_tokens_from (tokens : list string) (c : Counter.t) :
  Dict.keys
    (fold_left (fun c tok => Dict.set c tok (Counter.count c tok + 1))
               tokens c)
  = (Dict.keys c
     ++ filter (fun tok => negb (Dict.mem tok (Dict.keys c)))
               (Py.set_of tokens))%list.
Proof.
  revert c. induction tokens as [|tok tokens IH]; intros c.
  - simpl. now rewrite app_nil_r.
  - cbn [fold_left Py.set_of filter]. rewrite IH, keys_set.
    rewrite filter_filter_and.
    destruct (Dict.contains c tok) eqn:E.
    + assert (Dict.mem tok (Dict.keys c) = true) as Hm
        by now apply mem_In, contains_keys.
      rewrite Hm. cbn [negb]. f_equal. apply filter_ext_in.
      intros x _. destruct (String.eqb tok x) eqn:Ex; [|reflexivity].
      apply String.eqb_eq in Ex. subst x. now rewrite Hm.
    + assert (Dict.mem tok (Dict.keys c) = false) as Hm.
      { destruct (Dict.mem tok (Dict.keys c)) eqn:Em; [|reflexivity].
        apply mem_In, contains_keys in Em. congruence. }
      rewrite Hm. cbn [negb]. rewrite <- app_assoc. cbn [app].
      f_equal. f_equal. apply filter_ext. intros x.
      rewrite mem_app. unfold Dict.mem at 2. cbn [existsb].
      rewrite orb_false_r, negb_orb, (String.eqb_sym x tok).
      apply andb_comm.
Qed.

(** The words of [Counter(tokens)] stand in the order in which the tokens
    first occur. *)
Lemma keys_of_tokens (tokens : list string) :
  Dict.keys (Counter.of_tokens tokens) = Py.set_of tokens.
Proof.
  unfold Counter.of_tokens. rewrite keys_of_tokens_from. simpl.
  induction (Py.set_of tokens) as [|x l IH]; simpl; [reflexivity|].
  now rewrite IH.
Qed.

(** ** The tokens of a text and the tokens of its lines *)

Lemma string_of_list_ascii_app (l1 l2 : list ascii) :
  string_of_list_ascii (l1 ++ l2)
  = (string_of_list_ascii l1 ++ string_of_list_ascii l2)%string.
Proof. induction l1 as [|c l1 IH]; simpl; [reflexivity | now rewrite IH]. Qed.

Lemma rev_string_cons (c : ascii) (cur : list ascii) :
  Str.rev_string (c :: cur)
  = (Str.rev_string cur ++ String c EmptyString)%string.
Proof. unfold Str.rev_string. simpl. apply string_of_list_ascii_app. Qed.

Lemma append_assoc (s1 s2 s3 : string) :
  ((s1 ++ s2) ++ s3 = s1 ++ (s2 ++ s3))%string.
Proof. induction s1 as [|c s1 IH]; simpl; [reflexivity | now rewrite IH]. Qed.

Lemma append_empty (s : string) : (s ++ "" = s)%string.
Proof. induction s as [|c s IH]; simpl; [reflexivity | now rewrite IH]. Qed.

Lemma lower_app (s1 s2 : string) :
  Str.lower (s1 ++ s2) = (Str.lower s1 ++ Str.lower s2)%string.
Proof. induction s1 as [|c s1 IH]; simpl; [reflexivity | now rewrite IH]. Qed.

Lemma strip_punctuation_app (s1 s2 : string) :
  Str.strip_punctuation (s1 ++ s2)
  = (Str.strip_punctuation s1 ++ Str.strip_punctuation s2)%string.
Proof.
  induction s1 as [|c s1 IH]; simpl; [reflexivity|].
  destruct (Str.isword c || Str.isspace c); simpl; now rewrite IH.
Qed.

(** A white space ends the word being read. *)
Lemma split_from_space (cur : list ascii) (s1 : string) (c : ascii)
  (s2 : string) :
  Str.isspace c = true ->
  Str.split_from cur (s1 ++ String c s2)
  = (Str.split_from cur s1 ++ Str.split_from [] s2)%list.
Proof.
  intros Hc. revert cur. induction s1 as [|a s1 IH]; intros cur; simpl.
  - rewrite Hc. now destruct cur.
  - destruct (Str.isspace a).
    + destruct cur; [apply IH|]. simpl. now rewrite IH.
    + apply IH.
Qed.

Lemma rev_string_nonempty (c : ascii) (cur : list ascii) :
  String.eqb (Str.rev_string (c :: cur)) "" = false.
Proof.
  unfold Str.rev_string. simpl.
  destruct (rev cur ++ [c])%list as [|a l] eqn:E; [|reflexivity].
  apply app_eq_nil in E. destruct E as [_ E]. discriminate E.
Qed.

(** [split] returns no empty token: the filter of [_clean_and_tokenize]
    keeps them all. *)
Lemma split_from_nonempty (cur : list ascii) (s : string) :
  filter (fun tok => negb (String.eqb tok "")) (Str.split_from cur s)
  = Str.split_from cur s.
Proof.
  revert cur. induction s as [|c s IH]; intros cur; simpl.
  - destruct cur as [|a cur]; [reflexivity|].
    simpl. now rewrite rev_string_nonempty.
  - destruct (Str.isspace c); [|apply IH].
    destruct cur as [|a cur]; [apply IH|].
    simpl. now rewrite rev_string_nonempty, IH.
Qed.

Lemma clean_and_tokenize_line (text : string) :
  TextProcessor._clean_and_tokenize text = SimpleIndexer.tokenize_line text.
Proof.
  unfold TextProcessor._clean_and_tokenize, SimpleIndexer.tokenize_line.
  apply split_from_nonempty.
Qed.

Lemma lower_newline : Str.lower (String Str.newline "") = String Str.newline "".
Proof. reflexivity. Qed.

Lemma tokenize_line_newline (s1 s2 : string) :
  SimpleIndexer.tokenize_line (s1 ++ String Str.newline s2)
  = (SimpleIndexer.tokenize_line s1 ++ SimpleIndexer.tokenize_line s2)%list.
Proof.
  unfold SimpleIndexer.tokenize_line, Str.split.
  rewrite lower_app, strip_punctuation_app.
  change (Str.lower (String Str.newline s2))
    with (String Str.newline (Str.lower s2)).
  change (Str.strip_punctuation (String Str.newline (Str.lower s2)))
    with (String Str.newline (Str.strip_punctuation (Str.lower s2))).
  now apply split_from_space.
Qed.

Lemma lstrip_newline_free (l : list ascii) :
  newline_free l = true ->
  Str.lstrip_newline (string_of_list_ascii l) = string_of_list_ascii l.
Proof.
  destruct l as [|c l]; [reflexivity|]. simpl.
  rewrite andb_true_iff, negb_true_iff. intros [Hc _]. now rewrite Hc.
Qed.

Lemma drop_newlines_free (l : list ascii) :
  newline_free l = true -> Str.drop_newlines l = l.
Proof.
  destruct l as [|c l]; [reflexivity|]. simpl.
  rewrite andb_true_iff, negb_true_iff. intros [Hc _]. now rewrite Hc.
Qed.

Lemma newline_free_rev (l : list ascii) :
  newline_free (rev l) = newline_free l.
Proof.
  unfold newline_free. induction l as [|c l IH]; [reflexivity|].
  simpl. rewrite forallb_app, IH. simpl. rewrite andb_true_r.
  apply andb_comm.
Qed.

(** A line without newline is left as it is by [strip]. *)
Lemma strip_newline_free (cur : list ascii) :
  newline_free cur = true ->
  Str.strip_newline (Str.rev_string cur) = Str.rev_string cur.
Proof.
  intros H. unfold Str.strip_newline, Str.rev_string.
  rewrite lstrip_newline_free by now rewrite newline_free_rev.
  rewrite list_ascii_of_string_of_list_ascii, rev_involutive.
  now rewrite drop_newlines_free.
Qed.

(** A line that ends with its newline loses it. *)
Lemma strip_newline_line (cur : list ascii) :
  newline_free cur = true ->
  Str.strip_newline (Str.rev_string (Str.newline :: cur))
  = Str.rev_string cur.
Proof.
  intros H. unfold Str.strip_newline, Str.rev_string. simpl rev.
  assert (Str.lstrip_newline (string_of_list_ascii (rev cur ++ [Str.newline]))
          = match rev cur with
            | [] => ""
            | _ => string_of_list_ascii (rev cur ++ [Str.newline])
            end) as Hl.
  { pose proof (newline_free_rev cur) as Hr. rewrite H in Hr.
    destruct (rev cur) as [|c l]; [reflexivity|]. simpl in *.
    rewrite andb_true_iff, negb_true_iff in Hr. destruct Hr as [Hc _].
    now rewrite Hc. }
  rewrite Hl. destruct (rev cur) as [|c l] eqn:E.
  - reflexivity.
  - rewrite list_ascii_of_string_of_list_ascii, <- E, rev_app_distr.
    simpl. rewrite rev_involutive, drop_newlines_free by assumption.
    reflexivity.
Qed.

Lemma tokens_of_lines_from (cur : list ascii) (s : string) :
  newline_free cur = true ->
  flat_map (fun l => SimpleIndexer.tokenize_line (Str.strip_newline l))
           (Str.lines_from cur s)
  = SimpleIndexer.tokenize_line (Str.rev_string cur ++ s).
Proof.
  revert cur. induction s as [|c s IH]; intros cur Hcur.
  - rewrite append_empty. destruct cur as [|a cur]; [reflexivity|].
    cbn [Str.lines_from flat_map]. rewrite app_nil_r.
    now rewrite strip_newline_free.
  - cbn [Str.lines_from]. destruct (Ascii.eqb c Str.newline) eqn:E.
    + apply Ascii.eqb_eq in E. subst c. cbn [flat_map].
      rewrite strip_newline_line by assumption.
      rewrite (IH [] eq_refl). rewrite tokenize_line_newline.
      reflexivity.
    + rewrite IH.
      * rewrite rev_string_cons, append_assoc. reflexivity.
      * simpl. now rewrite E, Hcur.
Qed.

(** The tokens of a text are the tokens of its lines, in order. *)
Lemma tokens_of_lines (raw : string) :
  TextProcessor._clean_and_tokenize raw
  = flat_map SimpleIndexer.tokenize_line
             (map Str.strip_newline (Str.readlines raw)).
Proof.
  rewrite clean_and_tokenize_line, flat_map_concat_map, map_map.
  rewrite <- flat_map_concat_map. unfold Str.readlines.
  now rewrite tokens_of_lines_from.
Qed.

(** ** An index and a frequency table built from the same stores *)

Lemma stores_agree_init : stores_agree TextProcessor.__init__.
Proof. repeat split. Qed.

Lemma stores_agree_load (fs : FileSystem) (files : list string)
  (self : TextProcessor.t) :
  stores_agree self -> stores_agree (snd (TextProcessor.load fs self files)).
Proof.
  revert self. induction files as [|filepath files IH]; intros self Hs;
    [assumption|].
  cbn [TextProcessor.load].
  unfold TextProcessor._read_file, TextProcessor._read_lines.
  destruct (read_text fs filepath) as [raw|]; [|assumption].
  apply IH. destruct Hs as [Ht [Hl Hagree]].
  split; [now apply wf_set|]. split; [now apply wf_set|].
  intros d. cbn [TextProcessor.docs_tokens TextProcessor.docs_lines].
  rewrite !get_set. destruct (String.eqb filepath d); [|apply Hagree].
  simpl. now rewrite tokens_of_lines.
Qed.

(** Every call of [process_documents] keeps the two stores in agreement,
    whether it raises or not. *)
Lemma stores_agree_process_documents (fs : FileSystem)
  (self : TextProcessor.t) (paths : list string) :
  stores_agree self ->
  stores_agree (snd (TextProcessor.process_documents fs self paths)).
Proof.
  intros Hs. unfold TextProcessor.process_documents.
  destruct (TextProcessor.resolve fs [] paths); [|assumption].
  now apply stores_agree_load.
Qed.

Lemma get_map_values {V W : Type} (f : V -> W) (d : dict V) (k : string) :
  Dict.get (map (fun '(k, v) => (k, f v)) d) k = option_map f (Dict.get d k).
Proof.
  induction d as [|[k0 v0] d IH]; simpl; [reflexivity|].
  now destruct (String.eqb k0 k).
Qed.

Lemma hits_length (tok : string) (lines : list string) (s : Z) :
  length (hits tok (Py.enumerate s lines))
  = count_occ string_dec (flat_map SimpleIndexer.tokenize_line lines) tok.
Proof.
  revert s. induction lines as [|raw_line lines IH]; intros s;
    [reflexivity|].
  rewrite hits_cons, length_app, repeat_length, IH.
  cbn [flat_map]. now rewrite count_occ_app.
Qed.

(** When the index and the frequency tables are built from the stores of
    one processor, a document that has a word in its table is listed under
    the word in the index. *)
Lemma index_is_current (tp : TextProcessor.t) (doc mot : string) :
  stores_agree tp ->
  let self :=
    DocumentRetriever.__init__
      (SimpleIndexer.built_index (TextProcessor.get_lines tp))
      (FrequencyAnalyzer.per_document (TextProcessor.get_tokens tp)) in
  DocumentRetriever.frequency self doc mot <> 0 ->
  Dict.contains (Dict.get_or (DocumentRetriever.index self) mot []) doc
  = true.
Proof.
  intros [Ht [Hl Hagree]]. cbv zeta.
  unfold DocumentRetriever.frequency, DocumentRetriever.__init__,
    TextProcessor.get_lines, TextProcessor.get_tokens.
  cbn [DocumentRetriever.freq_per_doc DocumentRetriever.index].
  rewrite per_document_map by assumption.
  unfold Dict.get_or at 2. rewrite get_map_values, Hagree.
  destruct (Dict.get (TextProcessor.docs_lines tp) doc) as [lines|] eqn:E;
    [|intros H; now elim H].
  cbn [option_map]. fold (Counter.count
                            (Counter.of_tokens
                               (flat_map SimpleIndexer.tokenize_line lines))
                            mot).
  rewrite count_of_tokens, <- (hits_length mot lines 1). intros Hn.
  pose proof (lookup_index_documents (TextProcessor.docs_lines tp) []
                mot doc) as Hlook.
  rewrite hits_of_document, E in Hlook by assumption.
  fold (SimpleIndexer.built_index (TextProcessor.docs_lines tp)) in Hlook.
  destruct (hits mot (Py.enumerate 1 lines)) as [|k l]; [now elim Hn|].
  unfold lookup, extend in Hlook. unfold Dict.contains, Dict.get_or.
  destruct (Dict.get (SimpleIndexer.built_index (TextProcessor.docs_lines tp))
                     mot) as [entry|]; [|discriminate Hlook].
  now rewrite Hlook.
Qed.

(** In such a session the reading of the specification holds: a keyword
    that is in the index adds the frequency of the document for it. *)
Lemma scores_add_up_in_a_current_session (tp : TextProcessor.t)
  (ks : list string) (k d : string) :
  stores_agree tp ->
  let self :=
    DocumentRetriever.__init__
      (SimpleIndexer.built_index (TextProcessor.get_lines tp))
      (FrequencyAnalyzer.per_document (TextProcessor.get_tokens tp)) in
  score (DocumentRetriever.retrieve self (ks ++ [k])) d
  = score (DocumentRetriever.retrieve self ks) d
    + (if Dict.contains (DocumentRetriever.index self) (Str.lower k)
       then DocumentRetriever.frequency self d (Str.lower k) else 0).
Proof.
  intros Hs. cbv zeta. apply scores_add_up_when_index_is_current.
  - apply built_index_wf.
  - intros doc mot. now apply index_is_current.
Qed.

(** ** What a token is made of *)

Lemma lower_char_idempotent (c : ascii) :
  Str.lower_char (Str.lower_char c) = Str.lower_char c.
Proof. destruct c as [[] [] [] [] [] [] [] []]; vm_compute; reflexivity. Qed.

Lemma lower_idempotent (s : string) : Str.lower (Str.lower s) = Str.lower s.
Proof.
  induction s as [|c s IH]; simpl; [reflexivity|].
  now rewrite lower_char_idempotent, IH.
Qed.

Lemma normalized_chars (text : string) :
  all_chars (fun c => Str.isspace c || clean_char c)
            (Str.strip_punctuation (Str.lower text)) = true.
Proof.
  unfold all_chars. induction text as [|c text IH]; [reflexivity|].
  cbn [Str.lower Str.strip_punctuation].
  destruct (Str.isword (Str.lower_char c)) eqn:Ew;
    destruct (Str.isspace (Str.lower_char c)) eqn:Es;
    cbn [orb list_ascii_of_string forallb]; try assumption;
    rewrite IH, andb_true_r; unfold clean_char;
    rewrite ?Es, ?Ew, ?lower_char_idempotent, ?Ascii.eqb_refl; reflexivity.
Qed.

Lemma rev_string_chars (P : ascii -> bool) (cur : list ascii) :
  forallb P cur = true -> all_chars P (Str.rev_string cur) = true.
Proof.
  unfold all_chars, Str.rev_string.
  rewrite list_ascii_of_string_of_list_ascii, !forallb_forall.
  intros H c Hc. apply H. now apply in_rev.
Qed.

Lemma split_from_chars (P : ascii -> bool) (s : string) (cur : list ascii)
  (tok : string) :
  forallb P cur = true ->
  all_chars (fun c => Str.isspace c || P c) s = true ->
  In tok (Str.split_from cur s) ->
  all_chars P tok = true /\ tok <> "".
Proof.
  assert (forall a l, Str.rev_string (a :: l) <> "") as Hne.
  { intros a l H. pose proof (rev_string_nonempty a l) as E.
    rewrite H in E. discriminate E. }
  unfold all_chars at 1. revert cur.
  induction s as [|c s IH]; intros cur Hcur Hs Hin; simpl in *.
  - destruct cur as [|a cur]; [destruct Hin|].
    destruct Hin as [<-|[]]. split; [now apply rev_string_chars | apply Hne].
  - apply andb_true_iff in Hs. destruct Hs as [Hc Hs].
    destruct (Str.isspace c) eqn:E.
    + destruct cur as [|a cur]; [now apply (IH [])|].
      destruct Hin as [<-|Hin]; [|now apply (IH [])].
      split; [now apply rev_string_chars | apply Hne].
    + apply (IH (c :: cur)); [|assumption|assumption].
      simpl in *. now rewrite Hc, Hcur.
Qed.

Lemma tokenize_line_chars (raw_line tok : string) :
  In tok (SimpleIndexer.tokenize_line raw_line) ->
  all_chars clean_char tok = true /\ tok <> "".
Proof.
  unfold SimpleIndexer.tokenize_line, Str.split.
  apply split_from_chars; [reflexivity | apply normalized_chars].
Qed.

Lemma clean_chars_lower (tok : string) :
  all_chars clean_char tok = true -> Str.lower tok = tok.
Proof.
  unfold all_chars, clean_char.
  induction tok as [|c tok IH]; simpl; [reflexivity|].
  rewrite !andb_true_iff. intros [[[_ _] Hc] Htok].
  apply Ascii.eqb_eq in Hc. now rewrite Hc, IH.
Qed.

Lemma clean_chars_strip (tok : string) :
  all_chars clean_char tok = true -> Str.strip_punctuation tok = tok.
Proof.
  unfold all_chars, clean_char.
  induction tok as [|c tok IH]; simpl; [reflexivity|].
  rewrite !andb_true_iff. intros [[[Hw _] _] Htok].
  now rewrite Hw, IH.
Qed.

Lemma split_from_word (s : string) (cur : list ascii) :
  all_chars clean_char s = true ->
  Str.split_from cur s
  = match cur, s with
    | [], EmptyString => []
    | _, _ => [(Str.rev_string cur ++ s)%string]
    end.
Proof.
  unfold all_chars, clean_char. revert cur.
  induction s as [|c s IH]; intros cur; simpl.
  - intros _. destruct cur; [reflexivity|]. now rewrite append_empty.
  - rewrite !andb_true_iff, negb_true_iff. intros [[[_ Hs] _] Hrest].
    rewrite Hs, IH by assumption. rewrite rev_string_cons, append_assoc.
    simpl. now destruct cur, s.
Qed.

(** X1: a token of [_clean_and_tokenize] is not empty, is made of word
    characters only, none of them white space, and [str.lower] leaves it as
    it is. *)
Theorem tokens_are_clean_words (text tok : string) :
  In tok (TextProcessor._clean_and_tokenize text) ->
  tok <> ""
  /\ all_chars (fun c => Str.isword c && negb (Str.isspace c)) tok = true
  /\ Str.lower tok = tok.
Proof.
  rewrite clean_and_tokenize_line. intros Hin.
  apply tokenize_line_chars in Hin. destruct Hin as [Hc Hne].
  split; [assumption|]. split; [|now apply clean_chars_lower].
  unfold all_chars, clean_char in *. rewrite forallb_forall in *.
  intros c Hin. specialize (Hc c Hin).
  rewrite andb_true_iff in Hc. tauto.
Qed.

Lemma tokens_are_clean_words_witness :
  In "cat" (TextProcessor._clean_and_tokenize "The CAT, sat!")
  /\ "cat" <> ""
  /\ all_chars (fun c => Str.isword c && negb (Str.isspace c)) "cat" = true
  /\ Str.lower "cat" = "cat".
Proof.
  split; [vm_compute; right; left; reflexivity|].
  apply (tokens_are_clean_words "The CAT, sat!" "cat").
  vm_compute; right; left; reflexivity.
Defined.

(** X2: tokenizing a token again returns that token alone. *)
Theorem token_tokenizes_to_itself (text tok : string) :
  In tok (TextProcessor._clean_and_tokenize text) ->
  TextProcessor._clean_and_tokenize tok = [tok].
Proof.
  rewrite clean_and_tokenize_line. intros Hin.
  apply tokenize_line_chars in Hin. destruct Hin as [Hc Hne].
  rewrite clean_and_tokenize_line.
  unfold SimpleIndexer.tokenize_line, Str.split.
  rewrite clean_chars_lower, clean_chars_strip by assumption.
  rewrite split_from_word by assumption.
  destruct tok; [congruence | reflexivity].
Qed.

Lemma token_tokenizes_to_itself_witness :
  In "sat" (TextProcessor._clean_and_tokenize "The CAT, sat!")
  /\ TextProcessor._clean_and_tokenize "sat" = ["sat"].
Proof.
  split; [vm_compute; right; right; left; reflexivity|].
  apply (token_tokenizes_to_itself "The CAT, sat!" "sat").
  vm_compute; right; right; left; reflexivity.
Defined.

(** X3: the tokens of a text are the tokens of its lines, line after line:
    what [process_documents] stores as the tokens of a file is what
    [build_index] reads from the lines it stores for that file. *)
Theorem tokens_of_text_are_tokens_of_lines (raw : string) :
  TextProcessor._clean_and_tokenize raw
  = flat_map SimpleIndexer.tokenize_line
             (map Str.strip_newline (Str.readlines raw)).
Proof. apply tokens_of_lines. Qed.

(** ** Text files *)

Lemma string_length_app (s1 s2 : string) :
  String.length (s1 ++ s2) = (String.length s1 + String.length s2)%nat.
Proof. induction s1 as [|c s1 IH]; simpl; [reflexivity | now rewrite IH]. Qed.

Lemma substring_all (s : string) : substring 0 (String.length s) s = s.
Proof. induction s as [|c s IH]; simpl; [reflexivity | now rewrite IH]. Qed.

Lemma substring_app_right (p s : string) :
  substring (String.length p) (String.length s) (p ++ s) = s.
Proof. induction p as [|c p IH]; simpl; [apply substring_all | exact IH]. Qed.

Lemma substring_split (s : string) (k : nat) :
  (k <= String.length s)%nat ->
  s = (substring 0 k s ++ substring k (String.length s - k) s)%string.
Proof.
  revert k. induction s as [|c s IH]; intros k Hk.
  - destruct k; [reflexivity | simpl in Hk; lia].
  - destruct k as [|k].
    + simpl. now rewrite substring_all.
    + simpl in *. f_equal. apply IH. lia.
Qed.

Lemma endswith_app (p suffix : string) :
  Str.endswith (p ++ suffix) suffix = true.
Proof.
  unfold Str.endswith. rewrite string_length_app.
  replace (String.length p + String.length suffix - String.length suffix)%nat
    with (String.length p) by lia.
  rewrite substring_app_right, String.eqb_refl, andb_true_r.
  apply Nat.leb_le. lia.
Qed.

Lemma substring_length (s : string) (k m : nat) :
  (k + m <= String.length s)%nat -> String.length (substring k m s) = m.
Proof.
  revert k m. induction s as [|c s IH]; intros k m H.
  - simpl in H. assert (k = 0 /\ m = 0)%nat as [-> ->] by lia. reflexivity.
  - destruct k as [|k]; destruct m as [|m]; simpl in *; try reflexivity.
    + f_equal. apply IH. lia.
    + apply IH. lia.
    + apply IH. lia.
Qed.

Lemma endswith_inv (s suffix : string) :
  Str.endswith s suffix = true ->
  s = (substring 0 (String.length s - String.length suffix) s
       ++ suffix)%string.
Proof.
  unfold Str.endswith. rewrite andb_true_iff. intros [Hle Heq].
  apply Nat.leb_le in Hle. apply String.eqb_eq in Heq.
  set (k := (String.length s - String.length suffix)%nat) in *.
  assert (k <= String.length s)%nat as Hk by (unfold k; lia).
  pose proof (substring_split s k Hk) as Hs.
  replace (String.length s - k)%nat with (String.length suffix) in Hs
    by (unfold k; lia).
  now rewrite Heq in Hs.
Qed.

Lemma endswith_prefix (p s suffix : string) :
  Str.endswith s suffix = true -> Str.endswith (p ++ s) suffix = true.
Proof.
  intros H. apply endswith_inv in H. rewrite H, <- append_assoc.
  apply endswith_app.
Qed.

Lemma lower_length (s : string) : String.length (Str.lower s) = String.length s.
Proof. induction s as [|c s IH]; simpl; [reflexivity | now rewrite IH]. Qed.

Lemma append_inj (a a' b b' : string) :
  String.length a = String.length a' ->
  (a ++ b = a' ++ b')%string -> a = a' /\ b = b'.
Proof.
  revert a'. induction a as [|c a IH]; intros [|c' a'] Hlen Heq;
    try discriminate Hlen.
  - now split.
  - simpl in *. injection Heq as -> Heq. injection Hlen as Hlen.
    destruct (IH a' Hlen Heq) as [-> ->]. now split.
Qed.

(** X4: a name is a text file for [_is_text_file] exactly when it ends with
    the extension .txt, in any mix of upper and lower case. *)
Theorem text_file_has_txt_extension (filename : string) :
  TextProcessor._is_text_file filename = true
  <-> exists stem ext,
        filename = (stem ++ ext)%string /\ Str.lower ext = ".txt".
Proof.
  unfold TextProcessor._is_text_file. split.
  - intros H. pose proof (endswith_inv _ _ H) as Hend.
    unfold Str.endswith in H. apply andb_true_iff in H. destruct H as [Hle _].
    apply Nat.leb_le in Hle. rewrite lower_length in *.
    set (k := (String.length filename - String.length ".txt")%nat) in *.
    assert (k <= String.length filename)%nat as Hk by (unfold k; lia).
    pose proof (substring_split filename k Hk) as Hsplit.
    exists (substring 0 k filename),
      (substring k (String.length filename - k) filename).
    split; [assumption|].
    rewrite Hsplit in Hend at 1. rewrite lower_app in Hend.
    apply append_inj in Hend; [tauto|].
    rewrite lower_length, !substring_length;
      [reflexivity | rewrite lower_length; lia | lia].
  - intros [stem [ext [-> Hext]]]. rewrite lower_app, Hext.
    apply endswith_app.
Qed.

(** ** What [process_documents] stores *)

Lemma path_join_text_file (root fname : string) :
  TextProcessor._is_text_file fname = true ->
  TextProcessor._is_text_file (TextProcessor.path_join root fname) = true.
Proof.
  unfold TextProcessor.path_join, TextProcessor._is_text_file. intros H.
  destruct (String.prefix "/" fname); [assumption|].
  destruct (String.eqb root "" || Str.endswith root "/").
  - rewrite lower_app. now apply endswith_prefix.
  - rewrite !lower_app. now apply endswith_prefix, endswith_prefix.
Qed.

Lemma walk_text_files_text (fs : FileSystem) (p f : string) :
  In f (TextProcessor.walk_text_files fs p) ->
  TextProcessor._is_text_file f = true.
Proof.
  unfold TextProcessor.walk_text_files. rewrite in_flat_map.
  intros [[root files] [_ Hin]]. apply in_map_iff in Hin.
  destruct Hin as [fname [<- Hfname]]. apply filter_In in Hfname.
  now apply path_join_text_file.
Qed.

Lemma resolve_text_files (fs : FileSystem) (paths to_process files : list string) :
  Forall (fun f => TextProcessor._is_text_file f = true) to_process ->
  TextProcessor.resolve fs to_process paths = Ok files ->
  Forall (fun f => TextProcessor._is_text_file f = true) files.
Proof.
  revert to_process. induction paths as [|p paths IH]; intros to_process Hacc.
  - simpl. now intros [= <-].
  - simpl. destruct (isdir fs p).
    + apply IH. apply Forall_app. split; [assumption|].
      apply Forall_forall. intros f. apply walk_text_files_text.
    + destruct (isfile fs p && TextProcessor._is_text_file p) eqn:E;
        [|discriminate].
      apply IH. apply Forall_app. split; [assumption|].
      apply andb_true_iff in E. now repeat constructor.
Qed.

(** The second loop leaves alone the documents that are not in its
    list. *)
Lemma load_frame (fs : FileSystem) (files : list string)
  (self : TextProcessor.t) (d : string) :
  ~ In d files ->
  same_entries (snd (TextProcessor.load fs self files)) self d.
Proof.
  revert self. induction files as [|f files IH]; intros self Hd.
  - now repeat split.
  - cbn [TextProcessor.load].
    unfold TextProcessor._read_file, TextProcessor._read_lines.
    destruct (read_text fs f) as [raw|]; [|now repeat split].
    assert (f <> d) as Hne by (intros ->; apply Hd; now left).
    assert (~ In d files) as Hd' by (intros H; apply Hd; now right).
    match goal with
    | |- same_entries (snd (TextProcessor.load fs ?s files)) _ _ =>
        destruct (IH s Hd') as [H1 [H2 H3]]
    end.
    unfold same_entries. rewrite H1, H2, H3.
    cbn [TextProcessor.docs_raw TextProcessor.docs_lines
           TextProcessor.docs_tokens].
    now rewrite !get_set_other.
Qed.

(** When every file of the list can be read the loop ends without error
    and every file is stored with the text it has. *)
Lemma load_readable (fs : FileSystem) (files : list string)
  (self : TextProcessor.t) :
  (forall f, In f files -> read_text fs f <> None) ->
  fst (TextProcessor.load fs self files) = Ok tt
  /\ forall f, In f files ->
       exists raw, read_text fs f = Some raw
                   /\ stored_as (snd (TextProcessor.load fs self files)) f raw.
Proof.
  revert self. induction files as [|f files IH]; intros self Hread.
  - split; [reflexivity | intros f []].
  - cbn [TextProcessor.load].
    unfold TextProcessor._read_file, TextProcessor._read_lines.
    destruct (read_text fs f) as [raw|] eqn:E;
      [|exfalso; apply (Hread f); [now left | assumption]].
    match goal with
    | |- context [TextProcessor.load fs ?s files] => set (self3 := s)
    end.
    destruct (IH self3) as [Hok Hstored];
      [intros g Hg; apply Hread; now right|].
    split; [assumption|]. intros g [<-|Hg]; [|now apply Hstored].
    destruct (in_dec string_dec f files) as [Hin|Hnot];
      [now apply Hstored|].
    exists raw. split; [assumption|].
    destruct (load_frame fs files self3 f Hnot) as [H1 [H2 H3]].
    unfold stored_as. rewrite H1, H2, H3. unfold self3.
    cbn [TextProcessor.docs_raw TextProcessor.docs_lines
           TextProcessor.docs_tokens].
    now rewrite !get_set_same.
Qed.

(** A file that cannot be read stops the loop after the files before
    it. *)
Lemma load_unreadable (fs : FileSystem) (before after : list string)
  (f : string) (self : TextProcessor.t) :
  (forall g, In g before -> read_text fs g <> None) ->
  read_text fs f = None ->
  TextProcessor.load fs self (before ++ f :: after)%list
  = (Raise (IOError f), snd (TextProcessor.load fs self before)).
Proof.
  revert self. induction before as [|g before IH]; intros self Hread Hf.
  - cbn [app TextProcessor.load]. unfold TextProcessor._read_file.
    now rewrite Hf.
  - cbn [app TextProcessor.load].
    unfold TextProcessor._read_file, TextProcessor._read_lines.
    destruct (read_text fs g) as [raw|] eqn:E;
      [|exfalso; apply (Hread g); [now left | assumption]].
    apply IH; [|assumption]. intros h Hh. apply Hread. now right.
Qed.

(** X5: a document that a call of [process_documents] adds to the stores is
    a .txt file that the call found for its paths: as a path of the list or
    in a directory of the list. *)
Theorem added_documents_are_text_files (fs : FileSystem)
  (self : TextProcessor.t) (paths : list string) (d : string) :
  Dict.contains
    (TextProcessor.get_tokens
       (snd (TextProcessor.process_documents fs self paths))) d = true ->
  Dict.contains (TextProcessor.get_tokens self) d = true
  \/ (TextProcessor._is_text_file d = true
      /\ exists files, TextProcessor.resolve fs [] paths = Ok files
                       /\ In d files).
Proof.
  unfold TextProcessor.process_documents, TextProcessor.get_tokens.
  destruct (TextProcessor.resolve fs [] paths) as [files|e] eqn:E;
    [|now left].
  intros H. destruct (in_dec string_dec d files) as [Hin|Hnot].
  - right. split; [|now exists files].
    pose proof (resolve_text_files fs paths [] files (Forall_nil _) E) as Ht.
    rewrite Forall_forall in Ht. now apply Ht.
  - left. destruct (load_frame fs files self d Hnot) as [_ [_ H3]].
    unfold Dict.contains in *. now rewrite <- H3.
Qed.

Lemma added_documents_are_text_files_witness :
  Dict.contains
    (TextProcessor.get_tokens
       (snd (TextProcessor.process_documents Scenario.fs_dir
               Scenario.processor ["docs"]))) "docs/b.txt" = true
  /\ (Dict.contains (TextProcessor.get_tokens Scenario.processor)
        "docs/b.txt" = true
      \/ (TextProcessor._is_text_file "docs/b.txt" = true
          /\ exists files,
               TextProcessor.resolve Scenario.fs_dir [] ["docs"] = Ok files
               /\ In "docs/b.txt" files)).
Proof.
  split; [vm_compute; reflexivity|].
  apply (added_documents_are_text_files Scenario.fs_dir Scenario.processor
           ["docs"] "docs/b.txt").
  vm_compute; reflexivity.
Defined.

(** X6: [process_documents] leaves the entries of every document that is
    not among the files it found to read as they were, in the three
    stores, whether it raises or not. *)
Theorem other_documents_are_kept (fs : FileSystem) (self : TextProcessor.t)
  (paths : list string) (d : string) :
  (forall files, TextProcessor.resolve fs [] paths = Ok files ->
                 ~ In d files) ->
  same_entries (snd (TextProcessor.process_documents fs self paths)) self d.
Proof.
  intros H. unfold TextProcessor.process_documents.
  destruct (TextProcessor.resolve fs [] paths) as [files|e] eqn:E.
  - apply load_frame. now apply H.
  - now repeat split.
Qed.

Lemma other_documents_are_kept_witness :
  (forall files,
      TextProcessor.resolve Scenario.fs_later [] ["b.txt"] = Ok files ->
      ~ In "a.txt" files)
  /\ same_entries
       (snd (TextProcessor.process_documents Scenario.fs_later
               Scenario.loaded_two ["b.txt"]))
       Scenario.loaded_two "a.txt".
Proof.
  assert (forall files,
             TextProcessor.resolve Scenario.fs_later [] ["b.txt"] = Ok files ->
             ~ In "a.txt" files) as H.
  { intros files E. vm_compute in E. injection E as <-.
    intros [H|[]]. discriminate H. }
  split; [exact H|].
  apply (other_documents_are_kept Scenario.fs_later Scenario.loaded_two
           ["b.txt"] "a.txt" H).
Defined.

(** X7: when every path is a directory or a text file and every file found
    can be read, [process_documents] returns without error and every file
    found is stored with the text it has: the raw text, its lines without
    their newlines, and its tokens. *)
Theorem readable_files_are_stored (fs : FileSystem) (self : TextProcessor.t)
  (paths files : list string) :
  TextProcessor.resolve fs [] paths = Ok files ->
  (forall f, In f files -> read_text fs f <> None) ->
  fst (TextProcessor.process_documents fs self paths) = Ok tt
  /\ forall f, In f files ->
       exists raw,
         read_text fs f = Some raw
         /\ stored_as (snd (TextProcessor.process_documents fs self paths))
                      f raw.
Proof.
  intros E Hread. unfold TextProcessor.process_documents. rewrite E.
  now apply load_readable.
Qed.

Lemma readable_files_are_stored_witness :
  TextProcessor.resolve Scenario.fs_dir [] ["docs"; "a.txt"]
  = Ok ["docs/b.txt"; "a.txt"]
  /\ (forall f, In f ["docs/b.txt"; "a.txt"] ->
                read_text Scenario.fs_dir f <> None)
  /\ fst (TextProcessor.process_documents Scenario.fs_dir
            TextProcessor.__init__ ["docs"; "a.txt"]) = Ok tt
  /\ forall f, In f ["docs/b.txt"; "a.txt"] ->
       exists raw,
         read_text Scenario.fs_dir f = Some raw
         /\ stored_as
              (snd (TextProcessor.process_documents Scenario.fs_dir
                      TextProcessor.__init__ ["docs"; "a.txt"])) f raw.
Proof.
  assert (forall f, In f ["docs/b.txt"; "a.txt"] ->
                    read_text Scenario.fs_dir f <> None) as H.
  { intros f [<-|[<-|[]]]; vm_compute; discriminate. }
  split; [vm_compute; reflexivity|]. split; [exact H|].
  apply (readable_files_are_stored Scenario.fs_dir TextProcessor.__init__
           ["docs"; "a.txt"] ["docs/b.txt"; "a.txt"]);
    [vm_compute; reflexivity | exact H].
Defined.

(** X8: when a file found cannot be read, [process_documents] raises
    [IOError] for the first such file, the files found before it are stored
    with their text, and no other document changes: the load is partial. *)
Theorem unreadable_file_stops_the_load (fs : FileSystem)
  (self : TextProcessor.t) (paths before after : list string) (f : string) :
  TextProcessor.resolve fs [] paths = Ok (before ++ f :: after)%list ->
  (forall g, In g before -> read_text fs g <> None) ->
  read_text fs f = None ->
  let outcome := TextProcessor.process_documents fs self paths in
  fst outcome = Raise (IOError f)
  /\ (forall g, In g before ->
        exists raw, read_text fs g = Some raw
                    /\ stored_as (snd outcome) g raw)
  /\ (forall d, ~ In d before -> same_entries (snd outcome) self d).
Proof.
  intros E Hread Hf. cbv zeta. unfold TextProcessor.process_documents.
  rewrite E, (load_unreadable fs before after f self Hread Hf).
  cbn [fst snd]. split; [reflexivity|]. split.
  - apply load_readable. assumption.
  - intros d Hd. now apply load_frame.
Qed.

Lemma unreadable_file_stops_the_load_witness :
  TextProcessor.resolve Scenario.fs_later [] ["b.txt"; "c.txt"]
  = Ok (["b.txt"] ++ "c.txt" :: [])%list
  /\ (forall g, In g ["b.txt"] -> read_text Scenario.fs_later g <> None)
  /\ read_text Scenario.fs_later "c.txt" = None
  /\ fst Scenario.failed_load = Raise (IOError "c.txt")
  /\ (forall g, In g ["b.txt"] ->
        exists raw, read_text Scenario.fs_later g = Some raw
                    /\ stored_as (snd Scenario.failed_load) g raw)
  /\ (forall d, ~ In d ["b.txt"] ->
        same_entries (snd Scenario.failed_load) Scenario.loaded_two d).
Proof.
  assert (forall g, In g ["b.txt"] -> read_text Scenario.fs_later g <> None)
    as H.
  { intros g [<-|[]]; vm_compute; discriminate. }
  split; [vm_compute; reflexivity|]. split; [exact H|].
  split; [vm_compute; reflexivity|].
  apply (unreadable_file_stops_the_load Scenario.fs_later Scenario.loaded_two
           ["b.txt"; "c.txt"] ["b.txt"] [] "c.txt");
    [vm_compute; reflexivity | exact H | vm_compute; reflexivity].
Defined.

(** ** The stores after any series of loads *)

Lemma contains_mem {V : Type} (d : dict V) (k : string) :
  Dict.contains d k = Dict.mem k (Dict.keys d).
Proof.
  destruct (Dict.mem k (Dict.keys d)) eqn:E.
  - apply mem_In in E. now apply contains_keys.
  - destruct (Dict.contains d k) eqn:E'; [|reflexivity].
    apply contains_keys, mem_In in E'. congruence.
Qed.

Lemma keys_set_eq {V W : Type} (d : dict V) (d' : dict W) (k : string)
  (v : V) (w : W) :
  Dict.keys d = Dict.keys d' ->
  Dict.keys (Dict.set d k v) = Dict.keys (Dict.set d' k w).
Proof. intros H. now rewrite !keys_set, !contains_mem, H. Qed.

Lemma stores_aligned_load (fs : FileSystem) (files : list string)
  (self : TextProcessor.t) :
  stores_aligned self ->
  stores_aligned (snd (TextProcessor.load fs self files)).
Proof.
  revert self. induction files as [|f files IH]; intros self Hs;
    [assumption|].
  cbn [TextProcessor.load].
  unfold TextProcessor._read_file, TextProcessor._read_lines.
  destruct (read_text fs f) as [raw|]; [|assumption].
  apply IH. destruct Hs as [H1 H2]. split;
    cbn [TextProcessor.docs_raw TextProcessor.docs_lines
           TextProcessor.docs_tokens];
    now apply keys_set_eq.
Qed.

Lemma after_loads_invariant (calls : list (FileSystem * list string)) :
  stores_aligned (after_loads calls) /\ stores_agree (after_loads calls).
Proof.
  unfold after_loads.
  assert (stores_aligned TextProcessor.__init__
          /\ stores_agree TextProcessor.__init__) as Hinit
    by (split; [now split | apply stores_agree_init]).
  revert Hinit. generalize TextProcessor.__init__ as tp.
  induction calls as [|[fs paths] calls IH]; intros tp Htp; [assumption|].
  cbn [fold_left fst snd]. apply IH. destruct Htp as [Hal Hag]. split.
  - unfold TextProcessor.process_documents.
    destruct (TextProcessor.resolve fs [] paths); [|assumption].
    now apply stores_aligned_load.
  - now apply stores_agree_process_documents.
Qed.

(** X9: after any series of calls of [process_documents] on a new
    processor, failed ones among them, the three stores hold the same
    documents in the same order, each document once, and the tokens stored
    for a document are the tokens of the lines stored for it. *)
Theorem stores_stay_consistent (calls : list (FileSystem * list string)) :
  stores_aligned (after_loads calls) /\ stores_agree (after_loads calls).
Proof. apply after_loads_invariant. Qed.

(** ** What the index holds *)

Lemma lookup_built (docs_lines : dict (list string)) (tok doc : string) :
  Dict.wf docs_lines ->
  lookup (SimpleIndexer.built_index docs_lines) tok doc
  = extend None
      (match Dict.get docs_lines doc with
       | Some lines => hits tok (Py.enumerate 1 lines)
       | None => []
       end).
Proof.
  intros Hwf. unfold SimpleIndexer.built_index.
  now rewrite lookup_index_documents, hits_of_document.
Qed.

(** X10: once [build_index] has run on a dictionary of documents, a word
    that lower-cases to a token of line [k] of a document is found by
    [search_word]: the result has the document, and [k] in its list. *)
Theorem search_word_finds_every_occurrence (self : SimpleIndexer.t)
  (docs_lines : dict (list string)) (doc : string) (lines : list string)
  (k : Z) (raw_line tok word : string) :
  Dict.wf docs_lines ->
  Dict.get docs_lines doc = Some lines ->
  line_at lines k = Some raw_line ->
  In tok (SimpleIndexer.tokenize_line raw_line) ->
  Str.lower word = tok ->
  exists entry lignes,
    SimpleIndexer.search_word (SimpleIndexer.build_index self docs_lines) word
    = Ok entry
    /\ Dict.get entry doc = Some lignes
    /\ In k lignes.
Proof.
  intros Hwf Hdoc Hline Htok Hword.
  assert (In k (hits tok (Py.enumerate 1 lines))) as Hk.
  { apply (count_occ_In Z.eq_dec). rewrite hits_count.
    unfold line_at in Hline. destruct (1 <=? k); [|discriminate].
    rewrite Hline. unfold occurrences_on.
    now apply (count_occ_In string_dec). }
  pose proof (lookup_built docs_lines tok doc Hwf) as Hlook.
  rewrite Hdoc in Hlook.
  destruct (hits tok (Py.enumerate 1 lines)) as [|a l] eqn:E;
    [destruct Hk|].
  unfold lookup, extend in Hlook. unfold SimpleIndexer.search_word.
  cbn [SimpleIndexer.build_index SimpleIndexer.index]. rewrite Hword.
  unfold Dict.get_or.
  destruct (Dict.get (SimpleIndexer.built_index docs_lines) tok)
    as [entry|]; [|discriminate].
  exists entry, (a :: l). now repeat split.
Qed.

Lemma search_word_finds_every_occurrence_witness :
  Dict.wf Scenario.two_lines
  /\ Dict.get Scenario.two_lines "a.txt"
     = Some ["The cat sat. The cat ran."; "A cat."]
  /\ line_at ["The cat sat. The cat ran."; "A cat."] 2 = Some "A cat."
  /\ In "cat" (SimpleIndexer.tokenize_line "A cat.")
  /\ Str.lower "CAT" = "cat"
  /\ exists entry lignes,
       SimpleIndexer.search_word
         (SimpleIndexer.build_index SimpleIndexer.new Scenario.two_lines) "CAT"
       = Ok entry
       /\ Dict.get entry "a.txt" = Some lignes
       /\ In 2 lignes.
Proof.
  split; [vm_compute; reflexivity|]. split; [vm_compute; reflexivity|].
  split; [vm_compute; reflexivity|].
  split; [vm_compute; right; left; reflexivity|].
  split; [vm_compute; reflexivity|].
  apply (search_word_finds_every_occurrence SimpleIndexer.new
           Scenario.two_lines "a.txt"
           ["The cat sat. The cat ran."; "A cat."] 2 "A cat." "cat" "CAT");
    try (vm_compute; reflexivity).
  vm_compute; right; left; reflexivity.
Defined.

Lemma built_index_values (P : dict (list Z) -> Prop)
  (docs_lines : dict (list string)) :
  (forall filepath idx index mot,
      Forall P (Dict.values index) ->
      Forall P (Dict.values
                  (SimpleIndexer.add_occurrence filepath idx index mot))) ->
  Forall P (Dict.values (SimpleIndexer.built_index docs_lines)).
Proof.
  intros Hstep. unfold SimpleIndexer.built_index.
  assert (forall docs index,
             Forall P (Dict.values index) ->
             Forall P (Dict.values
                         (fold_left SimpleIndexer.index_document docs index)))
    as Hdocs.
  { induction docs as [|[filepath lines] docs IHd]; intros index Hi;
      [assumption|].
    cbn [fold_left]. apply IHd. unfold SimpleIndexer.index_document.
    generalize (Py.enumerate 1 lines) as numbered. intros numbered.
    revert index Hi.
    induction numbered as [|[idx raw_line] numbered IHn]; intros index Hi;
      [assumption|].
    cbn [fold_left]. apply IHn. unfold SimpleIndexer.index_line.
    generalize (SimpleIndexer.tokenize_line raw_line) as tokens.
    intros tokens. revert index Hi.
    induction tokens as [|mot tokens IHt]; intros index Hi; [assumption|].
    cbn [fold_left]. apply IHt. now apply Hstep. }
  apply Hdocs. constructor.
Qed.

Lemma set_not_nil {V : Type} (d : dict V) (k : string) (v : V) :
  Dict.set d k v <> [].
Proof.
  destruct d as [|[k0 v0] d]; simpl; [discriminate|].
  destruct (String.eqb k0 k); discriminate.
Qed.

(** X11: the index [build_index] builds has no empty part: the entry of a
    word lists a document at least, a list holds a line number at least,
    and the word is a token of a line of one of the documents. *)
Theorem index_entries_are_not_empty (docs_lines : dict (list string))
  (tok : string) (entry : dict (list Z)) :
  Dict.get (SimpleIndexer.built_index docs_lines) tok = Some entry ->
  entry <> []
  /\ (forall doc lignes, Dict.get entry doc = Some lignes -> lignes <> [])
  /\ exists doc lines raw_line,
       In (doc, lines) docs_lines
       /\ In raw_line lines
       /\ In tok (SimpleIndexer.tokenize_line raw_line).
Proof.
  intros Hentry.
  assert (entry <> []) as Hne.
  { pose proof (built_index_values (fun e => e <> []) docs_lines) as H.
    rewrite Forall_forall in H. apply H.
    - intros filepath idx index mot Hi. rewrite add_occurrence_set.
      cbv zeta. apply Forall_forall. intros e He.
      apply values_set in He. destruct He as [->|He].
      + apply set_not_nil.
      + rewrite Forall_forall in Hi. now apply Hi.
    - apply get_In in Hentry. unfold Dict.values.
      change entry with (snd (tok, entry)). now apply in_map. }
  assert (forall doc lignes,
             Dict.get entry doc = Some lignes ->
             lignes
             = flat_map (fun '(filepath, lines) =>
                           if String.eqb filepath doc
                           then hits tok (Py.enumerate 1 lines) else [])
                        docs_lines
             /\ lignes <> []) as Hlists.
  { intros doc lignes Hl.
    pose proof (lookup_index_documents docs_lines [] tok doc) as Hlook.
    fold (SimpleIndexer.built_index docs_lines) in Hlook.
    unfold lookup in Hlook. rewrite Hentry, Hl in Hlook. simpl in Hlook.
    destruct (flat_map _ docs_lines) as [|a l]; [discriminate|].
    simpl in Hlook. injection Hlook as ->. split; [reflexivity|discriminate]. }
  split; [assumption|].
  split; [intros doc lignes Hl; now destruct (Hlists doc lignes Hl)|].
  destruct entry as [|[doc lignes] entry]; [congruence|].
  destruct (Hlists doc lignes) as [Heq Hnil].
  { simpl. now rewrite String.eqb_refl. }
  destruct lignes as [|k lignes]; [congruence|].
  assert (In k (k :: lignes)) as Hk by now left.
  rewrite Heq in Hk. apply in_flat_map in Hk.
  destruct Hk as [[filepath lines] [Hdoc Hk]].
  destruct (String.eqb filepath doc); [|destruct Hk].
  assert (count_occ string_dec (flat_map SimpleIndexer.tokenize_line lines)
                    tok > 0)%nat as Hc.
  { rewrite <- (hits_length tok lines 1).
    destruct (hits tok (Py.enumerate 1 lines)); [destruct Hk | simpl; lia]. }
  apply (count_occ_In string_dec) in Hc. apply in_flat_map in Hc.
  destruct Hc as [raw_line [Hraw Htok]].
  now exists filepath, lines, raw_line.
Qed.

Lemma index_entries_are_not_empty_witness :
  Dict.get (SimpleIndexer.built_index Scenario.two_lines) "cat"
  = Some [("a.txt", [1; 1; 2])]
  /\ [("a.txt", [1; 1; 2])] <> []
  /\ (forall doc lignes,
        Dict.get [("a.txt", [1; 1; 2])] doc = Some lignes -> lignes <> [])
  /\ exists doc lines raw_line,
       In (doc, lines) Scenario.two_lines
       /\ In raw_line lines
       /\ In "cat" (SimpleIndexer.tokenize_line raw_line).
Proof.
  split; [vm_compute; reflexivity|].
  apply (index_entries_are_not_empty Scenario.two_lines "cat"
           [("a.txt", [1; 1; 2])]).
  vm_compute; reflexivity.
Defined.

(** X12: after any series of loads, in the index and the frequency tables
    built from the stores, the number of line numbers the index lists for a
    word and a document is the frequency of the word in the table of the
    document, 0 when one of them has no entry. *)
Theorem index_lists_as_many_lines_as_the_frequency
  (calls : list (FileSystem * list string)) (tok doc : string) :
  let self := retriever_of (after_loads calls) in
  Z.of_nat
    (length (Dict.get_or (Dict.get_or (DocumentRetriever.index self) tok [])
                         doc []))
  = DocumentRetriever.frequency self doc tok.
Proof.
  cbv zeta. destruct (after_loads_invariant calls) as [_ [Ht [Hl Hagree]]].
  set (tp := after_loads calls) in *.
  unfold retriever_of, DocumentRetriever.frequency, DocumentRetriever.__init__,
    TextProcessor.get_lines, TextProcessor.get_tokens.
  cbn [DocumentRetriever.freq_per_doc DocumentRetriever.index].
  rewrite per_document_map by assumption.
  unfold Dict.get_or at 4. rewrite get_map_values, Hagree.
  pose proof (lookup_built (TextProcessor.docs_lines tp) tok doc Hl) as Hlook.
  assert (Dict.get_or
            (Dict.get_or (SimpleIndexer.built_index
                            (TextProcessor.docs_lines tp)) tok []) doc []
          = match Dict.get (TextProcessor.docs_lines tp) doc with
            | Some lines => hits tok (Py.enumerate 1 lines)
            | None => []
            end) as Hget.
  { unfold lookup in Hlook. unfold Dict.get_or.
    destruct (Dict.get (SimpleIndexer.built_index
                          (TextProcessor.docs_lines tp)) tok) as [entry|].
    - rewrite Hlook.
      now destruct (match Dict.get (TextProcessor.docs_lines tp) doc with
                    | Some lines => hits tok (Py.enumerate 1 lines)
                    | None => []
                    end).
    - simpl.
      destruct (match Dict.get (TextProcessor.docs_lines tp) doc with
                | Some lines => hits tok (Py.enumerate 1 lines)
                | None => []
                end); [reflexivity | discriminate Hlook]. }
  rewrite Hget.
  destruct (Dict.get (TextProcessor.docs_lines tp) doc) as [lines|];
    [|reflexivity].
  cbn [option_map]. rewrite hits_length.
  symmetry. apply count_of_tokens.
Qed.

(** ** The table of a document *)

Lemma total_values_set (c : Counter.t) (k : string) (v : Z) :
  total (Dict.values (Dict.set c k v))
  = total (Dict.values c) - Counter.count c k + v.
Proof.
  unfold Counter.count, Dict.get_or, total.
  induction c as [|[k0 v0] c IH]; simpl; [lia|].
  destruct (String.eqb k0 k); simpl; lia.
Qed.

Lemma total_values_of_tokens (tokens : list string) :
  total (Dict.values (Counter.of_tokens tokens)) = Z.of_nat (length tokens).
Proof.
  unfold Counter.of_tokens.
  assert (forall c,
             total (Dict.values
                      (fold_left
                         (fun c tok => Dict.set c tok (Counter.count c tok + 1))
                         tokens c))
             = total (Dict.values c) + Z.of_nat (length tokens)) as H.
  { induction tokens as [|tok tokens IH]; intros c; simpl length.
    - simpl. lia.
    - cbn [fold_left]. rewrite IH, total_values_set. lia. }
  rewrite H. reflexivity.
Qed.

(** X13: after [compute_frequency_per_document] on a dictionary of
    documents, the table of a document lists its distinct tokens in the
    order in which they first occur, gives each word the number of its
    occurrences among the tokens, and its counts add up to the number of
    tokens. *)
Theorem document_table_counts_tokens (self : FrequencyAnalyzer.t)
  (docs_tokens : dict (list string)) (d : string) (tokens : list string) :
  Dict.wf docs_tokens ->
  Dict.get docs_tokens d = Some tokens ->
  exists tables table,
    FrequencyAnalyzer.freq_per_doc
      (FrequencyAnalyzer.compute_frequency_per_document self docs_tokens)
    = Some tables
    /\ Dict.get tables d = Some table
    /\ Dict.keys table = Py.set_of tokens
    /\ (forall T, Counter.count table T
                  = Z.of_nat (count_occ string_dec tokens T))
    /\ total (Dict.values table) = Z.of_nat (length tokens).
Proof.
  intros Hwf Hd.
  exists (FrequencyAnalyzer.per_document docs_tokens),
    (Counter.of_tokens tokens).
  split; [reflexivity|]. split.
  - rewrite per_document_map by assumption.
    now rewrite get_map_values, Hd.
  - split; [apply keys_of_tokens|].
    split; [intros T; apply count_of_tokens | apply total_values_of_tokens].
Qed.

Lemma document_table_counts_tokens_witness :
  Dict.wf [("a.txt", ["the"; "cat"; "sat"; "the"; "cat"; "ran"])]
  /\ Dict.get [("a.txt", ["the"; "cat"; "sat"; "the"; "cat"; "ran"])] "a.txt"
     = Some ["the"; "cat"; "sat"; "the"; "cat"; "ran"]
  /\ exists tables table,
       FrequencyAnalyzer.freq_per_doc
         (FrequencyAnalyzer.compute_frequency_per_document
            FrequencyAnalyzer.new
            [("a.txt", ["the"; "cat"; "sat"; "the"; "cat"; "ran"])])
       = Some tables
       /\ Dict.get tables "a.txt" = Some table
       /\ Dict.keys table
          = Py.set_of ["the"; "cat"; "sat"; "the"; "cat"; "ran"]
       /\ (forall T,
             Counter.count table T
             = Z.of_nat (count_occ string_dec
                           ["the"; "cat"; "sat"; "the"; "cat"; "ran"] T))
       /\ total (Dict.values table)
          = Z.of_nat (length ["the"; "cat"; "sat"; "the"; "cat"; "ran"]).
Proof.
  split; [vm_compute; reflexivity|]. split; [vm_compute; reflexivity|].
  apply (document_table_counts_tokens FrequencyAnalyzer.new
           [("a.txt", ["the"; "cat"; "sat"; "the"; "cat"; "ran"])] "a.txt"
           ["the"; "cat"; "sat"; "the"; "cat"; "ran"]);
    vm_compute; reflexivity.
Defined.

(** X14: after [compute_frequency_per_document] on a dictionary of
    documents and [compute_corpus_frequency], the corpus count of a word is
    the number of its occurrences in the token lists of all the
    documents. *)
Theorem corpus_table_counts_all_tokens (self : FrequencyAnalyzer.t)
  (docs_tokens : dict (list string)) :
  Dict.wf docs_tokens ->
  exists corpus,
    FrequencyAnalyzer.corpus_freq
      (snd (FrequencyAnalyzer.compute_corpus_frequency
              (FrequencyAnalyzer.compute_frequency_per_document
                 self docs_tokens)))
    = Some corpus
    /\ forall T,
         Counter.count corpus T
         = total (map (fun doc => Z.of_nat (count_occ string_dec (snd doc) T))
                      docs_tokens).
Proof.
  intros Hwf. eexists. split; [reflexivity|]. intros T.
  now apply corpus_count_is_number_of_occurrences.
Qed.

Lemma corpus_table_counts_all_tokens_witness :
  Dict.wf [("a.txt", ["a"; "cat"]); ("b.txt", ["a"; "dog"; "a"])]
  /\ exists corpus,
       FrequencyAnalyzer.corpus_freq
         (snd (FrequencyAnalyzer.compute_corpus_frequency
                 (FrequencyAnalyzer.compute_frequency_per_document
                    FrequencyAnalyzer.new
                    [("a.txt", ["a"; "cat"]); ("b.txt", ["a"; "dog"; "a"])])))
       = Some corpus
       /\ forall T,
            Counter.count corpus T
            = total (map (fun doc =>
                            Z.of_nat (count_occ string_dec (snd doc) T))
                         [("a.txt", ["a"; "cat"]);
                          ("b.txt", ["a"; "dog"; "a"])]).
Proof.
  split; [vm_compute; reflexivity|].
  apply (corpus_table_counts_all_tokens FrequencyAnalyzer.new
           [("a.txt", ["a"; "cat"]); ("b.txt", ["a"; "dog"; "a"])]).
  vm_compute; reflexivity.
Defined.

(** ** Rankings *)

(** X15: once [compute_frequency_per_document] has run, a call of
    [get_top_n_in_document] raises [KeyError] exactly for the documents
    that are not in the mapping that call was given. *)
Theorem key_error_for_documents_not_analyzed (self : FrequencyAnalyzer.t)
  (docs_tokens : dict (list string)) (filepath : string) (n : Z) :
  FrequencyAnalyzer.get_top_n_in_document
    (FrequencyAnalyzer.compute_frequency_per_document self docs_tokens)
    filepath n = Raise (KeyError filepath)
  <-> ~ In filepath (Dict.keys docs_tokens).
Proof.
  unfold FrequencyAnalyzer.get_top_n_in_document.
  cbn [FrequencyAnalyzer.compute_frequency_per_document
         FrequencyAnalyzer.freq_per_doc].
  rewrite <- per_document_keys.
  destruct (Dict.get (FrequencyAnalyzer.per_document docs_tokens) filepath).
  - split; discriminate.
  - split; reflexivity.
Qed.

Lemma sorted_app_le {A : Type} (l1 l2 : list (A * Z)) (p q : A * Z) :
  StronglySorted score_ge (l1 ++ l2) -> In p l1 -> In q l2 -> snd q <= snd p.
Proof.
  induction l1 as [|x l1 IH]; intros Hs Hp Hq; [destruct Hp|].
  simpl in Hs. inversion Hs as [|? ? Hs' Hall]; subst.
  destruct Hp as [->|Hp]; [|now apply IH].
  rewrite Forall_forall in Hall. apply (Hall q).
  apply in_or_app. now right.
Qed.

Lemma sorted_app_left {A : Type} (l1 l2 : list (A * Z)) :
  StronglySorted score_ge (l1 ++ l2) -> StronglySorted score_ge l1.
Proof.
  induction l1 as [|x l1 IH]; intros Hs; [constructor|].
  simpl in Hs. inversion Hs as [|? ? Hs' Hall]; subst.
  constructor; [now apply IH|].
  apply Forall_app in Hall. tauto.
Qed.

(** The first pairs of the ranking of a table. *)
Lemma most_common_top (c : Counter.t) (n : Z) :
  let top := Counter.most_common c n in
  length top = Nat.min (Z.to_nat n) (length c)
  /\ StronglySorted score_ge top
  /\ (forall p, In p top -> In p c)
  /\ (forall p q, In p top -> In q c -> ~ In q top -> snd q <= snd p)
  /\ (forall v, exists more,
         filter (fun p => snd p =? v) c
         = (filter (fun p => snd p =? v) top ++ more)%list).
Proof.
  cbv zeta. destruct (most_common_prefix c n) as [rest [Hsplit Hlen]].
  pose proof (sorted_desc_sorted c) as Hsorted. rewrite Hsplit in Hsorted.
  split; [assumption|]. split; [eapply sorted_app_left; eassumption|].
  split; [|split].
  - intros p Hp. apply (sorted_In p c). rewrite Hsplit.
    apply in_or_app. now left.
  - intros p q Hp Hq Hnot. apply (sorted_In q c) in Hq.
    rewrite Hsplit in Hq. apply in_app_or in Hq.
    destruct Hq as [Hq|Hq]; [contradiction|].
    eapply sorted_app_le; eassumption.
  - intros v. exists (filter (fun p => snd p =? v) rest).
    rewrite <- filter_app, <- Hsplit. symmetry. apply sorted_stable.
Qed.

(** X16: for a document that has a table, [get_top_n_in_document] returns
    min(n, number of words) pairs of the table (none for a negative n), by
    decreasing count; no pair left out counts more than a pair returned;
    and the pairs of one count are the first of that count in the table, in
    the order of the table. *)
Theorem top_n_of_a_document (self : FrequencyAnalyzer.t)
  (tables : dict Counter.t) (filepath : string) (table : Counter.t) (n : Z) :
  FrequencyAnalyzer.freq_per_doc self = Some tables ->
  Dict.get tables filepath = Some table ->
  exists top,
    FrequencyAnalyzer.get_top_n_in_document self filepath n = Ok top
    /\ length top = Nat.min (Z.to_nat n) (length table)
    /\ StronglySorted score_ge top
    /\ (forall p, In p top -> In p table)
    /\ (forall p q, In p top -> In q table -> ~ In q top -> snd q <= snd p)
    /\ (forall v, exists more,
           filter (fun p => snd p =? v) table
           = (filter (fun p => snd p =? v) top ++ more)%list).
Proof.
  intros Htables Htable. exists (Counter.most_common table n).
  split; [|apply most_common_top].
  unfold FrequencyAnalyzer.get_top_n_in_document.
  now rewrite Htables, Htable.
Qed.

Lemma top_n_of_a_document_witness :
  FrequencyAnalyzer.freq_per_doc Scenario.analyzer
  = Some [("a.txt", [("the", 2); ("cat", 2); ("sat", 1); ("ran", 1)])]
  /\ Dict.get [("a.txt", [("the", 2); ("cat", 2); ("sat", 1); ("ran", 1)])]
       "a.txt"
     = Some [("the", 2); ("cat", 2); ("sat", 1); ("ran", 1)]
  /\ exists top,
       FrequencyAnalyzer.get_top_n_in_document Scenario.analyzer "a.txt" 3
       = Ok top
       /\ length top
          = Nat.min (Z.to_nat 3)
              (length [("the", 2); ("cat", 2); ("sat", 1); ("ran", 1)])
       /\ StronglySorted score_ge top
       /\ (forall p, In p top ->
                     In p [("the", 2); ("cat", 2); ("sat", 1); ("ran", 1)])
       /\ (forall p q,
              In p top ->
              In q [("the", 2); ("cat", 2); ("sat", 1); ("ran", 1)] ->
              ~ In q top -> snd q <= snd p)
       /\ (forall v, exists more,
              filter (fun p => snd p =? v)
                     [("the", 2); ("cat", 2); ("sat", 1); ("ran", 1)]
              = (filter (fun p => snd p =? v) top ++ more)%list).
Proof.
  split; [vm_compute; reflexivity|]. split; [vm_compute; reflexivity|].
  apply (top_n_of_a_document Scenario.analyzer
           [("a.txt", [("the", 2); ("cat", 2); ("sat", 1); ("ran", 1)])]
           "a.txt" [("the", 2); ("cat", 2); ("sat", 1); ("ran", 1)] 3);
    vm_compute; reflexivity.
Defined.

(** X17: once [compute_corpus_frequency] has set the corpus table,
    [get_top_n_in_corpus] does not raise; the answer for [n] is the
    beginning of the answer for any larger [m], and an [m] that is at least
    the number of words returns every pair of the table once. *)
Theorem corpus_ranking_grows_with_n (self : FrequencyAnalyzer.t)
  (corpus : Counter.t) (n m : Z) :
  FrequencyAnalyzer.corpus_freq self = Some corpus ->
  n <= m ->
  exists top_m,
    FrequencyAnalyzer.get_top_n_in_corpus self m = Ok top_m
    /\ FrequencyAnalyzer.get_top_n_in_corpus self n
       = Ok (firstn (Z.to_nat n) top_m)
    /\ (Z.of_nat (length corpus) <= m -> Permutation top_m corpus).
Proof.
  intros Hc Hnm. exists (Counter.most_common corpus m).
  unfold FrequencyAnalyzer.get_top_n_in_corpus. rewrite Hc.
  split; [reflexivity|]. unfold Counter.most_common. split.
  - rewrite firstn_firstn. f_equal. f_equal. lia.
  - intros Hm. rewrite firstn_all2 by (rewrite sorted_length; lia).
    apply sorted_Permutation.
Qed.

Lemma corpus_ranking_grows_with_n_witness :
  FrequencyAnalyzer.corpus_freq
    (snd (FrequencyAnalyzer.compute_corpus_frequency Scenario.analyzer))
  = Some [("the", 2); ("cat", 2); ("sat", 1); ("ran", 1)]
  /\ 1 <= 4
  /\ exists top_m,
       FrequencyAnalyzer.get_top_n_in_corpus
         (snd (FrequencyAnalyzer.compute_corpus_frequency Scenario.analyzer))
         4 = Ok top_m
       /\ FrequencyAnalyzer.get_top_n_in_corpus
            (snd (FrequencyAnalyzer.compute_corpus_frequency
                    Scenario.analyzer)) 1
          = Ok (firstn (Z.to_nat 1) top_m)
       /\ (Z.of_nat (length [("the", 2); ("cat", 2); ("sat", 1); ("ran", 1)])
           <= 4 ->
           Permutation top_m
             [("the", 2); ("cat", 2); ("sat", 1); ("ran", 1)]).
Proof.
  split; [vm_compute; reflexivity|]. split; [lia|].
  apply (corpus_ranking_grows_with_n
           (snd (FrequencyAnalyzer.compute_corpus_frequency Scenario.analyzer))
           [("the", 2); ("cat", 2); ("sat", 1); ("ran", 1)] 1 4);
    [vm_compute; reflexivity | lia].
Defined.

(** ** Which documents the two modes return *)

Section RetrievalResults.
Variable self : DocumentRetriever.t.

Lemma listings_zero (kw d : string) :
  (listings self kw d =? 0) = negb (listed self kw d).
Proof.
  unfold listings, listed. destruct (Dict.contains (entry_of self kw) d) eqn:E.
  - apply contains_keys in E. apply (count_occ_In string_dec) in E.
    apply Z.eqb_neq. lia.
  - assert (~ In d (Dict.keys (entry_of self kw))) as Hn.
    { intros H. apply contains_keys in H. congruence. }
    apply (count_occ_not_In string_dec) in Hn. now rewrite Hn.
Qed.

(** What [retrieve] computes for a document: nothing when no keyword lists
    it, and else the sum of what the keywords add. *)
Lemma get_scores_from (keywords : list string) (acc : dict Z) (d : string) :
  Dict.get (fold_left (DocumentRetriever.add_keyword self) keywords acc) d
  = if existsb (fun kw => listed self kw d) keywords
    then Some (score acc d
               + total (map (fun kw =>
                               listings self kw d
                               * DocumentRetriever.frequency self d
                                   (Str.lower kw)) keywords))
    else Dict.get acc d.
Proof.
  revert acc. induction keywords as [|kw keywords IH]; intros acc;
    [reflexivity|].
  cbn [fold_left existsb map]. rewrite IH, score_add_keyword, get_add_keyword.
  rewrite listings_zero.
  destruct (listed self kw d) eqn:El; cbn [negb orb].
  - destruct (existsb (fun kw0 => listed self kw0 d) keywords) eqn:Ex.
    + unfold total. cbn [fold_right]. f_equal. lia.
    + f_equal. unfold total. cbn [fold_right].
      assert (fold_right Z.add 0
                (map (fun kw0 =>
                        listings self kw0 d
                        * DocumentRetriever.frequency self d (Str.lower kw0))
                     keywords) = 0) as Hz; [|lia].
      clear IH. induction keywords as [|k0 keywords IHk]; [reflexivity|].
      cbn [existsb] in Ex. apply orb_false_iff in Ex. destruct Ex as [E0 Ex].
      cbn [map fold_right]. rewrite (IHk Ex).
      pose proof (listings_zero k0 d) as Hl. rewrite E0 in Hl.
      apply Z.eqb_eq in Hl. rewrite Hl. lia.
  - destruct (existsb (fun kw0 => listed self kw0 d) keywords);
      [|reflexivity].
    pose proof (listings_zero kw d) as Hl. rewrite El in Hl.
    apply Z.eqb_eq in Hl. rewrite Hl. unfold total. cbn [fold_right].
    f_equal. lia.
Qed.

Lemma get_scores (keywords : list string) (d : string) :
  Dict.get (DocumentRetriever.scores self keywords) d
  = if existsb (fun kw => listed self kw d) keywords
    then Some (total (map (fun kw =>
                             listings self kw d
                             * DocumentRetriever.frequency self d
                                 (Str.lower kw)) keywords))
    else None.
Proof. unfold DocumentRetriever.scores. now rewrite get_scores_from. Qed.

(** X18: [retrieve] returns a document exactly when the index lists it
    under one of the keywords, lower-cased. *)
Theorem or_mode_returns_the_listed_documents (keywords : list string)
  (d : string) :
  (exists s, In (d, s) (DocumentRetriever.retrieve self keywords))
  <-> exists kw, In kw keywords /\ listed self kw d = true.
Proof.
  rewrite <- existsb_exists. split.
  - intros [s Hin]. apply In_retrieve in Hin. rewrite get_scores in Hin.
    now destruct (existsb _ keywords).
  - intros Hex. eexists. apply In_retrieve. rewrite get_scores, Hex.
    reflexivity.
Qed.

(** X19: [boolean_and_retrieve] returns a document exactly when the list of
    keywords is not empty and the index lists the document under every
    keyword, and its score is the sum over the keywords, repeated ones
    counted again, of its frequency for the lower-cased keyword. *)
Theorem and_mode_returns_the_documents_listed_everywhere
  (keywords : list string) (d : string) (s : Z) :
  In (d, s) (DocumentRetriever.boolean_and_retrieve self keywords)
  <-> keywords <> []
      /\ forallb (fun kw => listed self kw d) keywords = true
      /\ s = total (map (fun kw =>
                           DocumentRetriever.frequency self d (Str.lower kw))
                        keywords).
Proof.
  rewrite In_boolean_and_retrieve, forallb_forall.
  unfold DocumentRetriever.and_score. rewrite and_score_from, Z.add_0_l.
  unfold listed.
  split; intros [Hne [Hall Hs]]; (split; [assumption|]);
    (split; [|assumption]); intros kw Hkw;
    apply contains_keys; now apply Hall.
Qed.

(** X20: a keyword that is not in the index changes nothing to the result
    of [retrieve]: the result is that of the keywords that are in the
    index. *)
Theorem or_mode_skips_unknown_keywords (keywords : list string) :
  DocumentRetriever.retrieve self
    (filter (fun kw =>
               Dict.contains (DocumentRetriever.index self) (Str.lower kw))
            keywords)
  = DocumentRetriever.retrieve self keywords.
Proof.
  assert (forall acc,
             fold_left (DocumentRetriever.add_keyword self)
               (filter (fun kw =>
                          Dict.contains (DocumentRetriever.index self)
                            (Str.lower kw)) keywords) acc
             = fold_left (DocumentRetriever.add_keyword self) keywords acc)
    as Hfold.
  { induction keywords as [|kw keywords IH]; intros acc; [reflexivity|].
    cbn [filter fold_left]. unfold Dict.contains at 1.
    unfold DocumentRetriever.add_keyword at 3.
    destruct (Dict.get (DocumentRetriever.index self) (Str.lower kw)) eqn:E.
    - cbn [fold_left]. unfold DocumentRetriever.add_keyword at 2.
      rewrite E. apply IH.
    - apply IH. }
  destruct keywords as [|kw keywords]; [reflexivity|].
  specialize (Hfold []).
  fold (DocumentRetriever.scores self (kw :: keywords)) in Hfold.
  unfold DocumentRetriever.retrieve at 2. rewrite <- Hfold.
  unfold DocumentRetriever.retrieve, DocumentRetriever.scores.
  now destruct (filter _ (kw :: keywords)).
Qed.

(** X21: a keyword that is not in the index empties the result of
    [boolean_and_retrieve]. *)
Theorem and_mode_is_empty_with_an_unknown_keyword (keywords : list string)
  (kw : string) :
  In kw keywords ->
  Dict.contains (DocumentRetriever.index self) (Str.lower kw) = false ->
  DocumentRetriever.boolean_and_retrieve self keywords = [].
Proof.
  intros Hin Habsent.
  destruct (DocumentRetriever.boolean_and_retrieve self keywords)
    as [|[d s] l] eqn:E; [reflexivity|].
  exfalso.
  assert (In (d, s) (DocumentRetriever.boolean_and_retrieve self keywords))
    as H by (rewrite E; now left).
  apply In_boolean_and_retrieve in H. destruct H as [_ [Hall _]].
  specialize (Hall kw Hin). unfold entry_of, Dict.get_or in Hall.
  unfold Dict.contains in Habsent.
  destruct (Dict.get (DocumentRetriever.index self) (Str.lower kw));
    [discriminate Habsent | destruct Hall].
Qed.

Lemma NoDup_filter {A : Type} (f : A -> bool) (l : list A) :
  NoDup l -> NoDup (filter f l).
Proof.
  induction l as [|x l IH]; intros H; [constructor|].
  inversion H as [|? ? Hx Hl]; subst. simpl.
  destruct (f x); [|now apply IH].
  constructor; [|now apply IH].
  intros Hin. apply filter_In in Hin. tauto.
Qed.

Lemma NoDup_set_of (l : list string) : NoDup (Py.set_of l).
Proof.
  induction l as [|x l IH]; simpl; [constructor|].
  constructor; [|now apply NoDup_filter].
  intros Hin. apply filter_In in Hin. destruct Hin as [_ Hx].
  now rewrite String.eqb_refl in Hx.
Qed.

(** X22: both modes return their pairs by decreasing score, and no
    document twice. *)
Theorem results_are_ranked (keywords : list string) :
  (StronglySorted score_ge (DocumentRetriever.retrieve self keywords)
   /\ NoDup (map fst (DocumentRetriever.retrieve self keywords)))
  /\ (StronglySorted score_ge
        (DocumentRetriever.boolean_and_retrieve self keywords)
      /\ NoDup (map fst
                  (DocumentRetriever.boolean_and_retrieve self keywords))).
Proof.
  split; split.
  - destruct keywords; [constructor | apply sorted_desc_sorted].
  - apply distinct_NoDup. apply wf_retrieve.
  - destruct keywords; [constructor | apply sorted_desc_sorted].
  - destruct keywords as [|kw keywords]; [constructor|].
    unfold DocumentRetriever.boolean_and_retrieve.
    eapply Permutation_NoDup.
    + apply Permutation_map. symmetry. apply sorted_Permutation.
    + rewrite map_map. cbn [fst]. rewrite map_id.
      cbn [map Py.intersection]. apply NoDup_filter, NoDup_set_of.
Qed.

End RetrievalResults.

Lemma and_mode_is_empty_with_an_unknown_keyword_witness :
  In "bird" ["cat"; "bird"]
  /\ Dict.contains (DocumentRetriever.index Scenario.retriever)
       (Str.lower "bird") = false
  /\ DocumentRetriever.boolean_and_retrieve Scenario.retriever
       ["cat"; "bird"] = [].
Proof.
  split; [simpl; auto|]. split; [vm_compute; reflexivity|].
  apply (and_mode_is_empty_with_an_unknown_keyword Scenario.retriever
           ["cat"; "bird"] "bird");
    [simpl; auto | vm_compute; reflexivity].
Defined.

(** X23: with an index whose entries are dictionaries, every document of
    the result of [boolean_and_retrieve] is in the result of [retrieve] for
    the same keywords, with the same score. *)
Theorem and_mode_results_are_or_mode_results (self : DocumentRetriever.t)
  (keywords : list string) (d : string) (s : Z) :
  index_wf (DocumentRetriever.index self) = true ->
  In (d, s) (DocumentRetriever.boolean_and_retrieve self keywords) ->
  In (d, s) (DocumentRetriever.retrieve self keywords).
Proof. apply and_result_in_or_result. Qed.

Lemma and_mode_results_are_or_mode_results_witness :
  index_wf (DocumentRetriever.index Scenario.retriever) = true
  /\ In ("a.txt", 3)
        (DocumentRetriever.boolean_and_retrieve Scenario.retriever
           ["cat"; "dog"])
  /\ In ("a.txt", 3)
        (DocumentRetriever.retrieve Scenario.retriever ["cat"; "dog"]).
Proof.
  split; [vm_compute; reflexivity|].
  split; [vm_compute; left; reflexivity|].
  apply (and_mode_results_are_or_mode_results Scenario.retriever
           ["cat"; "dog"] "a.txt" 3);
    [vm_compute; reflexivity | vm_compute; left; reflexivity].
Defined.

(** ** The order and the case of the keywords *)

Lemma total_Permutation (l l' : list Z) :
  Permutation l l' -> total l = total l'.
Proof.
  unfold total. induction 1 as [|x l l' _ IH|x y l|l l' l'' _ IH1 _ IH2];
    simpl; lia.
Qed.

Lemma existsb_Permutation {A : Type} (f : A -> bool) (l l' : list A) :
  Permutation l l' -> existsb f l = existsb f l'.
Proof.
  induction 1 as [|x l l' _ IH|x y l|l l' l'' _ IH1 _ IH2]; simpl.
  - reflexivity.
  - now rewrite IH.
  - now destruct (f x), (f y).
  - congruence.
Qed.

(** X24: the order of the keywords does not matter: for a list of keywords
    and any rearrangement of it, [retrieve] gives a document the same
    score, or none in both cases, and [boolean_and_retrieve] returns the
    same pairs. *)
Theorem keyword_order_does_not_matter (self : DocumentRetriever.t)
  (ks ks' : list string) :
  Permutation ks ks' ->
  (forall d,
      Dict.get (DocumentRetriever.retrieve self ks) d
      = Dict.get (DocumentRetriever.retrieve self ks') d)
  /\ (forall d s,
         In (d, s) (DocumentRetriever.boolean_and_retrieve self ks)
         <-> In (d, s) (DocumentRetriever.boolean_and_retrieve self ks')).
Proof.
  intros Hp. split.
  - intros d. rewrite !get_retrieve, !get_scores.
    rewrite (existsb_Permutation _ ks ks' Hp).
    destruct (existsb _ ks'); [|reflexivity]. f_equal.
    apply total_Permutation. now apply Permutation_map.
  - assert (forall a b, Permutation a b -> forall d s,
               In (d, s) (DocumentRetriever.boolean_and_retrieve self a) ->
               In (d, s) (DocumentRetriever.boolean_and_retrieve self b))
      as Hhalf.
    { intros a b Hab d s Hin. apply In_boolean_and_retrieve in Hin.
      destruct Hin as [Hne [Hall ->]]. apply In_boolean_and_retrieve.
      split; [|split].
      - intros ->. symmetry in Hab. apply Permutation_nil in Hab.
        congruence.
      - intros kw Hkw. apply Hall.
        eapply Permutation_in; [symmetry|]; eassumption.
      - unfold DocumentRetriever.and_score. rewrite !and_score_from.
        f_equal. apply total_Permutation. now apply Permutation_map. }
    intros d s. split; apply Hhalf; [assumption | now symmetry].
Qed.

Lemma keyword_order_does_not_matter_witness :
  Permutation ["cat"; "dog"] ["dog"; "cat"]
  /\ (forall d,
         Dict.get (DocumentRetriever.retrieve Scenario.retriever
                     ["cat"; "dog"]) d
         = Dict.get (DocumentRetriever.retrieve Scenario.retriever
                       ["dog"; "cat"]) d)
  /\ (forall d s,
         In (d, s) (DocumentRetriever.boolean_and_retrieve Scenario.retriever
                      ["cat"; "dog"])
         <-> In (d, s) (DocumentRetriever.boolean_and_retrieve
                          Scenario.retriever ["dog"; "cat"])).
Proof.
  split; [apply perm_swap|].
  apply (keyword_order_does_not_matter Scenario.retriever
           ["cat"; "dog"] ["dog"; "cat"]).
  apply perm_swap.
Defined.

Lemma add_keyword_lower (self : DocumentRetriever.t) (acc : dict Z)
  (kw : string) :
  DocumentRetriever.add_keyword self acc (Str.lower kw)
  = DocumentRetriever.add_keyword self acc kw.
Proof.
  unfold DocumentRetriever.add_keyword. now rewrite lower_idempotent.
Qed.

Lemma scores_lower (self : DocumentRetriever.t) (ks ks' : list string)
  (acc : dict Z) :
  map Str.lower ks = map Str.lower ks' ->
  fold_left (DocumentRetriever.add_keyword self) ks acc
  = fold_left (DocumentRetriever.add_keyword self) ks' acc.
Proof.
  revert ks' acc. induction ks as [|k ks IH]; intros [|k' ks'] acc Hmap;
    try discriminate Hmap; [reflexivity|].
  cbn [map] in Hmap. injection Hmap as Hk Hks. cbn [fold_left].
  rewrite <- (add_keyword_lower self acc k), Hk, add_keyword_lower.
  now apply IH.
Qed.

Lemma and_score_lower (self : DocumentRetriever.t) (ks ks' : list string)
  (d : string) :
  map Str.lower ks = map Str.lower ks' ->
  DocumentRetriever.and_score self ks d
  = DocumentRetriever.and_score self ks' d.
Proof.
  intros Hmap. unfold DocumentRetriever.and_score.
  rewrite !and_score_from. f_equal.
  rewrite <- (map_map Str.lower
                (fun mot => DocumentRetriever.frequency self d mot) ks).
  rewrite <- (map_map Str.lower
                (fun mot => DocumentRetriever.frequency self d mot) ks').
  now rewrite Hmap.
Qed.

(** X25: the case of the keywords does not matter: two lists of keywords
    that are the same once lower-cased give the same result, in both
    modes. *)
Theorem keyword_case_does_not_matter (self : DocumentRetriever.t)
  (ks ks' : list string) :
  map Str.lower ks = map Str.lower ks' ->
  DocumentRetriever.retrieve self ks = DocumentRetriever.retrieve self ks'
  /\ DocumentRetriever.boolean_and_retrieve self ks
     = DocumentRetriever.boolean_and_retrieve self ks'.
Proof.
  intros Hmap. split.
  - unfold DocumentRetriever.retrieve, DocumentRetriever.scores.
    rewrite (scores_lower self ks ks' [] Hmap).
    destruct ks, ks'; try discriminate Hmap; reflexivity.
  - unfold DocumentRetriever.boolean_and_retrieve.
    assert (map (DocumentRetriever.docs_for self) ks
            = map (DocumentRetriever.docs_for self) ks') as Hdocs.
    { unfold DocumentRetriever.docs_for.
      rewrite <- (map_map Str.lower
                    (fun mot =>
                       Py.set_of
                         (Dict.keys
                            (Dict.get_or (DocumentRetriever.index self)
                                         mot []))) ks).
      rewrite <- (map_map Str.lower
                    (fun mot =>
                       Py.set_of
                         (Dict.keys
                            (Dict.get_or (DocumentRetriever.index self)
                                         mot []))) ks').
      now rewrite Hmap. }
    rewrite Hdocs.
    destruct ks, ks'; try discriminate Hmap; [reflexivity|].
    f_equal. apply map_ext. intros d. f_equal.
    now apply and_score_lower.
Qed.

Lemma keyword_case_does_not_matter_witness :
  map Str.lower ["Cat"; "DOG"] = map Str.lower ["cat"; "dog"]
  /\ DocumentRetriever.retrieve Scenario.retriever ["Cat"; "DOG"]
     = DocumentRetriever.retrieve Scenario.retriever ["cat"; "dog"]
  /\ DocumentRetriever.boolean_and_retrieve Scenario.retriever ["Cat"; "DOG"]
     = DocumentRetriever.boolean_and_retrieve Scenario.retriever
         ["cat"; "dog"].
Proof.
  split; [vm_compute; reflexivity|].
  apply (keyword_case_does_not_matter Scenario.retriever
           ["Cat"; "DOG"] ["cat"; "dog"]).
  vm_compute; reflexivity.
Defined.

(** ** The sessions of the command loop *)

Lemma analyse_with_index (s : CLIManager.t) (index : SimpleIndexer.index_t) :
  SimpleIndexer.index (CLIManager.indexer s) = Some index ->
  CLIManager.analyse s
  = (Ok tt,
     {| CLIManager.text_processor := CLIManager.text_processor s;
        CLIManager.freq_analyzer :=
          {| FrequencyAnalyzer.freq_per_doc :=
               Some (FrequencyAnalyzer.per_document
                       (TextProcessor.docs_tokens
                          (CLIManager.text_processor s)));
             FrequencyAnalyzer.corpus_freq :=
               Some (FrequencyAnalyzer.aggregate
                       (Dict.values
                          (FrequencyAnalyzer.per_document
                             (TextProcessor.docs_tokens
                                (CLIManager.text_processor s))))) |};
        CLIManager.indexer := CLIManager.indexer s;
        CLIManager.retriever :=
          Some (DocumentRetriever.__init__ index
                  (FrequencyAnalyzer.per_document
                     (TextProcessor.docs_tokens
                        (CLIManager.text_processor s))));
        CLIManager.loaded := CLIManager.loaded s |}).
Proof.
  intros H. unfold CLIManager.analyse, CLIManager.new_retriever,
    SimpleIndexer.get_index. simpl. now rewrite H.
Qed.

Lemma keys_grow_set {V : Type} (d : dict V) (k : string) (v : V) :
  incl (Dict.keys d) (Dict.keys (Dict.set d k v)).
Proof.
  rewrite keys_set. destruct (Dict.contains d k); [apply incl_refl|].
  now apply incl_appl, incl_refl.
Qed.

Lemma keys_grow_load (fs : FileSystem) (files : list string)
  (self : TextProcessor.t) :
  incl (Dict.keys (TextProcessor.docs_lines self))
       (Dict.keys (TextProcessor.docs_lines
                     (snd (TextProcessor.load fs self files)))).
Proof.
  revert self. induction files as [|f files IH]; intros self;
    [apply incl_refl|].
  cbn [TextProcessor.load].
  unfold TextProcessor._read_file, TextProcessor._read_lines.
  destruct (read_text fs f) as [raw|]; [|apply incl_refl].
  eapply incl_tran; [|apply IH].
  cbn [TextProcessor.docs_lines]. apply keys_grow_set.
Qed.

(** [process_documents] removes no document from the stores. *)
Lemma keys_grow_process_documents (fs : FileSystem) (self : TextProcessor.t)
  (paths : list string) :
  incl (Dict.keys (TextProcessor.docs_lines self))
       (Dict.keys (TextProcessor.docs_lines
                     (snd (TextProcessor.process_documents fs self paths)))).
Proof.
  unfold TextProcessor.process_documents.
  destruct (TextProcessor.resolve fs [] paths); [|apply incl_refl].
  apply keys_grow_load.
Qed.

(** What [_handle_load] makes of a session, in its two cases. *)
Lemma handle_load_cases (fs : FileSystem) (s : CLIManager.t)
  (chemins : list string) :
  let outcome :=
    TextProcessor.process_documents fs (CLIManager.text_processor s)
      chemins in
  let tp := snd outcome in
  CLIManager._handle_load fs s chemins
  = match fst outcome with
    | Raise e =>
        ({| CLIManager.text_processor := tp;
            CLIManager.freq_analyzer := CLIManager.freq_analyzer s;
            CLIManager.indexer := CLIManager.indexer s;
            CLIManager.retriever := CLIManager.retriever s;
            CLIManager.loaded := CLIManager.loaded s |}, Some e)
    | Ok _ =>
        ({| CLIManager.text_processor := tp;
            CLIManager.freq_analyzer :=
              {| FrequencyAnalyzer.freq_per_doc :=
                   Some (FrequencyAnalyzer.per_document
                           (TextProcessor.docs_tokens tp));
                 FrequencyAnalyzer.corpus_freq :=
                   Some (FrequencyAnalyzer.aggregate
                           (Dict.values
                              (FrequencyAnalyzer.per_document
                                 (TextProcessor.docs_tokens tp)))) |};
            CLIManager.indexer :=
              {| SimpleIndexer.index :=
                   Some (SimpleIndexer.built_index
                           (TextProcessor.docs_lines tp)) |};
            CLIManager.retriever := Some (retriever_of tp);
            CLIManager.loaded := true |}, None)
    end.
Proof.
  cbv zeta. unfold CLIManager._handle_load.
  destruct (TextProcessor.process_documents fs (CLIManager.text_processor s)
              chemins) as [[u|e] tp]; [|reflexivity].
  cbn [fst snd]. cbv zeta.
  rewrite (analyse_with_index _
             (SimpleIndexer.built_index (TextProcessor.docs_lines tp)));
    reflexivity.
Qed.

(** Every session of the command loop satisfies the invariant. *)
Lemma reachable_invariant (s : CLIManager.t) :
  reachable s -> session_invariant s.
Proof.
  induction 1 as [|fs chemins s Hs IH|s Hs IH].
  - split; [apply stores_agree_init | now repeat split].
  - destruct IH as [Hagree Hrest].
    rewrite handle_load_cases. cbv zeta.
    pose proof (stores_agree_process_documents fs
                  (CLIManager.text_processor s) chemins Hagree) as Hagree'.
    pose proof (keys_grow_process_documents fs
                  (CLIManager.text_processor s) chemins) as Hgrow.
    destruct (TextProcessor.process_documents fs
                (CLIManager.text_processor s) chemins) as [[u|e] tp];
      cbn [fst snd] in *; split; try assumption;
      cbn [CLIManager.loaded CLIManager.text_processor CLIManager.indexer
             CLIManager.freq_analyzer CLIManager.retriever].
    + exists (TextProcessor.docs_lines tp), (TextProcessor.docs_tokens tp).
      destruct Hagree' as [_ [Hl _]]. split; [assumption|].
      split; [apply incl_refl|]. now repeat split.
    + destruct (CLIManager.loaded s); [|assumption].
      destruct Hrest as [L [T [HL [Hincl Hmore]]]]. exists L, T.
      split; [assumption|]. split; [|assumption].
      eapply incl_tran; eassumption.
  - destruct IH as [Hagree Hrest]. unfold CLIManager.run_choice_2.
    destruct (CLIManager.loaded s) eqn:El; cbn [negb snd].
    + destruct Hrest as [L [T [HL [Hincl [Hix Hmore]]]]].
      rewrite (analyse_with_index s _ Hix). cbn [snd].
      split; [assumption|].
      cbn [CLIManager.loaded CLIManager.text_processor CLIManager.indexer
             CLIManager.freq_analyzer CLIManager.retriever].
      rewrite El.
      exists L, (TextProcessor.docs_tokens (CLIManager.text_processor s)).
      now repeat split.
    + split; [assumption|]. now rewrite El.
Qed.

(** X26: a load that fails leaves the index, the frequency tables, the
    retriever and the flag [loaded] of the session as they were: the
    exception [_handle_load] catches is the one [process_documents]
    raised, and only the stores of the processor may have changed. *)
Theorem failed_load_keeps_the_index_and_the_tables (fs : FileSystem)
  (s : CLIManager.t) (chemins : list string) (e : exn) :
  snd (CLIManager._handle_load fs s chemins) = Some e ->
  let s' := fst (CLIManager._handle_load fs s chemins) in
  TextProcessor.process_documents fs (CLIManager.text_processor s) chemins
  = (Raise e, CLIManager.text_processor s')
  /\ CLIManager.indexer s' = CLIManager.indexer s
  /\ CLIManager.freq_analyzer s' = CLIManager.freq_analyzer s
  /\ CLIManager.retriever s' = CLIManager.retriever s
  /\ CLIManager.loaded s' = CLIManager.loaded s.
Proof.
  cbv zeta. rewrite handle_load_cases. cbv zeta.
  destruct (TextProcessor.process_documents fs (CLIManager.text_processor s)
              chemins) as [[u|e'] tp]; cbn [fst snd]; [discriminate|].
  intros [= ->]. now repeat split.
Qed.

Lemma failed_load_keeps_the_index_and_the_tables_witness :
  snd (CLIManager._handle_load Scenario.fs_later Scenario.session
         ["b.txt"; "c.txt"]) = Some (IOError "c.txt")
  /\ TextProcessor.process_documents Scenario.fs_later
       (CLIManager.text_processor Scenario.session) ["b.txt"; "c.txt"]
     = (Raise (IOError "c.txt"),
        CLIManager.text_processor Scenario.stale_session)
  /\ CLIManager.indexer Scenario.stale_session
     = CLIManager.indexer Scenario.session
  /\ CLIManager.freq_analyzer Scenario.stale_session
     = CLIManager.freq_analyzer Scenario.session
  /\ CLIManager.retriever Scenario.stale_session
     = CLIManager.retriever Scenario.session
  /\ CLIManager.loaded Scenario.stale_session
     = CLIManager.loaded Scenario.session.
Proof.
  split; [vm_compute; reflexivity|].
  apply (failed_load_keeps_the_index_and_the_tables Scenario.fs_later
           Scenario.session ["b.txt"; "c.txt"] (IOError "c.txt")).
  vm_compute; reflexivity.
Defined.

(** X27: a load that succeeds, in any session of the command loop, sets
    [loaded], builds the index from the lines in store and the retriever
    from that index and the tables of the tokens in store. *)
Theorem successful_load_rebuilds_everything (fs : FileSystem)
  (s : CLIManager.t) (chemins : list string) :
  reachable s ->
  snd (CLIManager._handle_load fs s chemins) = None ->
  let s' := fst (CLIManager._handle_load fs s chemins) in
  TextProcessor.process_documents fs (CLIManager.text_processor s) chemins
  = (Ok tt, CLIManager.text_processor s')
  /\ index_current s'
  /\ CLIManager.retriever s'
     = Some (retriever_of (CLIManager.text_processor s')).
Proof.
  intros Hs. cbv zeta. rewrite handle_load_cases. cbv zeta.
  pose proof (reachable_invariant s Hs) as [Hagree _].
  pose proof (stores_agree_process_documents fs
                (CLIManager.text_processor s) chemins Hagree) as Hagree'.
  destruct (TextProcessor.process_documents fs (CLIManager.text_processor s)
              chemins) as [[[]|e] tp]; cbn [fst snd] in *; [|discriminate].
  intros _. split; [reflexivity|]. split; [|reflexivity].
  destruct Hagree' as [_ [Hl _]]. now repeat split.
Qed.

Lemma successful_load_rebuilds_everything_witness :
  reachable CLIManager.__init__
  /\ snd (CLIManager._handle_load Scenario.fs_two CLIManager.__init__
            ["a.txt"; "b.txt"]) = None
  /\ TextProcessor.process_documents Scenario.fs_two
       (CLIManager.text_processor CLIManager.__init__) ["a.txt"; "b.txt"]
     = (Ok tt, CLIManager.text_processor Scenario.session)
  /\ index_current Scenario.session
  /\ CLIManager.retriever Scenario.session
     = Some (retriever_of (CLIManager.text_processor Scenario.session)).
Proof.
  split; [apply reachable_init|]. split; [vm_compute; reflexivity|].
  apply (successful_load_rebuilds_everything Scenario.fs_two
           CLIManager.__init__ ["a.txt"; "b.txt"]);
    [apply reachable_init | vm_compute; reflexivity].
Defined.

Lemma report_documents_ok (docs_lines : dict (list string))
  (occurrences : dict (list Z)) :
  (forall filepath, In filepath (Dict.keys occurrences) ->
                    In filepath (Dict.keys docs_lines)) ->
  exists found,
    CLIManager.report_documents docs_lines occurrences = Ok found.
Proof.
  induction occurrences as [|[filepath lignes] occurrences IH]; intros H.
  - now exists [].
  - cbn [CLIManager.report_documents].
    destruct (Dict.get docs_lines filepath) as [lines|] eqn:E.
    + destruct IH as [found Hfound].
      { intros fp Hfp. apply H. now right. }
      rewrite Hfound. eexists. reflexivity.
    + exfalso. apply get_None_keys in E. apply E, H. now left.
Qed.

Lemma report_documents_In (docs_lines : dict (list string))
  (occurrences : dict (list Z))
  (found : list (string * list (Z * option string)))
  (doc : string) (entries : list (Z * option string)) :
  CLIManager.report_documents docs_lines occurrences = Ok found ->
  In (doc, entries) found ->
  exists lignes lines,
    In (doc, lignes) occurrences
    /\ Dict.get docs_lines doc = Some lines
    /\ entries = CLIManager.report_lines lines lignes.
Proof.
  revert found. induction occurrences as [|[filepath lignes] occurrences IH];
    intros found Hfound Hin.
  - injection Hfound as <-. destruct Hin.
  - cbn [CLIManager.report_documents] in Hfound.
    destruct (Dict.get docs_lines filepath) as [lines|] eqn:E;
      [|discriminate].
    destruct (CLIManager.report_documents docs_lines occurrences)
      as [found'|]; [|discriminate].
    injection Hfound as <-. destruct Hin as [Heq|Hin].
    + injection Heq as <- <-. exists lignes, lines.
      split; [now left|]. now split.
    + destruct (IH found' eq_refl Hin) as [l [ls [H1 H2]]].
      exists l, ls. split; [now right | assumption].
Qed.

(** The documents of an entry of the index are documents of the lines it
    was built from, and their lists are the occurrences of the word. *)
Lemma entry_of_built_index (L : dict (list string)) (mot doc : string)
  (entry : dict (list Z)) (lignes : list Z) :
  Dict.wf L ->
  Dict.get (SimpleIndexer.built_index L) mot = Some entry ->
  In (doc, lignes) entry ->
  exists lines,
    Dict.get L doc = Some lines /\ lignes = hits mot (Py.enumerate 1 lines).
Proof.
  intros Hwf Hentry Hin.
  apply (lookup_built_index L mot doc lignes Hwf).
  unfold lookup. rewrite Hentry. apply In_get; [|assumption].
  pose proof (built_index_wf L) as Hi. apply index_wf_values in Hi.
  rewrite Forall_forall in Hi. apply Hi.
  apply get_In in Hentry. unfold Dict.values.
  change entry with (snd (mot, entry)). now apply in_map.
Qed.

(** X28: in every session of the command loop the handlers that test
    [loaded] meet no missing attribute and no missing document:
    [_handle_search_word] returns a report for every input, and choice 2
    ends without error. *)
Theorem guarded_handlers_do_not_raise (s : CLIManager.t) (saisie : string) :
  reachable s ->
  (exists report, CLIManager._handle_search_word s saisie = Ok report)
  /\ fst (CLIManager.run_choice_2 s) = Ok tt.
Proof.
  intros Hs. apply reachable_invariant in Hs. destruct Hs as [_ Hrest].
  unfold CLIManager._handle_search_word, CLIManager.run_choice_2.
  destruct (CLIManager.loaded s); cbn [negb].
  - destruct Hrest as [L [T [HL [Hincl [Hix _]]]]]. split.
    + unfold SimpleIndexer.search_word. rewrite Hix, lower_idempotent.
      set (mot := Str.lower (Str.strip saisie)).
      unfold Dict.get_or.
      destruct (Dict.get (SimpleIndexer.built_index L) mot)
        as [entry|] eqn:E; [|eexists; reflexivity].
      destruct entry as [|item entry]; [eexists; reflexivity|].
      destruct (report_documents_ok
                  (TextProcessor.get_lines (CLIManager.text_processor s))
                  (item :: entry)) as [found Hfound].
      { intros filepath Hfp. apply Hincl.
        apply in_map_iff in Hfp. destruct Hfp as [[fp lignes] [<- Hfp]].
        destruct (entry_of_built_index L mot fp (item :: entry) lignes
                    HL E Hfp) as [lines [Hlines _]].
        apply get_In in Hlines. apply (in_map fst) in Hlines.
        exact Hlines. }
      rewrite Hfound. eexists. reflexivity.
    + now rewrite (analyse_with_index s _ Hix).
  - split; [eexists|]; reflexivity.
Qed.

Lemma guarded_handlers_do_not_raise_witness :
  reachable Scenario.stale_session
  /\ (exists report,
         CLIManager._handle_search_word Scenario.stale_session "cat"
         = Ok report)
  /\ fst (CLIManager.run_choice_2 Scenario.stale_session) = Ok tt.
Proof.
  assert (reachable Scenario.stale_session) as Hr
    by (apply reachable_load, reachable_load, reachable_init).
  split; [exact Hr|].
  apply (guarded_handlers_do_not_raise Scenario.stale_session "cat" Hr).
Defined.

(** X29: in a session whose index is that of the lines in store, as after
    a load that succeeds, every line [_handle_search_word] reports exists:
    each number reported for a document is printed with the line of that
    number in the store, and the word searched, stripped and lower-cased,
    is a token of that line. *)
Theorem search_reports_lines_with_the_word (s : CLIManager.t)
  (saisie mot : string) (found : list (string * list (Z * option string)))
  (doc : string) (entries : list (Z * option string)) (num : Z)
  (shown : option string) :
  index_current s ->
  CLIManager._handle_search_word s saisie
  = Ok (CLIManager.Occurrences mot found) ->
  In (doc, entries) found ->
  In (num, shown) entries ->
  mot = Str.lower (Str.strip saisie)
  /\ exists lines text,
       Dict.get (TextProcessor.get_lines (CLIManager.text_processor s)) doc
       = Some lines
       /\ line_at lines num = Some text
       /\ shown = Some text
       /\ In mot (SimpleIndexer.tokenize_line text).
Proof.
  intros [Hloaded [Hwf Hix]] Hreport Hdoc Hnum.
  unfold CLIManager._handle_search_word in Hreport.
  rewrite Hloaded in Hreport. cbn [negb] in Hreport.
  unfold SimpleIndexer.search_word in Hreport.
  rewrite Hix, lower_idempotent in Hreport.
  set (m := Str.lower (Str.strip saisie)) in *.
  set (L := TextProcessor.docs_lines (CLIManager.text_processor s)) in *.
  unfold Dict.get_or in Hreport.
  destruct (Dict.get (SimpleIndexer.built_index L) m) as [entry|] eqn:E;
    [|discriminate].
  destruct entry as [|item entry]; [discriminate|].
  destruct (CLIManager.report_documents
              (TextProcessor.get_lines (CLIManager.text_processor s))
              (item :: entry)) as [found'|] eqn:Ef; [|discriminate].
  injection Hreport as <- <-. split; [reflexivity|].
  destruct (report_documents_In _ _ _ doc entries Ef Hdoc)
    as [lignes [lines [Hin [Hlines ->]]]].
  destruct (entry_of_built_index L m doc (item :: entry) lignes Hwf E Hin)
    as [lines' [Hlines' ->]].
  unfold TextProcessor.get_lines in Hlines. fold L in Hlines.
  rewrite Hlines in Hlines'. injection Hlines' as <-.
  unfold CLIManager.report_lines in Hnum. apply in_map_iff in Hnum.
  destruct Hnum as [k [Hk Hhit]].
  pose proof (hits_bounds m lines 1) as Hb. rewrite Forall_forall in Hb.
  specialize (Hb k Hhit). cbv beta in Hb.
  replace ((1 <=? k) && (k <=? Z.of_nat (length lines))) with true in Hk
    by (symmetry; apply andb_true_iff; split; apply Z.leb_le; lia).
  injection Hk as <- <-.
  exists lines, (nth (Z.to_nat (k - 1)) lines "").
  assert (line_at lines k = Some (nth (Z.to_nat (k - 1)) lines "")) as Hline.
  { unfold line_at.
    replace (1 <=? k) with true by (symmetry; apply Z.leb_le; lia).
    apply nth_error_nth'. lia. }
  split; [exact Hlines|]. split; [assumption|]. split; [reflexivity|].
  apply (count_occ_In Z.eq_dec) in Hhit. rewrite hits_count in Hhit.
  unfold line_at in Hline. destruct (1 <=? k); [|discriminate].
  rewrite Hline in Hhit. unfold occurrences_on in Hhit.
  now apply (count_occ_In string_dec).
Qed.

Lemma search_reports_lines_with_the_word_witness :
  index_current Scenario.session
  /\ CLIManager._handle_search_word Scenario.session " Dog "
     = Ok (CLIManager.Occurrences "dog"
             [("a.txt", [(2, Some "The cat saw a dog.")])])
  /\ In ("a.txt", [(2, Some "The cat saw a dog.")])
        [("a.txt", [(2, Some "The cat saw a dog.")])]
  /\ In (2, Some "The cat saw a dog.") [(2, Some "The cat saw a dog.")]
  /\ "dog" = Str.lower (Str.strip " Dog ")
  /\ exists lines text,
       Dict.get (TextProcessor.get_lines
                   (CLIManager.text_processor Scenario.session)) "a.txt"
       = Some lines
       /\ line_at lines 2 = Some text
       /\ Some "The cat saw a dog." = Some text
       /\ In "dog" (SimpleIndexer.tokenize_line text).
Proof.
  assert (index_current Scenario.session) as Hc
    by (repeat split; vm_compute; reflexivity).
  split; [exact Hc|]. split; [vm_compute; reflexivity|].
  split; [now left|]. split; [now left|].
  apply (search_reports_lines_with_the_word Scenario.session " Dog " "dog"
           [("a.txt", [(2, Some "The cat saw a dog.")])] "a.txt"
           [(2, Some "The cat saw a dog.")] 2 (Some "The cat saw a dog."));
    [exact Hc | vm_compute; reflexivity | now left | now left].
Defined.


